(** * Voice-Controlled Task Manager: the Voice Interaction Engine

    A shallow embedding of the three cooperating machines of the repository:

    - [Voice]: the [VoiceManager] class of [src/lib/voice.ts] (the revision
      that carries [isRecognizing] and [permanentlyDisabled]), as a step
      function over recognizer events, timer firings and API calls;
    - [Dialogue]: [taskQuestions] and [parseDateFromSpeech] of
      [src/lib/voice.ts], [parseReminderFromSpeech] of [src/lib/reminders.ts]
      and the methods of [src/components/VoiceTaskCreator.tsx], each a
      closure over the render that made it;
    - [Reminders]: the [ReminderManager] class of [src/lib/reminders.ts].

    Conventions.  A JavaScript string is a [string]; transcripts are taken to
    be ASCII text (the recognizer language is en-US), so [toLowerCase] maps
    A-Z to a-z and [trim] strips ASCII white space.  An instant is its number
    of milliseconds since the epoch, a [Z]; a [Date] object computed from
    what was said is that or the Invalid Date; the local time zone is a fixed
    offset from UTC.  Console output is not modelled. *)

From Stdlib Require Import Bool Arith ZArith List Lia.
From Stdlib Require Import Strings.Ascii Strings.String.
Import ListNotations.

Local Open Scope string_scope.
Local Open Scope list_scope.
Local Open Scope nat_scope.

(* ================================================================== *)
(** * JavaScript string operations used by the engine *)
(* ================================================================== *)

Module JsString.

Definition lowerChar (c : ascii) : ascii :=
  let n := nat_of_ascii c in
  if (65 <=? n) && (n <=? 90) then ascii_of_nat (n + 32) else c.

(** [String.prototype.toLowerCase]. *)
Fixpoint toLowerCase (s : string) : string :=
  match s with
  | EmptyString => EmptyString
  | String c r => String (lowerChar c) (toLowerCase r)
  end.

(** TAB, LF, VT, FF, CR and SPACE. *)
Definition isWhiteSpace (c : ascii) : bool :=
  let n := nat_of_ascii c in
  ((9 <=? n) && (n <=? 13)) || (n =? 32).

Fixpoint trimStart (s : string) : string :=
  match s with
  | EmptyString => EmptyString
  | String c r => if isWhiteSpace c then trimStart r else s
  end.

Fixpoint trimEnd (s : string) : string :=
  match s with
  | EmptyString => EmptyString
  | String c r =>
      match trimEnd r with
      | EmptyString => if isWhiteSpace c then EmptyString else String c EmptyString
      | r' => String c r'
      end
  end.

(** [String.prototype.trim]. *)
Definition trim (s : string) : string := trimEnd (trimStart s).

(** [s.includes(sub)]: [sub] occurs in [s] as a contiguous substring. *)
Fixpoint includes (s sub : string) : bool :=
  if String.prefix sub s then true
  else match s with
       | EmptyString => false
       | String _ r => includes r sub
       end.

(** Truthiness of a string: only the empty string is falsy. *)
Definition truthy (s : string) : bool :=
  match s with EmptyString => false | _ => true end.

End JsString.

Import JsString.

(* ================================================================== *)
(** * The Speech Input Controller: [VoiceManager] *)
(* ================================================================== *)

Module Voice.

(** [event.error] of [SpeechRecognitionErrorEvent]. *)
Inductive ErrorCode :=
| Network | NotAllowed | NoSpeech | Aborted | OtherError (code : string).

(** The four [setTimeout] closures the class creates, by creation site. *)
Inductive TimerBody :=
| RestartAfterEnd        (* onend, 1500 ms *)
| RetryAfterNetwork      (* onerror "network", 3000 ms *)
| RetryAfterNoSpeech     (* onerror "no-speech", 1000 ms *)
| RetryAfterUnknown.     (* onerror default, 2000 ms, handle not kept *)

Definition delayOf (b : TimerBody) : Z :=
  match b with
  | RestartAfterEnd => 1500
  | RetryAfterNetwork => 3000
  | RetryAfterNoSpeech => 1000
  | RetryAfterUnknown => 2000
  end%Z.

Inductive AlertKind :=
| AlertInsecureOrigin | AlertServiceUnreachable | AlertMicrophoneDenied.

(** What the controller does to the outside world. *)
Inductive Effect :=
| RecognitionStart                 (* recognition.start() was called *)
| RecognitionStop                  (* recognition.stop() was called *)
| Alert (k : AlertKind)
| SynthesisCancel
| SynthesisSpeak (text : string)
| WakeWordCallback                 (* onWakeWordDetected() *)
| SpeechCallback (transcript : string)
| ListeningCallback (listening : bool).

(** What [recognition.start()] and [recognition.stop()] do when called. *)
Inductive StartOutcome := StartOk | StartInvalidState | StartOtherFailure.

Record Oracle := {
  startOutcome : StartOutcome;
  stopThrows : bool
}.

(** [location.protocol] and [location.hostname], as the tests made of them. *)
Record Location := {
  isHttps : bool;
  isLocalhost : bool
}.

Record VoiceManager := {
  recognition : bool;              (* recognition !== null *)
  synthesis : bool;
  isListening : bool;
  isWaitingForWakeWord : bool;
  onWakeWordDetected : bool;       (* a callback is registered *)
  onSpeechResult : bool;
  onListeningStateChange : bool;
  retryTimeoutId : option nat;
  retryCount : nat;
  isRecognizing : bool;
  hasShownSecurityAlert : bool;
  permanentlyDisabled : bool;
  (* the platform's timer table, and the next handle it hands out *)
  timers : list (nat * TimerBody);
  nextTimer : nat
}.

Definition wakeWord : string := "hi voice".
Definition maxRetries : nat := 3.

(** The state after the constructor ran. *)
Definition create (supported : bool) : VoiceManager := {|
  recognition := supported;
  synthesis := true;
  isListening := false;
  isWaitingForWakeWord := false;
  onWakeWordDetected := false;
  onSpeechResult := false;
  onListeningStateChange := false;
  retryTimeoutId := None;
  retryCount := 0;
  isRecognizing := false;
  hasShownSecurityAlert := false;
  permanentlyDisabled := false;
  timers := [];
  nextTimer := 1
|}.

(** ** A state-and-output monad for the methods *)

Definition Op := VoiceManager -> VoiceManager * list Effect.

Definition skip : Op := fun s => (s, []).
Definition emit (e : Effect) : Op := fun s => (s, [e]).
Definition modify (f : VoiceManager -> VoiceManager) : Op := fun s => (f s, []).
Definition andThen (f g : Op) : Op :=
  fun s => let (s1, o1) := f s in let (s2, o2) := g s1 in (s2, o1 ++ o2).
Definition reading {A} (get : VoiceManager -> A) (k : A -> Op) : Op :=
  fun s => k (get s) s.
Definition when (b : bool) (f : Op) : Op := if b then f else skip.

Notation "f ;; g" := (andThen f g) (at level 61, right associativity).

(** Field updates. *)
Definition set_isListening b s := {|
  recognition := recognition s; synthesis := synthesis s; isListening := b;
  isWaitingForWakeWord := isWaitingForWakeWord s;
  onWakeWordDetected := onWakeWordDetected s; onSpeechResult := onSpeechResult s;
  onListeningStateChange := onListeningStateChange s;
  retryTimeoutId := retryTimeoutId s; retryCount := retryCount s;
  isRecognizing := isRecognizing s; hasShownSecurityAlert := hasShownSecurityAlert s;
  permanentlyDisabled := permanentlyDisabled s;
  timers := timers s; nextTimer := nextTimer s |}.
Definition set_isWaitingForWakeWord b s := {|
  recognition := recognition s; synthesis := synthesis s; isListening := isListening s;
  isWaitingForWakeWord := b;
  onWakeWordDetected := onWakeWordDetected s; onSpeechResult := onSpeechResult s;
  onListeningStateChange := onListeningStateChange s;
  retryTimeoutId := retryTimeoutId s; retryCount := retryCount s;
  isRecognizing := isRecognizing s; hasShownSecurityAlert := hasShownSecurityAlert s;
  permanentlyDisabled := permanentlyDisabled s;
  timers := timers s; nextTimer := nextTimer s |}.
Definition set_callbacks w sp l s := {|
  recognition := recognition s; synthesis := synthesis s; isListening := isListening s;
  isWaitingForWakeWord := isWaitingForWakeWord s;
  onWakeWordDetected := w; onSpeechResult := sp;
  onListeningStateChange := l;
  retryTimeoutId := retryTimeoutId s; retryCount := retryCount s;
  isRecognizing := isRecognizing s; hasShownSecurityAlert := hasShownSecurityAlert s;
  permanentlyDisabled := permanentlyDisabled s;
  timers := timers s; nextTimer := nextTimer s |}.
Definition set_retryTimeoutId t s := {|
  recognition := recognition s; synthesis := synthesis s; isListening := isListening s;
  isWaitingForWakeWord := isWaitingForWakeWord s;
  onWakeWordDetected := onWakeWordDetected s; onSpeechResult := onSpeechResult s;
  onListeningStateChange := onListeningStateChange s;
  retryTimeoutId := t; retryCount := retryCount s;
  isRecognizing := isRecognizing s; hasShownSecurityAlert := hasShownSecurityAlert s;
  permanentlyDisabled := permanentlyDisabled s;
  timers := timers s; nextTimer := nextTimer s |}.
Definition set_retryCount n s := {|
  recognition := recognition s; synthesis := synthesis s; isListening := isListening s;
  isWaitingForWakeWord := isWaitingForWakeWord s;
  onWakeWordDetected := onWakeWordDetected s; onSpeechResult := onSpeechResult s;
  onListeningStateChange := onListeningStateChange s;
  retryTimeoutId := retryTimeoutId s; retryCount := n;
  isRecognizing := isRecognizing s; hasShownSecurityAlert := hasShownSecurityAlert s;
  permanentlyDisabled := permanentlyDisabled s;
  timers := timers s; nextTimer := nextTimer s |}.
Definition set_isRecognizing b s := {|
  recognition := recognition s; synthesis := synthesis s; isListening := isListening s;
  isWaitingForWakeWord := isWaitingForWakeWord s;
  onWakeWordDetected := onWakeWordDetected s; onSpeechResult := onSpeechResult s;
  onListeningStateChange := onListeningStateChange s;
  retryTimeoutId := retryTimeoutId s; retryCount := retryCount s;
  isRecognizing := b; hasShownSecurityAlert := hasShownSecurityAlert s;
  permanentlyDisabled := permanentlyDisabled s;
  timers := timers s; nextTimer := nextTimer s |}.
Definition set_hasShownSecurityAlert b s := {|
  recognition := recognition s; synthesis := synthesis s; isListening := isListening s;
  isWaitingForWakeWord := isWaitingForWakeWord s;
  onWakeWordDetected := onWakeWordDetected s; onSpeechResult := onSpeechResult s;
  onListeningStateChange := onListeningStateChange s;
  retryTimeoutId := retryTimeoutId s; retryCount := retryCount s;
  isRecognizing := isRecognizing s; hasShownSecurityAlert := b;
  permanentlyDisabled := permanentlyDisabled s;
  timers := timers s; nextTimer := nextTimer s |}.
Definition set_permanentlyDisabled b s := {|
  recognition := recognition s; synthesis := synthesis s; isListening := isListening s;
  isWaitingForWakeWord := isWaitingForWakeWord s;
  onWakeWordDetected := onWakeWordDetected s; onSpeechResult := onSpeechResult s;
  onListeningStateChange := onListeningStateChange s;
  retryTimeoutId := retryTimeoutId s; retryCount := retryCount s;
  isRecognizing := isRecognizing s; hasShownSecurityAlert := hasShownSecurityAlert s;
  permanentlyDisabled := b;
  timers := timers s; nextTimer := nextTimer s |}.
Definition set_timers ts n s := {|
  recognition := recognition s; synthesis := synthesis s; isListening := isListening s;
  isWaitingForWakeWord := isWaitingForWakeWord s;
  onWakeWordDetected := onWakeWordDetected s; onSpeechResult := onSpeechResult s;
  onListeningStateChange := onListeningStateChange s;
  retryTimeoutId := retryTimeoutId s; retryCount := retryCount s;
  isRecognizing := isRecognizing s; hasShownSecurityAlert := hasShownSecurityAlert s;
  permanentlyDisabled := permanentlyDisabled s;
  timers := ts; nextTimer := n |}.

(** ** Platform timers *)

Definition removeTimer (h : nat) (ts : list (nat * TimerBody)) :=
  filter (fun t => negb (fst t =? h)) ts.

Fixpoint lookupTimer (h : nat) (ts : list (nat * TimerBody)) : option TimerBody :=
  match ts with
  | [] => None
  | (h', b) :: r => if h' =? h then Some b else lookupTimer h r
  end.

(** [window.setTimeout(body, delayOf body)]: the new handle. *)
Definition setTimeout (b : TimerBody) (k : nat -> Op) : Op :=
  fun s =>
    let h := nextTimer s in
    k h (set_timers (timers s ++ [(h, b)]) (S h) s).

Definition clearTimeout (h : nat) : Op :=
  modify (fun s => set_timers (removeTimer h (timers s)) (nextTimer s) s).

(** [if (this.retryTimeoutId) { clearTimeout(..); this.retryTimeoutId = undefined }] *)
Definition cancelRetry : Op :=
  reading retryTimeoutId (fun t =>
    match t with
    | Some h => clearTimeout h ;; modify (set_retryTimeoutId None)
    | None => skip
    end).

(** [this.onListeningStateChange?.(b)] *)
Definition notifyListening (b : bool) : Op :=
  reading onListeningStateChange (fun cb => when cb (emit (ListeningCallback b))).

(** ** Safe start and stop *)

Definition safeStart (o : Oracle) : Op :=
  reading permanentlyDisabled (fun disabled =>
    if disabled then skip
    else
      reading (fun s => negb (recognition s) || isRecognizing s) (fun blocked =>
        if blocked then skip
        else
          emit RecognitionStart ;;
          match startOutcome o with
          | StartOk => modify (set_isRecognizing true)
          | StartInvalidState => modify (set_isRecognizing true)
          | StartOtherFailure => skip
          end)).

Definition safeStop (o : Oracle) : Op :=
  reading (fun s => recognition s && isRecognizing s) (fun running =>
    when running
      (emit RecognitionStop ;;
       when (negb (stopThrows o)) (modify (set_isRecognizing false)))).

(** ** Public API *)

Definition startWakeWordListening (o : Oracle) : Op :=
  modify (set_isWaitingForWakeWord true) ;;
  reading isRecognizing (fun r => when (negb r) (modify (set_retryCount 0))) ;;
  safeStart o.

Definition stopWakeWordListening (o : Oracle) : Op :=
  modify (set_isWaitingForWakeWord false) ;;
  cancelRetry ;;
  safeStop o.

Definition startActiveListening (o : Oracle) : Op :=
  modify (set_isWaitingForWakeWord false) ;;
  safeStart o.

Definition stopActiveListening (o : Oracle) : Op := safeStop o.

Definition resetRetryCount : Op :=
  modify (set_retryCount 0) ;;
  cancelRetry.

Definition speak (text : string) : Op :=
  reading synthesis (fun present =>
    when present (emit SynthesisCancel ;; emit (SynthesisSpeak text))).

Definition handleWakeWordDetected : Op :=
  modify (set_isWaitingForWakeWord false) ;;
  resetRetryCount ;;
  reading onWakeWordDetected (fun cb => when cb (emit WakeWordCallback)) ;;
  speak "Hello! I'm listening. How can I help you with your tasks?".

Definition cleanup (o : Oracle) : Op :=
  stopWakeWordListening o ;;
  stopActiveListening o ;;
  resetRetryCount.

(** ** Recognition handlers *)

Definition onstart : Op :=
  modify (set_isRecognizing true) ;;
  modify (set_isListening true) ;;
  notifyListening true.

Definition onend : Op :=
  modify (set_isRecognizing false) ;;
  modify (set_isListening false) ;;
  notifyListening false ;;
  reading (fun s => isWaitingForWakeWord s && negb (permanentlyDisabled s)
                    && (retryCount s <? maxRetries)) (fun restart =>
    when restart
      (setTimeout RestartAfterEnd (fun h => modify (set_retryTimeoutId (Some h))))).

(** [lastResult.isFinal] and [lastResult[0].transcript] of the event. *)
Definition onresult (final : bool) (rawTranscript : string) : Op :=
  when final
    (let transcript := trim (toLowerCase rawTranscript) in
     modify (set_retryCount 0) ;;
     reading isWaitingForWakeWord (fun waiting =>
       if waiting then
         when (includes transcript wakeWord) handleWakeWordDetected
       else
         reading onSpeechResult (fun cb => when cb (emit (SpeechCallback transcript))))).

Definition onerror (loc : Location) (code : ErrorCode) : Op :=
  cancelRetry ;;
  match code with
  | Network =>
      if negb (isHttps loc) && negb (isLocalhost loc) then
        modify (set_isWaitingForWakeWord false) ;;
        modify (set_permanentlyDisabled true) ;;
        reading hasShownSecurityAlert (fun shown =>
          when (negb shown)
            (modify (set_hasShownSecurityAlert true) ;; emit (Alert AlertInsecureOrigin)))
      else
        reading retryCount (fun n =>
          if n <? maxRetries then
            modify (set_retryCount (S n)) ;;
            setTimeout RetryAfterNetwork (fun h => modify (set_retryTimeoutId (Some h)))
          else
            modify (set_isWaitingForWakeWord false) ;;
            modify (set_permanentlyDisabled true) ;;
            notifyListening false ;;
            reading hasShownSecurityAlert (fun shown =>
              when (negb shown)
                (modify (set_hasShownSecurityAlert true) ;;
                 emit (Alert AlertServiceUnreachable))))
  | NotAllowed =>
      emit (Alert AlertMicrophoneDenied) ;;
      modify (set_isWaitingForWakeWord false) ;;
      notifyListening false
  | NoSpeech =>
      reading (fun s => isWaitingForWakeWord s && (retryCount s <? maxRetries)) (fun retry =>
        when retry
          (setTimeout RetryAfterNoSpeech (fun h => modify (set_retryTimeoutId (Some h)))))
  | Aborted => skip
  | OtherError _ =>
      reading (fun s => (isWaitingForWakeWord s, retryCount s)) (fun p =>
        let (waiting, n) := p in
        if waiting && (n <? maxRetries) then
          modify (set_retryCount (S n)) ;;
          setTimeout RetryAfterUnknown (fun _ => skip)
        else if maxRetries <=? n then
          modify (set_isWaitingForWakeWord false) ;;
          notifyListening false
        else skip)
  end.

(** The body of a timer closure, run when the platform fires it. *)
Definition runTimer (o : Oracle) (b : TimerBody) : Op :=
  match b with
  | RestartAfterEnd =>
      reading (fun s => isWaitingForWakeWord s && negb (isRecognizing s)
                        && negb (permanentlyDisabled s)) (fun go =>
        when go (safeStart o))
  | RetryAfterNetwork =>
      reading (fun s => isWaitingForWakeWord s && negb (isRecognizing s)) (fun go =>
        when go (safeStart o))
  | RetryAfterNoSpeech =>
      reading (fun s => negb (isRecognizing s)) (fun go => when go (safeStart o))
  | RetryAfterUnknown =>
      reading (fun s => negb (isRecognizing s)) (fun go => when go (safeStart o))
  end.

(** ** The controller as an event-driven machine *)

Inductive Event :=
| OnStart
| OnEnd
| OnResult (final : bool) (rawTranscript : string)
| OnError (code : ErrorCode)
| TimerFired (handle : nat)
| StartWakeWordListening
| StopWakeWordListening
| StartActiveListening
| StopActiveListening
| ResetRetryCount
| Cleanup
| RegisterOnWakeWord
| RegisterOnSpeech
| RegisterOnListeningChange.

Definition step (loc : Location) (o : Oracle) (e : Event) : Op :=
  match e with
  | OnStart => onstart
  | OnEnd => onend
  | OnResult final raw => onresult final raw
  | OnError code => onerror loc code
  | TimerFired h =>
      reading (fun s => lookupTimer h (timers s)) (fun found =>
        match found with
        | Some b => clearTimeout h ;; runTimer o b
        | None => skip
        end)
  | StartWakeWordListening => startWakeWordListening o
  | StopWakeWordListening => stopWakeWordListening o
  | StartActiveListening => startActiveListening o
  | StopActiveListening => stopActiveListening o
  | ResetRetryCount => resetRetryCount
  | Cleanup => cleanup o
  | RegisterOnWakeWord =>
      modify (fun s => set_callbacks true (onSpeechResult s) (onListeningStateChange s) s)
  | RegisterOnSpeech =>
      modify (fun s => set_callbacks (onWakeWordDetected s) true (onListeningStateChange s) s)
  | RegisterOnListeningChange =>
      modify (fun s => set_callbacks (onWakeWordDetected s) (onSpeechResult s) true s)
  end.

Fixpoint run (loc : Location) (es : list (Oracle * Event)) : Op :=
  match es with
  | [] => skip
  | (o, e) :: r => step loc o e ;; run loc r
  end.

(** [isDisabled()] *)
Definition isDisabled (s : VoiceManager) : bool := permanentlyDisabled s.

(** ** Classes of events, and the runs used as examples *)

(** A secure origin: HTTPS, or a local host. *)
Definition secureOrigin (loc : Location) : bool := isHttps loc || isLocalhost loc.

(** Recognizer life-cycle events and timer firings: what happens between two
    errors of a run when nobody speaks and the application calls nothing. *)
Definition lifeCycle (e : Event) : bool :=
  match e with
  | OnStart | OnEnd | TimerFired _ | OnResult false _ => true
  | _ => false
  end.

Definition networkOrLifeCycle (e : Event) : bool :=
  match e with
  | OnError Network => true
  | _ => lifeCycle e
  end.

Fixpoint networkErrors (es : list (Oracle * Event)) : nat :=
  match es with
  | [] => 0
  | (_, OnError Network) :: r => S (networkErrors r)
  | _ :: r => networkErrors r
  end.

(** The events that assign 0 to [retryCount]. *)
Definition resetsRetryCount (e : Event) (s : VoiceManager) : bool :=
  match e with
  | OnResult true _ => true
  | StartWakeWordListening => negb (isRecognizing s)
  | ResetRetryCount => true
  | Cleanup => true
  | _ => false
  end.

Definition finalResults (o : Oracle) (transcripts : list string) : list (Oracle * Event) :=
  map (fun raw => (o, OnResult true raw)) transcripts.

Definition localhost : Location := {| isHttps := false; isLocalhost := true |}.
Definition healthy : Oracle := {| startOutcome := StartOk; stopThrows := false |}.
Definition events (es : list Event) : list (Oracle * Event) :=
  map (fun e => (healthy, e)) es.

(** The application registers its callbacks and starts wake-word listening;
    the recognizer reports that the session started. *)
Definition listening : VoiceManager :=
  fst (run localhost
         (events [RegisterOnWakeWord; RegisterOnListeningChange; RegisterOnSpeech;
                  StartWakeWordListening; OnStart])
         (create true)).

(** Three times in a row: a network error, the session ends, the restart
    timer fires and the recognizer starts again (the slower retry timer of the
    error then finds it running); after the third error the session ends and
    no restart is scheduled. *)
Definition threeNetworkErrors : list (Oracle * Event) :=
  events
    [OnError Network; OnEnd; TimerFired 2; OnStart; TimerFired 1;
     OnError Network; OnEnd; TimerFired 4; OnStart; TimerFired 3;
     OnError Network; OnEnd].

(** The retry timer of the third error restarts the recognizer, which fails
    a fourth time. *)
Definition fourNetworkErrors : list (Oracle * Event) :=
  threeNetworkErrors ++ events [TimerFired 5; OnStart; OnError Network; OnEnd].

Definition deniedRun : list (Oracle * Event) :=
  events [OnError NotAllowed; OnEnd].

Definition twoNetworkErrors : list (Oracle * Event) :=
  firstn 7 threeNetworkErrors.

End Voice.

(* ================================================================== *)
(** * Dates *)
(* ================================================================== *)

Module JsDate.

Local Open Scope Z_scope.

Definition msPerMinute : Z := 60000.
Definition msPerHour : Z := 3600000.
Definition msPerDay : Z := 86400000.

(** What the platform supplies: the clock read by [new Date()], the offset of
    local time from UTC in milliseconds, and the locale renderings
    [new Date(iso).toLocaleDateString()] and [date.toLocaleString()]. *)
Record Platform := {
  now : Z;
  tzOffset : Z;
  toLocaleDateString : string -> string;
  toLocaleString : Z -> string
}.

(** Days since 1970-01-01 of the UTC calendar day that holds instant [t]. *)
Definition dayNumber (t : Z) : Z := t / msPerDay.

(** Year, month and day of a day number (proleptic Gregorian calendar). *)
Definition civilFromDays (days : Z) : Z * Z * Z :=
  let z := days + 719468 in
  let era := z / 146097 in
  let doe := z - era * 146097 in
  let yoe := (doe - doe / 1460 + doe / 36524 - doe / 146096) / 365 in
  let y := yoe + era * 400 in
  let doy := doe - (365 * yoe + yoe / 4 - yoe / 100) in
  let mp := (5 * doy + 2) / 153 in
  let d := doy - (153 * mp + 2) / 5 + 1 in
  let m := if mp <? 10 then mp + 3 else mp - 9 in
  (if m <=? 2 then y + 1 else y, m, d).

Definition digit (n : Z) : ascii := ascii_of_nat (48 + Z.to_nat (n mod 10)).

(** The last [width] decimal digits of [n], zero padded. *)
Fixpoint padDigits (width : nat) (n : Z) : string :=
  match width with
  | O => EmptyString
  | S w => (padDigits w (n / 10) ++ String (digit n) EmptyString)%string
  end.

(** Four digits, or a sign and six digits outside 0000..9999. *)
Definition yearString (y : Z) : string :=
  if (0 <=? y) && (y <=? 9999) then padDigits 4 y
  else if y <? 0 then ("-" ++ padDigits 6 (- y))%string
  else ("+" ++ padDigits 6 y)%string.

(** [date.toISOString().split("T")[0]] *)
Definition isoDate (t : Z) : string :=
  let '(y, m, d) := civilFromDays (dayNumber t) in
  (yearString y ++ "-" ++ padDigits 2 m ++ "-" ++ padDigits 2 d)%string.

(** [date.getDay()]: the local day of the week, 0 for Sunday. *)
Definition getDay (p : Platform) (t : Z) : Z :=
  (dayNumber (t + tzOffset p) + 4) mod 7.

(** [d.setDate(d.getDate() + k)] *)
Definition addDays (t k : Z) : Z := t + k * msPerDay.

(** [d.setHours(h, 0, 0, 0)]: hour [h] of the local day of [t]. *)
Definition setHours (p : Platform) (t h : Z) : Z :=
  dayNumber (t + tzOffset p) * msPerDay + h * msPerHour - tzOffset p.

(** A [Date] object: a time value within 8.64e15 ms of the epoch, or the
    Invalid Date, whose time value is NaN. *)
Inductive Date :=
| ValidDate (t : Z)
| InvalidDate.

Definition maxTime : Z := 8640000000000000.

(** [TimeClip]: what a [Date] keeps of a computed time value. *)
Definition timeClip (t : Z) : Date :=
  if Z.abs t <=? maxTime then ValidDate t else InvalidDate.

(** A setter applied to a [Date]: the Invalid Date stays invalid. *)
Definition updateDate (f : Z -> Z) (d : Date) : Date :=
  match d with
  | ValidDate t => timeClip (f t)
  | InvalidDate => InvalidDate
  end.

(** [date.toLocaleString()] *)
Definition dateToLocaleString (p : Platform) (d : Date) : string :=
  match d with
  | ValidDate t => toLocaleString p t
  | InvalidDate => "Invalid Date"
  end.

(** A platform whose clock reads a time from 1970 on within the range of
    [Date], and whose zone lies less than a day from UTC.  The time values
    of the model are sums of integers; on such a platform every sum that
    ends in a valid [Date] stays below 2^53, where the platform's double
    arithmetic is exact. *)
Definition ordinary (p : Platform) : Prop :=
  0 <= now p <= maxTime /\ Z.abs (tzOffset p) < msPerDay.

End JsDate.

(* ================================================================== *)
(** * The Dialogue Engine *)
(* ================================================================== *)

Module Dialogue.

Import JsDate.

(** ** [parseDateFromSpeech] (src/lib/voice.ts) *)

Definition parseDateFromSpeech (p : Platform) (speech : string) : string :=
  let text := toLowerCase speech in
  let today := now p in
  if includes text "today" then isoDate today
  else if includes text "tomorrow" then isoDate (addDays today 1)
  else if includes text "next week" then isoDate (addDays today 7)
  else if includes text "monday" then
    let r := ((1 + 7 - getDay p today) mod 7)%Z in
    let diff := (if r =? 0 then 7 else r)%Z in
    isoDate (addDays today diff)
  else "".

(** ** [parseReminderFromSpeech] (src/lib/reminders.ts) *)

Definition isDigit (c : ascii) : bool :=
  let n := nat_of_ascii c in (48 <=? n) && (n <=? 57).

(** The longest run of digits at the head of [s], and what follows it. *)
Fixpoint spanDigits (s : string) : string * string :=
  match s with
  | EmptyString => (EmptyString, EmptyString)
  | String c r =>
      if isDigit c then let (ds, rest) := spanDigits r in (String c ds, rest)
      else (EmptyString, s)
  end.

Fixpoint dropPrefix (n : nat) (s : string) : string :=
  match n, s with
  | O, _ => s
  | S k, String _ r => dropPrefix k r
  | S _, EmptyString => EmptyString
  end.

(** The regular expression [pre(\d+)post] tried at the head of [s]. *)
Definition matchHere (pre post s : string) : option string :=
  if String.prefix pre s then
    let (ds, rest) := spanDigits (dropPrefix (String.length pre) s) in
    if truthy ds && String.prefix post rest then Some ds else None
  else None.

(** [s.match(/pre(\d+)post/)]: the captured digits of the leftmost match. *)
Fixpoint matchNumber (pre post s : string) : option string :=
  match matchHere pre post s with
  | Some ds => Some ds
  | None =>
      match s with
      | EmptyString => None
      | String _ r => matchNumber pre post r
      end
  end.

(** [parseInt] of a string of digits. *)
Fixpoint parseDigits (acc : Z) (s : string) : Z :=
  match s with
  | EmptyString => acc
  | String c r => parseDigits (10 * acc + Z.of_nat (nat_of_ascii c - 48)) r
  end.

Definition parseInt (s : string) : Z := parseDigits 0 s.

(** [new Date()], then the setters of the matching branch.  [parseInt] of
    a run of digits is the integer it spells while that is below 2^53; a
    greater one leaves the range of [Date] on every [ordinary] platform. *)
Definition parseReminderFromSpeech (p : Platform) (speech : string) : option Date :=
  let text := toLowerCase speech in
  let today := timeClip (now p) in
  match matchNumber "in " " minute" text with
  | Some ds => Some (updateDate (fun t => t + parseInt ds * msPerMinute)%Z today)
  | None =>
      match matchNumber "in " " hour" text with
      | Some ds => Some (updateDate (fun t => t + parseInt ds * msPerHour)%Z today)
      | None =>
          if includes text "tomorrow" then
            let reminderTime := updateDate (fun t => addDays t 1) today in
            match matchNumber "at " "" text with
            | Some ds => Some (updateDate (fun t => setHours p t (parseInt ds)) reminderTime)
            | None => Some (updateDate (fun t => setHours p t 9) reminderTime)
            end
          else if includes text "next week" then
            Some (updateDate (fun t => setHours p t 9)
                    (updateDate (fun t => addDays t 7) today))
          else None
      end
  end.

(** ** [taskQuestions] (src/lib/voice.ts) *)

Inductive Field := Title | Description | Priority | Category | DueDate.

Inductive QuestionType := TextQuestion | SelectQuestion | DateQuestion.

Record TaskQuestion := {
  id : string;
  question : string;
  field : Field;
  type : QuestionType;
  options : list string;
  validation : option (string -> bool);
  followUp : string
}.

Definition taskQuestions : list TaskQuestion := [
  {| id := "title";
     question := "What would you like to call this task?";
     field := Title; type := TextQuestion; options := [];
     validation := Some (fun value => 0 <? String.length (trim value));
     followUp := "Got it!" |};
  {| id := "description";
     question := "Would you like to add a description? You can say 'skip' to continue.";
     field := Description; type := TextQuestion; options := [];
     validation := None;
     followUp := "Description noted." |};
  {| id := "priority";
     question := "What's the priority level? Say 'high', 'medium', or 'low'.";
     field := Priority; type := SelectQuestion; options := ["high"; "medium"; "low"];
     validation := Some (fun value =>
       existsb (String.eqb (toLowerCase value)) ["high"; "medium"; "low"]);
     followUp := "Priority set." |};
  {| id := "category";
     question := "What category is this task? For example: work, personal, shopping, or say 'skip'.";
     field := Category; type := TextQuestion; options := [];
     validation := None;
     followUp := "Category added." |};
  {| id := "dueDate";
     question := "When is this due? You can say things like 'today', 'tomorrow', 'next Friday', or 'skip'.";
     field := DueDate; type := DateQuestion; options := [];
     validation := None;
     followUp := "Due date set." |}
].

(** ** The component state of [VoiceTaskCreator] *)

(** [TaskFormData]; the optional fields hold the empty string while unset,
    as in the component's initial state. *)
Record TaskFormData := {
  title : string;
  description : string;
  priority : string;
  category : string;
  dueDate : string
}.

Record Creator := {
  currentQuestionIndex : nat;
  taskData : TaskFormData;
  currentTranscript : string;
  isProcessing : bool;
  needsReminder : bool;
  reminderTime : option Date
}.

Definition emptyTaskData : TaskFormData := {|
  title := ""; description := ""; priority := "medium"; category := ""; dueDate := ""
|}.

(** The [useState] initial values, also what [resetCreator] restores when
    the component is made inactive: the state in which it becomes active. *)
Definition initialCreator : Creator := {|
  currentQuestionIndex := 0;
  taskData := emptyTaskData;
  currentTranscript := "";
  isProcessing := false;
  needsReminder := false;
  reminderTime := None
|}.

(** The closures handed to [voiceManager.speak] and [setTimeout]. *)
Inductive Callback :=
| ThenStartActiveListening
| ThenNextQuestion
| ThenFinishTaskCreation
| ThenAwaitReminderAnswer       (* setNeedsReminder(true); startActiveListening() *)
| ThenAskCurrentQuestion
| ThenProcessAnswer (transcript : string)
| ThenCancel.

Inductive Command :=
| Speak (text : string) (callback : Callback)
| SetTimeout (ms : Z) (callback : Callback)
| StartActiveListening
| StopActiveListening
| TaskCreated (data : TaskFormData)      (* onTaskCreated(taskData) *)
| Cancelled.                              (* onCancel() *)

Definition Step := Creator -> Creator * list Command.

Definition set_taskData d c := {|
  currentQuestionIndex := currentQuestionIndex c; taskData := d;
  currentTranscript := currentTranscript c; isProcessing := isProcessing c;
  needsReminder := needsReminder c; reminderTime := reminderTime c |}.
Definition set_isProcessing b c := {|
  currentQuestionIndex := currentQuestionIndex c; taskData := taskData c;
  currentTranscript := currentTranscript c; isProcessing := b;
  needsReminder := needsReminder c; reminderTime := reminderTime c |}.
Definition set_currentTranscript t c := {|
  currentQuestionIndex := currentQuestionIndex c; taskData := taskData c;
  currentTranscript := t; isProcessing := isProcessing c;
  needsReminder := needsReminder c; reminderTime := reminderTime c |}.
Definition set_currentQuestionIndex n c := {|
  currentQuestionIndex := n; taskData := taskData c;
  currentTranscript := currentTranscript c; isProcessing := isProcessing c;
  needsReminder := needsReminder c; reminderTime := reminderTime c |}.
Definition set_needsReminder b c := {|
  currentQuestionIndex := currentQuestionIndex c; taskData := taskData c;
  currentTranscript := currentTranscript c; isProcessing := isProcessing c;
  needsReminder := b; reminderTime := reminderTime c |}.
Definition set_reminderTime t c := {|
  currentQuestionIndex := currentQuestionIndex c; taskData := taskData c;
  currentTranscript := currentTranscript c; isProcessing := isProcessing c;
  needsReminder := needsReminder c; reminderTime := t |}.

Definition with_title v d := {|
  title := v; description := description d; priority := priority d;
  category := category d; dueDate := dueDate d |}.
Definition with_description v d := {|
  title := title d; description := v; priority := priority d;
  category := category d; dueDate := dueDate d |}.
Definition with_priority v d := {|
  title := title d; description := description d; priority := v;
  category := category d; dueDate := dueDate d |}.
Definition with_category v d := {|
  title := title d; description := description d; priority := priority d;
  category := v; dueDate := dueDate d |}.
Definition with_dueDate v d := {|
  title := title d; description := description d; priority := priority d;
  category := category d; dueDate := v |}.

(** ** The methods of the component

    The component is a function of its state: every render makes the
    methods below anew, as closures over the state values of that render.
    A method so has two states in view.  The render [r] that made it gives
    the values it reads: [currentQuestionIndex], [currentQuestion],
    [taskData], [needsReminder] and [reminderTime].  The state [c] current
    when it runs is what its setters replace: [setTaskData] and
    [setCurrentQuestionIndex] are given updater functions of the previous
    value, the other setters are given the new value. *)

Definition finishTaskCreation (r : Creator) : Step :=
  fun c => (c, [StopActiveListening; TaskCreated (taskData r)]).

Definition askCurrentQuestion (r : Creator) : Step :=
  fun c =>
    match nth_error taskQuestions (currentQuestionIndex r) with
    | None =>
        if negb (needsReminder r) then
          (c, [Speak "Great! Your task is ready. Would you like to set a reminder? Say 'yes' to add a reminder or 'no' to finish."
                 ThenAwaitReminderAnswer])
        else finishTaskCreation r c
    | Some q => (c, [Speak (question q) ThenStartActiveListening])
    end.

(** [nextQuestion] reads nothing of its render; the [askCurrentQuestion] its
    timer calls is the one of its render (see [resume]). *)
Definition nextQuestion : Step :=
  fun c =>
    (set_currentQuestionIndex (S (currentQuestionIndex c))
       (set_currentTranscript "" (set_isProcessing false c)),
     [SetTimeout 500 ThenAskCurrentQuestion]).

Definition handleSpeechResult (transcript : string) : Step :=
  fun c =>
    (set_isProcessing true (set_currentTranscript transcript c),
     [SetTimeout 1000 (ThenProcessAnswer transcript)]).

(** [["high", "medium", "low"].find((p) => answer.includes(p)) || "medium"] *)
Definition resolvePriority (processedAnswer : string) : string :=
  match find (fun p => includes processedAnswer p) ["high"; "medium"; "low"] with
  | Some p => p
  | None => "medium"
  end.

(** The skip test of [processAnswer]. *)
Definition isSkip (lowerAnswer : string) : bool :=
  includes lowerAnswer "skip" || includes lowerAnswer "no" || String.eqb lowerAnswer "".

(** [needsReminder && !reminderTime]: the reminder question is open.  A
    [Date] object is truthy, the Invalid Date too. *)
Definition awaitingReminderAnswer (r : Creator) : bool :=
  needsReminder r && negb (match reminderTime r with Some _ => true | None => false end).

Definition processAnswer (r : Creator) (p : Platform) (answer : string) : Step :=
  fun c =>
    let lowerAnswer := trim (toLowerCase answer) in
    if awaitingReminderAnswer r then
      (* the reminder question *)
      if includes lowerAnswer "no" || includes lowerAnswer "skip" then
        finishTaskCreation r c
      else if includes lowerAnswer "yes" then
        (c, [Speak "When would you like to be reminded? You can say things like 'in 30 minutes', 'tomorrow at 9', or 'next week'."
               ThenStartActiveListening])
      else
        match parseReminderFromSpeech p lowerAnswer with
        | Some parsedTime =>
            (set_reminderTime (Some parsedTime) c,
             [Speak ("Reminder set for " ++ dateToLocaleString p parsedTime
                       ++ ". Creating your task now!")%string
                ThenFinishTaskCreation])
        | None =>
            (c, [Speak "I didn't understand that time. Please try again or say 'no' to skip the reminder."
                   ThenStartActiveListening])
        end
    else
      match nth_error taskQuestions (currentQuestionIndex r) with
      | None => (c, [])
      | Some q =>
          if isSkip lowerAnswer then
            match field q with
            | Title =>
                (set_isProcessing false c,
                 [Speak "Task title is required. Please tell me what you'd like to call this task."
                    ThenStartActiveListening])
            | _ => nextQuestion c
            end
          else
            let '(data, processedAnswer) :=
              match field q with
              | Title => (with_title (trim answer) (taskData c), lowerAnswer)
              | Description => (with_description (trim answer) (taskData c), lowerAnswer)
              | Priority =>
                  let chosen := resolvePriority lowerAnswer in
                  (with_priority chosen (taskData c), chosen)
              | Category => (with_category (trim answer) (taskData c), lowerAnswer)
              | DueDate =>
                  let parsedDate := parseDateFromSpeech p lowerAnswer in
                  if truthy parsedDate then
                    (with_dueDate parsedDate (taskData c), toLocaleDateString p parsedDate)
                  else (taskData c, lowerAnswer)
              end in
            (set_taskData data c,
             [Speak (followUp q ++ processedAnswer ++ ".")%string ThenNextQuestion])
      end.

Definition handleCancel : Step :=
  fun c => (c, [Speak "Task creation cancelled." ThenCancel]).

(** ** Callbacks and the registered handler *)

(** What a callback does once the utterance has ended or the timer fired.
    The callbacks a method hands out are closures made inside that method:
    they call the methods of the same render [r]. *)
Definition resume (r : Creator) (p : Platform) (cb : Callback) : Step :=
  match cb with
  | ThenStartActiveListening => fun c => (c, [StartActiveListening])
  | ThenNextQuestion => nextQuestion
  | ThenFinishTaskCreation => finishTaskCreation r
  | ThenAwaitReminderAnswer => fun c => (set_needsReminder true c, [StartActiveListening])
  | ThenAskCurrentQuestion => askCurrentQuestion r
  | ThenProcessAnswer transcript => processAnswer r p transcript
  | ThenCancel => fun c => (c, [StopActiveListening; Cancelled])
  end.

(** Every utterance is spoken to its end and every timer fires, in the order
    of creation, before the next transcript arrives.  All callbacks stem
    from one method call and so from one render [r]; the state they update
    is threaded through.  The result is the state at rest and the commands
    issued, in order. *)
Fixpoint settle (fuel : nat) (r : Creator) (p : Platform) (pending : list Command)
    (c : Creator) : Creator * list Command :=
  match fuel with
  | O => (c, pending)
  | S k =>
      match pending with
      | [] => (c, [])
      | cmd :: rest =>
          let '(c1, more) :=
            match cmd with
            | Speak _ cb => resume r p cb c
            | SetTimeout _ cb => resume r p cb c
            | _ => (c, [])
            end in
          let '(c2, out) := settle k r p (rest ++ more) c1 in
          (c2, cmd :: out)
      end
  end.

(** One transcript delivered to the [handleSpeechResult] of render [r],
    taken to rest. *)
Definition answerTurn (r : Creator) (p : Platform) (transcript : string) (c : Creator)
  : Creator * list Command :=
  let (c1, cmds) := handleSpeechResult transcript c in
  settle 16 r p cmds c1.

(** [useEffect(..., [isActive])] when the component becomes active: the
    effect of the render [r] on screen asks its current question and gives
    its [handleSpeechResult] to [voiceManager.onSpeech].  The effect runs
    again only when [isActive] changes: the handler the voice manager holds
    stays the one of [r], whatever is rendered later. *)
Definition activate (p : Platform) (r : Creator) : Creator * list Command :=
  let (c1, cmds) := askCurrentQuestion r r in
  settle 16 r p cmds c1.

(** A sequence of transcripts, each with the platform readings of its turn,
    delivered to the handler registered by render [r]: the state at rest
    after the last one and all commands issued. *)
Fixpoint converse (r : Creator) (turns : list (Platform * string)) (c : Creator)
  : Creator * list Command :=
  match turns with
  | [] => (c, [])
  | (p, a) :: rest =>
      let (c1, out1) := answerTurn r p a c in
      let (c2, out2) := converse r rest c1 in
      (c2, out1 ++ out2)
  end.

(** The texts spoken, in order. *)
Definition spokenTexts (cmds : list Command) : list string :=
  flat_map (fun cmd => match cmd with Speak text _ => [text] | _ => [] end) cmds.

(** The drafts handed to [onTaskCreated], in order. *)
Definition draftsCreated (cmds : list Command) : list TaskFormData :=
  flat_map (fun cmd => match cmd with TaskCreated d => [d] | _ => [] end) cmds.

(** ** The scenarios used as examples *)

(** The five answers of the end-to-end scenario as they are said. *)
Definition milkUtterances : list string :=
  ["Buy milk"; "skip"; "I'd say high priority"; "skip"; "tomorrow"].

(** The transcript the voice manager hands to the speech callback for an
    utterance ([Voice.onresult]). *)
Definition transcriptOf (utterance : string) : string := trim (toLowerCase utterance).

(** The five answers as the component receives them, one platform reading
    per turn. *)
Definition milkAnswers (p1 p2 p3 p4 p5 : Platform) : list (Platform * string) :=
  combine [p1; p2; p3; p4; p5] (map transcriptOf milkUtterances).

(** The draft the scenario is to yield, with the due date computed at [t]. *)
Definition milkDraft (t : Z) : TaskFormData := {|
  title := "Buy milk"; description := ""; priority := "high"; category := "";
  dueDate := isoDate (t + msPerDay)
|}.

(** The component after four answers were stored, from its activation
    on: it shows the due-date question. *)
Definition atDueDate (p : Platform) : Creator :=
  fst (converse initialCreator
         [(p, "buy milk"); (p, "two litres"); (p, "high"); (p, "shopping")]
         initialCreator).

(** A render in which the reminder question is open. *)
Definition atReminderQuestion : Creator := {|
  currentQuestionIndex := 5;
  taskData := {| title := "buy milk"; description := ""; priority := "high";
                 category := ""; dueDate := "" |};
  currentTranscript := "";
  isProcessing := false;
  needsReminder := true;
  reminderTime := None
|}.

(** 2024-03-15T10:00:00Z, a Friday, read in UTC. *)
Definition fridayMorning : Platform := {|
  now := 1710496800000;
  tzOffset := 0;
  toLocaleDateString := fun iso => iso;
  toLocaleString := isoDate
|}.

Definition weekdaysButMonday : list string :=
  ["tuesday"; "wednesday"; "thursday"; "friday"; "saturday"; "sunday"].

Definition titleRequiredPrompt : string :=
  "Task title is required. Please tell me what you'd like to call this task.".

Definition titleQuestion : string := "What would you like to call this task?".

End Dialogue.

(* ================================================================== *)
(** * The Reminder Scheduler: [ReminderManager] *)
(* ================================================================== *)

(** [Task] of src/types/task.ts. *)
Module TaskTypes.

Record Task := {
  id : string;
  title : string;
  description : option string;
  completed : bool;
  priority : string;
  category : option string;
  createdAt : Z;
  updatedAt : Z;
  dueDate : option Z
}.

End TaskTypes.

Module Reminders.

Import TaskTypes.

Inductive ReminderType := notification | voice | both.

Record Reminder := {
  id : string;
  taskId : string;
  reminderTime : Z;
  message : string;
  isActive : bool;
  type : ReminderType
}.

(** ** A JavaScript [Map] with string keys: entries in insertion order *)

Section JsMap.
Context {V : Type}.

Fixpoint mapGet (k : string) (m : list (string * V)) : option V :=
  match m with
  | [] => None
  | (k', v) :: r => if String.eqb k' k then Some v else mapGet k r
  end.

(** [m.set(k, v)]: an existing key keeps its place. *)
Fixpoint mapSet (k : string) (v : V) (m : list (string * V)) : list (string * V) :=
  match m with
  | [] => [(k, v)]
  | (k', v') :: r =>
      if String.eqb k' k then (k', v) :: r else (k', v') :: mapSet k v r
  end.

(** [m.delete(k)]; a [Map] holds at most one entry for a key. *)
Definition mapDelete (k : string) (m : list (string * V)) : list (string * V) :=
  filter (fun e => negb (String.eqb (fst e) k)) m.

(** [Array.from(m.values())] *)
Definition mapValues (m : list (string * V)) : list V := map snd m.
End JsMap.

(** ** [localStorage] *)

(** An item of the store: absent, present but rejected by [JSON.parse] (or
    not of the expected shape), or holding a value. *)
Inductive Item (A : Type) :=
| Missing
| Unparsable
| Parsed (value : A).
Arguments Missing {A}.
Arguments Unparsable {A}.
Arguments Parsed {A} value.

Record Storage := {
  tasksItem : Item (list Task);           (* "voice-task-manager-tasks" *)
  remindersItem : Item (list Reminder)    (* "voice-task-reminders" *)
}.

(** ** The manager, with the platform state its methods act on *)

Record World := {
  reminders : list (string * Reminder);
  timeouts : list (string * nat);
  onReminderTriggered : bool;              (* a callback is registered *)
  storage : Storage;
  (* pending platform timers: handle, delay, the reminder the closure holds *)
  pendingTimers : list (nat * (Z * Reminder));
  nextHandle : nat
}.

(** A call of the registered callback. *)
Inductive Output :=
| ReminderTriggered (reminder : Reminder) (task : Task).

Definition Op := World -> World * list Output.

Definition set_reminders m w := {|
  reminders := m; timeouts := timeouts w;
  onReminderTriggered := onReminderTriggered w; storage := storage w;
  pendingTimers := pendingTimers w; nextHandle := nextHandle w |}.
Definition set_timeouts m w := {|
  reminders := reminders w; timeouts := m;
  onReminderTriggered := onReminderTriggered w; storage := storage w;
  pendingTimers := pendingTimers w; nextHandle := nextHandle w |}.
Definition set_onReminderTriggered b w := {|
  reminders := reminders w; timeouts := timeouts w;
  onReminderTriggered := b; storage := storage w;
  pendingTimers := pendingTimers w; nextHandle := nextHandle w |}.
Definition set_storage st w := {|
  reminders := reminders w; timeouts := timeouts w;
  onReminderTriggered := onReminderTriggered w; storage := st;
  pendingTimers := pendingTimers w; nextHandle := nextHandle w |}.
Definition set_pendingTimers ts n w := {|
  reminders := reminders w; timeouts := timeouts w;
  onReminderTriggered := onReminderTriggered w; storage := storage w;
  pendingTimers := ts; nextHandle := n |}.

Definition andThen (f g : Op) : Op :=
  fun w => let (w1, o1) := f w in let (w2, o2) := g w1 in (w2, o1 ++ o2).
Definition modify (f : World -> World) : Op := fun w => (f w, []).

(** [reminder.isActive = false] *)
Definition deactivate (r : Reminder) : Reminder := {|
  id := id r; taskId := taskId r; reminderTime := reminderTime r;
  message := message r; isActive := false; type := type r |}.

Definition getStoredTasks (st : Storage) : list Task :=
  match tasksItem st with
  | Parsed tasks => tasks
  | Missing => []
  | Unparsable => []
  end.

Definition getTaskById (taskId : string) (st : Storage) : option Task :=
  find (fun t => String.eqb (TaskTypes.id t) taskId) (getStoredTasks st).

Definition saveReminders : Op :=
  modify (fun w =>
    set_storage {| tasksItem := tasksItem (storage w);
                   remindersItem := Parsed (mapValues (reminders w)) |} w).

Definition clearTimer (h : nat) (ts : list (nat * (Z * Reminder))) :=
  filter (fun t => negb (fst t =? h)) ts.

Definition triggerReminder (reminder : Reminder) : Op :=
  fun w =>
    let fired := deactivate reminder in
    let w1 := set_reminders (mapSet (id fired) fired (reminders w)) w in
    let w2 := set_timeouts (mapDelete (id fired) (timeouts w1)) w1 in
    let (w3, _) := saveReminders w2 in
    (w3,
     if onReminderTriggered w3 then
       match getTaskById (taskId fired) (storage w3) with
       | Some task => [ReminderTriggered fired task]
       | None => []
       end
     else []).

(** [now] is the clock reading of [new Date()]. *)
Definition scheduleReminder (now : Z) (reminder : Reminder) : Op :=
  fun w =>
    let timeUntilReminder := (reminderTime reminder - now)%Z in
    if (timeUntilReminder <=? 0)%Z then triggerReminder reminder w
    else
      let h := nextHandle w in
      let w1 := set_pendingTimers
                  (pendingTimers w ++ [(h, (timeUntilReminder, reminder))]) (S h) w in
      (set_timeouts (mapSet (id reminder) h (timeouts w1)) w1, []).

(** [reminderId] is the value [generateId()] returned. *)
Definition addReminder (now : Z) (reminderId taskId : string) (reminderTime : Z)
    (type : ReminderType) : Op :=
  let reminder := {| id := reminderId; taskId := taskId; reminderTime := reminderTime;
                     message := "Reminder for your task"; isActive := true;
                     type := type |} in
  andThen (modify (fun w => set_reminders (mapSet reminderId reminder (reminders w)) w))
    (andThen (scheduleReminder now reminder) saveReminders).

Definition removeReminder (reminderId : string) : Op :=
  andThen
    (modify (fun w =>
       let w1 :=
         match mapGet reminderId (timeouts w) with
         | Some h =>
             set_timeouts (mapDelete reminderId (timeouts w))
               (set_pendingTimers (clearTimer h (pendingTimers w)) (nextHandle w) w)
         | None => w
         end in
       set_reminders (mapDelete reminderId (reminders w1)) w1))
    saveReminders.

(** [Partial<Reminder>] *)
Record ReminderUpdates := {
  new_id : option string;
  new_taskId : option string;
  new_reminderTime : option Z;
  new_message : option string;
  new_isActive : option bool;
  new_type : option ReminderType
}.

Definition orElse {A} (o : option A) (d : A) : A :=
  match o with Some a => a | None => d end.

(** [{ ...reminder, ...updates }] *)
Definition applyUpdates (r : Reminder) (u : ReminderUpdates) : Reminder := {|
  id := orElse (new_id u) (id r);
  taskId := orElse (new_taskId u) (taskId r);
  reminderTime := orElse (new_reminderTime u) (reminderTime r);
  message := orElse (new_message u) (message r);
  isActive := orElse (new_isActive u) (isActive r);
  type := orElse (new_type u) (type r) |}.

Definition updateReminder (now : Z) (reminderId : string) (updates : ReminderUpdates) : Op :=
  fun w =>
    match mapGet reminderId (reminders w) with
    | None => (w, [])
    | Some reminder =>
        let w1 :=
          match mapGet reminderId (timeouts w) with
          | Some h => set_pendingTimers (clearTimer h (pendingTimers w)) (nextHandle w) w
          | None => w
          end in
        let updatedReminder := applyUpdates reminder updates in
        let w2 := set_reminders (mapSet reminderId updatedReminder (reminders w1)) w1 in
        andThen
          (if isActive updatedReminder then scheduleReminder now updatedReminder
           else (fun w => (w, [])))
          saveReminders w2
    end.

Definition getRemindersForTask (taskId' : string) (w : World) : list Reminder :=
  filter (fun r => String.eqb (taskId r) taskId') (mapValues (reminders w)).

Definition getAllActiveReminders (w : World) : list Reminder :=
  filter isActive (mapValues (reminders w)).

(** The body of [remindersArray.forEach] in [loadReminders]. *)
Definition loadOne (now : Z) (reminder : Reminder) : Op :=
  andThen
    (modify (fun w => set_reminders (mapSet (id reminder) reminder (reminders w)) w))
    (if isActive reminder then scheduleReminder now reminder else (fun w => (w, []))).

Fixpoint loadAll (now : Z) (remindersArray : list Reminder) : Op :=
  match remindersArray with
  | [] => fun w => (w, [])
  | r :: rest => andThen (loadOne now r) (loadAll now rest)
  end.

Definition loadReminders (now : Z) : Op :=
  fun w =>
    match remindersItem (storage w) with
    | Parsed remindersArray => loadAll now remindersArray w
    | Missing => (w, [])
    | Unparsable => (w, [])
    end.

(** [new ReminderManager()] over the given store. *)
Definition construct (now : Z) (st : Storage) : World * list Output :=
  loadReminders now {|
    reminders := []; timeouts := []; onReminderTriggered := false;
    storage := st; pendingTimers := []; nextHandle := 1 |}.

(** [onReminder(callback)] *)
Definition onReminder : Op := modify (set_onReminderTriggered true).

(** The platform fires the timer with handle [h]. *)
Definition fireTimer (h : nat) : Op :=
  fun w =>
    match find (fun t => fst t =? h) (pendingTimers w) with
    | Some (_, (_, reminder)) =>
        triggerReminder reminder
          (set_pendingTimers (clearTimer h (pendingTimers w)) (nextHandle w) w)
    | None => (w, [])
    end.

(** How often the callback was called for the reminder [reminderId]. *)
Definition timesTriggered (reminderId : string) (out : list Output) : nat :=
  List.length
    (filter (fun o => match o with ReminderTriggered r _ => String.eqb (id r) reminderId end)
       out).

(** ** Predicates used to state the properties of loading *)

(** What the rest of the load loop keeps true about a reminder [fired] that
    was triggered earlier in the loop. *)
Definition settled (fired : Reminder) (w : World) : Prop :=
  mapGet (id fired) (reminders w) = Some fired /\
  mapGet (id fired) (timeouts w) = None /\
  (exists saved, remindersItem (storage w) = Parsed saved /\ In fired saved) /\
  (forall h delay x, In (h, (delay, x)) (pendingTimers w) -> id x <> id fired).

(** No pending platform timer holds a reminder with the id [k]. *)
Definition noTimerFor (k : string) (w : World) : Prop :=
  forall h delay x, In (h, (delay, x)) (pendingTimers w) -> id x <> k.

(** ** The scenarios used as examples *)

Definition milkTask : Task := {|
  TaskTypes.id := "t1"; title := "Buy milk"; description := None; completed := false;
  priority := "high"; category := None; createdAt := 0; updatedAt := 0; dueDate := None
|}.

(** A reminder for [milkTask], due at instant 1000 and still active. *)
Definition milkReminder : Reminder := {|
  id := "r1"; taskId := "t1"; reminderTime := 1000;
  message := "Reminder for your task"; isActive := true; type := both
|}.

(** A reminder that is due an hour after instant 1000. *)
Definition laterReminder : Reminder := {|
  id := "r2"; taskId := "t1"; reminderTime := 3601000;
  message := "Reminder for your task"; isActive := true; type := voice
|}.

(** What a previous session left in the store. *)
Definition persisted : Storage := {|
  tasksItem := Parsed [milkTask];
  remindersItem := Parsed [milkReminder; laterReminder]
|}.

(** Five minutes after [milkReminder] was due. *)
Definition fiveMinutesLate : Z := 301000.

(** A manager with a registered callback over a store without tasks. *)
Definition listeningWithoutTasks : World :=
  fst (onReminder (fst (construct 0 {| tasksItem := Missing; remindersItem := Missing |}))).

End Reminders.

(* ================================================================== *)
(** * Further definitions: observations on runs of the controller *)
(* ================================================================== *)

Module VoiceObservations.

Import Voice.

(** The two alerts guarded by [hasShownSecurityAlert]. *)
Definition isSecurityAlert (e : Effect) : bool :=
  match e with
  | Alert AlertInsecureOrigin => true
  | Alert AlertServiceUnreachable => true
  | _ => false
  end.

Definition securityAlerts (out : list Effect) : nat :=
  List.length (filter isSecurityAlert out).

(** How many security alerts the controller may still show. *)
Definition alertBudget (s : VoiceManager) : nat :=
  if hasShownSecurityAlert s then 0 else 1.

(** Every pending timer got its handle from the counter. *)
Definition timersFresh (s : VoiceManager) : Prop :=
  Forall (fun t => fst t < nextTimer s) (timers s).

(** A state the controller can be in: some run from the constructor. *)
Definition reachable (loc : Location) (s : VoiceManager) : Prop :=
  exists supported es, s = fst (run loc es (create supported)).

End VoiceObservations.

(* ================================================================== *)
(** * Further definitions: observations on the dialogue *)
(* ================================================================== *)

Module DialogueObservations.

Import JsDate Dialogue.

(** The string is empty or starts with a character that is not white space. *)
Definition startsClean (s : string) : Prop :=
  match s with
  | EmptyString => True
  | String c _ => isWhiteSpace c = false
  end.

(** The render shows the title question and its reminder flag is down: what
    the render that registers the speech handler looks like. *)
Definition onTitleQuestion (r : Creator) : Prop :=
  currentQuestionIndex r = 0 /\ needsReminder r = false.

(** The two drafts differ in the title at most. *)
Definition sameButTitle (d d' : TaskFormData) : Prop :=
  description d' = description d /\ priority d' = priority d /\
  category d' = category d /\ dueDate d' = dueDate d.

(** The transcripts of a dialogue that are stored as an answer. *)
Definition storedAnswers (turns : list (Platform * string)) : list string :=
  filter (fun a => negb (isSkip (trim (toLowerCase a)))) (map snd turns).

(** What the handler of a render on the title question issues: the title
    question or the corrective prompt when it listens next, a follow-up
    before it moves on; no draft and no cancellation. *)
Definition keepsToTitle (cmd : Command) : Prop :=
  match cmd with
  | Speak text ThenStartActiveListening => text = titleQuestion \/ text = titleRequiredPrompt
  | Speak _ cb => cb = ThenNextQuestion
  | SetTimeout _ cb => cb = ThenAskCurrentQuestion \/ exists a, cb = ThenProcessAnswer a
  | StartActiveListening => True
  | StopActiveListening => False
  | TaskCreated _ => False
  | Cancelled => False
  end.

(** The text of the reminder answer names none of "no", "skip", "yes". *)
Definition namesATime (lowerAnswer : string) : bool :=
  negb (includes lowerAnswer "no" || includes lowerAnswer "skip")
  && negb (includes lowerAnswer "yes").

End DialogueObservations.

(* ================================================================== *)
(** * Further definitions: the rest of the reminder code *)
(* ================================================================== *)

Module RemindersObservations.

Import JsDate TaskTypes Reminders.

(** Every entry of the map is filed under the id of its reminder. *)
Definition keysAreIds (w : World) : Prop :=
  Forall (fun e => fst e = id (snd e)) (reminders w).

(** Every pending timer got its handle from the counter. *)
Definition handlesFresh (w : World) : Prop :=
  Forall (fun t => fst t < nextHandle w) (pendingTimers w).

(** A reminder that loading does not trigger: inactive, or due later. *)
Definition restsOnLoad (now : Z) (r : Reminder) : Prop :=
  isActive r = false \/ (now < reminderTime r)%Z.

(** The timers loading creates: one per active reminder, in order, with the
    handles counted from [h]. *)
Fixpoint timersFor (now : Z) (h : nat) (rs : list Reminder) : list (nat * (Z * Reminder)) :=
  match rs with
  | [] => []
  | r :: rest =>
      if isActive r then (h, ((reminderTime r - now)%Z, r)) :: timersFor now (S h) rest
      else timersFor now h rest
  end.

(** The reminder part of [handleDeleteTask] (src/app/page.tsx):
    [getRemindersForTask(taskId).forEach(r => removeReminder(r.id))]. *)
Fixpoint removeEach (rs : list Reminder) : Op :=
  match rs with
  | [] => fun w => (w, [])
  | r :: rest => andThen (removeReminder (id r)) (removeEach rest)
  end.

Definition removeRemindersOfTask (taskId : string) : Op :=
  fun w => removeEach (getRemindersForTask taskId w) w.

(** [suggestReminderTime(task)]; the platform supplies clock and time zone. *)
Definition suggestReminderTime (p : Platform) (task : Task) : list Z :=
  let now := JsDate.now p in
  let suggestions :=
    match dueDate task with
    | Some due =>
        let oneDayBefore := setHours p (addDays due (-1)) 9 in
        let oneHourBefore := (due - msPerHour)%Z in
        (if (now <? oneDayBefore)%Z then [oneDayBefore] else [])
          ++ (if (now <? oneHourBefore)%Z then [oneHourBefore] else [])
    | None => []
    end in
  match suggestions with
  | [] => [setHours p (addDays now 1) 9; addDays now 7]
  | _ => suggestions
  end.

End RemindersObservations.

(* ================================================================== *)
(** * Further definitions: the command interpreter of the page *)
(* ================================================================== *)

(** [handleVoiceCommand] and [findTaskByCommand] of src/app/page.tsx, with
    [voiceCommands] of src/lib/voice.ts. *)
Module Page.

Import TaskTypes.

Definition createTaskPhrases : list string := ["create task"; "add task"; "new task"; "make task"].
Definition completeTaskPhrases : list string := ["complete"; "finish"; "done"; "mark complete"].
Definition showTasksPhrases : list string := ["show tasks"; "list tasks"; "my tasks"; "view tasks"].
Definition helpPhrases : list string := ["help"; "what can you do"; "commands"].

(** [phrases.some((cmd) => command.includes(cmd))] *)
Definition saysOneOf (phrases : list string) (command : string) : bool :=
  existsb (fun cmd => includes command cmd) phrases.

(** [s.split(" ")] *)
Fixpoint splitOnSpace (s : string) : list string :=
  match s with
  | EmptyString => [EmptyString]
  | String c r =>
      if Ascii.eqb c " "%char then EmptyString :: splitOnSpace r
      else match splitOnSpace r with
           | w :: ws => String c w :: ws
           | [] => [String c EmptyString]
           end
  end.

(** [words.includes(word)] *)
Definition hasWord (words : list string) (word : string) : bool :=
  existsb (String.eqb word) words.

(** The [reduce] of [findTaskByCommand]. *)
Definition matchScore (words : list string) (task : Task) : nat :=
  fold_left (fun score word => score + (if hasWord words word then 1 else 0))
    (splitOnSpace (toLowerCase (title task))) 0.

Definition findTaskByCommand (tasks : list Task) (command : string) : option Task :=
  let words := splitOnSpace command in
  find (fun task => 0 <? matchScore words task)
    (filter (fun t => negb (completed t)) tasks).

(** The decimal digits of a number, as a template literal prints it. *)
Fixpoint digitsOf (fuel n : nat) (acc : string) : string :=
  match fuel with
  | O => acc
  | S f =>
      let acc' := String (ascii_of_nat (48 + n mod 10)) acc in
      if n <? 10 then acc' else digitsOf f (n / 10) acc'
  end.

Definition natToString (n : nat) : string := digitsOf (S n) n EmptyString.

(** [titles.join(", ")] *)
Fixpoint join (titles : list string) : string :=
  match titles with
  | [] => EmptyString
  | [t] => t
  | t :: rest => (t ++ ", " ++ join rest)%string
  end.

Definition quote : string := String (ascii_of_nat 34) EmptyString.

(** What runs when the reply has been spoken. *)
Inductive Callback :=
| ThenOpenTaskCreator                      (* setIsVoiceTaskCreatorOpen(true) *)
| ThenRestartWakeWord (ms : Z).            (* setTimeout(startWakeWordListening, ms) *)

Inductive Command :=
| SetVoiceStatus (status : string)
| StopActiveListening
| ToggleComplete (taskId : string)         (* handleToggleComplete(task.id) *)
| Speak (text : string) (callback : Callback).

(** [handleVoiceCommand(transcript)]; [tasks] is the task list of the render
    that made the handler. *)
Definition handleVoiceCommand (tasks : list Task) (transcript : string) : list Command :=
  let command := trim (toLowerCase transcript) in
  SetVoiceStatus ("Processing: " ++ quote ++ command ++ quote)%string ::
  if saysOneOf createTaskPhrases command then
    [StopActiveListening;
     Speak "I'll help you create a new task. Let me ask you a few questions."
       ThenOpenTaskCreator]
  else if saysOneOf completeTaskPhrases command then
    match findTaskByCommand tasks command with
    | Some taskToComplete =>
        [ToggleComplete (id taskToComplete);
         Speak ("Great! I've marked " ++ quote ++ title taskToComplete ++ quote
                  ++ " as completed.")%string
           (ThenRestartWakeWord 2000)]
    | None =>
        [Speak "I couldn't find a specific task to complete. Please say the task name more clearly."
           (ThenRestartWakeWord 2000)]
    end
  else if saysOneOf showTasksPhrases command then
    let activeTasks := filter (fun t => negb (completed t)) tasks in
    match activeTasks with
    | [] =>
        [Speak "You have no active tasks. Great job staying organized!"
           (ThenRestartWakeWord 2000)]
    | _ =>
        [Speak ("You have " ++ natToString (List.length activeTasks)
                  ++ " active tasks. Here are your top tasks: "
                  ++ join (map title (firstn 5 activeTasks)))%string
           (ThenRestartWakeWord 2000)]
    end
  else if saysOneOf helpPhrases command then
    [Speak "I can help you create tasks, complete tasks, show your task list, or set reminders. Just say 'Hi Voice' and tell me what you'd like to do!"
       (ThenRestartWakeWord 2000)]
  else
    [Speak "I didn't understand that command. Try saying 'create task', 'show tasks', 'complete task', or ask for help."
       (ThenRestartWakeWord 2000)].

(** The task can be picked for the command: it is not completed and its
    lower-cased title shares a whole word with the command. *)
Definition matches (command : string) (task : Task) : Prop :=
  completed task = false /\
  exists word, In word (splitOnSpace (toLowerCase (title task))) /\
               In word (splitOnSpace command).

Definition isSpeak (c : Command) : bool :=
  match c with Speak _ _ => true | _ => false end.

Definition boughtMilk : Task := {|
  id := "t1"; title := "Buy milk"; description := None; completed := true;
  priority := "high"; category := None; createdAt := 0; updatedAt := 0; dueDate := None
|}.

Definition milkMan : Task := {|
  id := "t2"; title := "Call the milk man"; description := None; completed := false;
  priority := "low"; category := None; createdAt := 0; updatedAt := 0; dueDate := None
|}.

Definition groceries : list Task := [boughtMilk; milkMan].

End Page.

(* ================================================================== *)
(** * Properties of the Speech Input Controller *)
(* ================================================================== *)

Module VoiceProps.

Import Voice.

(** Unfolds one handler down to branches on the fields of the state. *)
Ltac unfold_handlers :=
  cbv beta iota zeta delta
    [step run onstart onend onresult onerror runTimer
     startWakeWordListening stopWakeWordListening startActiveListening
     stopActiveListening resetRetryCount cleanup handleWakeWordDetected speak
     safeStart safeStop cancelRetry notifyListening setTimeout clearTimeout
     andThen reading when modify emit skip isDisabled
     set_isListening set_isWaitingForWakeWord set_callbacks set_retryTimeoutId
     set_retryCount set_isRecognizing set_hasShownSecurityAlert
     set_permanentlyDisabled set_timers
     recognition synthesis isListening isWaitingForWakeWord onWakeWordDetected
     onSpeechResult onListeningStateChange retryTimeoutId retryCount
     isRecognizing hasShownSecurityAlert permanentlyDisabled timers nextTimer
     startOutcome stopThrows isHttps isLocalhost maxRetries
     fst snd app].

Ltac split_branches :=
  repeat match goal with
         | |- context [match ?x with _ => _ end] =>
             match type of x with
             | bool => destruct x eqn:?
             | option _ => destruct x eqn:?
             | StartOutcome => destruct x eqn:?
             | TimerBody => destruct x eqn:?
             | ErrorCode => destruct x eqn:?
             end
         | |- context [if ?x then _ else _] => destruct x eqn:?
         end.

Ltac crush_handler :=
  unfold_handlers; split_branches; cbn [fst snd app In];
  try solve [intuition (try discriminate; try congruence; try lia)].

(** ** Runs *)

Lemma run_cons loc o e es s :
  run loc ((o, e) :: es) s =
  (fst (run loc es (fst (step loc o e s))),
   snd (step loc o e s) ++ snd (run loc es (fst (step loc o e s)))).
Proof.
  cbn [run]. unfold andThen.
  destruct (step loc o e s) as [s1 o1]. cbn [fst snd].
  destruct (run loc es s1) as [s2 o2]. reflexivity.
Qed.

(** ** The wake word *)

Lemma onresult_no_wake_word loc o raw s :
  isWaitingForWakeWord s = true ->
  includes (trim (toLowerCase raw)) wakeWord = false ->
  step loc o (OnResult true raw) s = (set_retryCount 0 s, []).
Proof.
  intros Hw Hn. destruct s. cbn in Hw. subst.
  cbv beta iota zeta delta [step onresult when andThen reading modify skip
                              isWaitingForWakeWord].
  rewrite Hn. reflexivity.
Qed.

Lemma onresult_wake_word_callback loc o raw s :
  isWaitingForWakeWord s = true ->
  onWakeWordDetected s = true ->
  (In WakeWordCallback (snd (step loc o (OnResult true raw) s)) <->
   includes (trim (toLowerCase raw)) wakeWord = true).
Proof.
  intros Hw Hc. destruct s. cbn in Hw, Hc. subst.
  cbv beta iota zeta delta [step onresult when].
  destruct (includes (trim (toLowerCase raw)) wakeWord) eqn:Hi.
  - crush_handler.
  - crush_handler.
Qed.

Lemma no_wake_word_run loc o transcripts :
  Forall (fun raw => includes (trim (toLowerCase raw)) wakeWord = false) transcripts ->
  forall s, isWaitingForWakeWord s = true ->
    isWaitingForWakeWord (fst (run loc (finalResults o transcripts) s)) = true /\
    ~ In WakeWordCallback (snd (run loc (finalResults o transcripts) s)).
Proof.
  induction 1 as [|raw ts Hraw _ IH]; intros s Hw.
  - cbn. auto.
  - cbn [finalResults map]. fold (finalResults o ts).
    rewrite run_cons, (onresult_no_wake_word loc o raw s Hw Hraw).
    cbn [fst snd app]. apply IH. destruct s; exact Hw.
Qed.

(** C1.  While the controller waits for the wake word (and a wake-word
    callback is registered), a final recognition result fires the callback
    if and only if its lower-cased, trimmed transcript contains "hi voice";
    the phrase embedded in a longer utterance triggers; and a sequence of
    final transcripts none of which contains the phrase leaves the
    controller waiting and never fires the callback. *)
Theorem C1_wake_word_detection :
  forall loc o s,
    isWaitingForWakeWord s = true ->
    onWakeWordDetected s = true ->
    (forall raw,
        In WakeWordCallback (snd (step loc o (OnResult true raw) s)) <->
        includes (trim (toLowerCase raw)) "hi voice" = true) /\
    In WakeWordCallback (snd (step loc o (OnResult true "Well, Hi Voice there") s)) /\
    (forall transcripts,
        Forall (fun raw => includes (trim (toLowerCase raw)) "hi voice" = false)
          transcripts ->
        isWaitingForWakeWord (fst (run loc (finalResults o transcripts) s)) = true /\
        ~ In WakeWordCallback (snd (run loc (finalResults o transcripts) s))).
Proof.
  intros loc o s Hw Hc. split; [|split].
  - intro raw. apply onresult_wake_word_callback; assumption.
  - apply onresult_wake_word_callback; auto.
  - intros ts Hts. apply no_wake_word_run; assumption.
Qed.

Lemma C1_witness :
  In WakeWordCallback
    (snd (step localhost healthy (OnResult true "Well, Hi Voice there") listening)) /\
  isWaitingForWakeWord
    (fst (run localhost (finalResults healthy ["Hello there"; "create task"]) listening))
    = true /\
  ~ In WakeWordCallback
      (snd (run localhost (finalResults healthy ["Hello there"; "create task"]) listening)).
Proof.
  destruct (C1_wake_word_detection localhost healthy listening) as (_ & H2 & H3).
  - reflexivity.
  - reflexivity.
  - split; [exact H2|]. apply H3. repeat constructor.
Defined.

(** ** Retry budget and permanent disabling *)

Lemma lifeCycle_preserves loc o e s :
  lifeCycle e = true ->
  retryCount (fst (step loc o e s)) = retryCount s /\
  permanentlyDisabled (fst (step loc o e s)) = permanentlyDisabled s.
Proof.
  intro H. destruct e as [| |final raw| | | | | | | | | | |]; try discriminate H.
  - destruct s; crush_handler.
  - destruct s; crush_handler.
  - destruct final; [discriminate H|]. destruct s; crush_handler.
  - destruct s; crush_handler.
Qed.

Lemma network_error_step loc o s :
  secureOrigin loc = true ->
  retryCount (fst (step loc o (OnError Network) s)) =
    (if retryCount s <? maxRetries then S (retryCount s) else retryCount s) /\
  permanentlyDisabled (fst (step loc o (OnError Network) s)) =
    (if retryCount s <? maxRetries then permanentlyDisabled s else true).
Proof.
  intro H. destruct loc as [h l]. unfold secureOrigin in H. cbn in H.
  destruct s. destruct h, l; try discriminate H; crush_handler.
Qed.

Lemma network_run loc es :
  secureOrigin loc = true ->
  Forall (fun oe => networkOrLifeCycle (snd oe) = true) es ->
  forall s, retryCount s <= maxRetries ->
    retryCount (fst (run loc es s)) = Nat.min maxRetries (retryCount s + networkErrors es) /\
    permanentlyDisabled (fst (run loc es s)) =
      permanentlyDisabled s || (maxRetries <? retryCount s + networkErrors es).
Proof.
  intros Hsec Hes. induction Hes as [|[o e] es He _ IH]; intros s Hle.
  - cbn [run skip fst networkErrors]. unfold maxRetries in *.
    rewrite Nat.add_0_r, Nat.min_r by lia.
    replace (3 <? retryCount s) with false by (symmetry; apply Nat.ltb_ge; lia).
    now rewrite orb_false_r.
  - rewrite run_cons. cbn [fst snd] in *.
    assert (Hcases : e = OnError Network \/ lifeCycle e = true).
    { destruct e as [| | | [] | | | | | | | | | |]; cbn in He |- *; auto; discriminate. }
    destruct Hcases as [-> | Hl].
    + destruct (network_error_step loc o s Hsec) as [Hrc Hd].
      cbn [networkErrors]. unfold maxRetries in *.
      destruct (retryCount s <? 3) eqn:Hlt.
      * apply Nat.ltb_lt in Hlt.
        destruct (IH (fst (step loc o (OnError Network) s))) as [IH1 IH2]; [lia|].
        rewrite IH1, IH2, Hrc, Hd. split; [f_equal; lia|].
        f_equal. f_equal. lia.
      * apply Nat.ltb_ge in Hlt. assert (retryCount s = 3) as E by lia.
        destruct (IH (fst (step loc o (OnError Network) s))) as [IH1 IH2]; [lia|].
        rewrite IH1, IH2, Hrc, Hd, E. split; [lia|].
        replace (3 <? 3 + S (networkErrors es)) with true
          by (symmetry; apply Nat.ltb_lt; lia).
        now rewrite orb_true_r.
    + destruct (lifeCycle_preserves loc o e s Hl) as [Hrc Hd].
      assert (networkErrors ((o, e) :: es) = networkErrors es) as ->.
      { destruct e as [| | | [] | | | | | | | | | |]; try reflexivity; discriminate Hl. }
      destruct (IH (fst (step loc o e s))) as [IH1 IH2]; [lia|].
      now rewrite IH1, IH2, Hrc, Hd.
Qed.

Lemma disabled_step loc o e s :
  permanentlyDisabled s = true ->
  permanentlyDisabled (fst (step loc o e s)) = true /\
  ~ In RecognitionStart (snd (step loc o e s)).
Proof.
  intro H. destruct s. cbn in H. subst.
  destruct e as [| |final raw|code|h| | | | | | | | |].
  - crush_handler.
  - crush_handler.
  - destruct final; crush_handler.
  - destruct loc as [[] []], code; crush_handler.
  - crush_handler.
  - crush_handler.
  - crush_handler.
  - crush_handler.
  - crush_handler.
  - crush_handler.
  - crush_handler.
  - crush_handler.
  - crush_handler.
  - crush_handler.
Qed.

Lemma disabled_run loc es :
  forall s, permanentlyDisabled s = true ->
    permanentlyDisabled (fst (run loc es s)) = true /\
    ~ In RecognitionStart (snd (run loc es s)).
Proof.
  induction es as [|[o e] es IH]; intros s H.
  - cbn. auto.
  - rewrite run_cons. cbn [fst snd].
    destruct (disabled_step loc o e s H) as [H1 H2].
    destruct (IH _ H1) as [H3 H4].
    split; [assumption|]. rewrite in_app_iff. tauto.
Qed.

(** C2, as stated, fails: after three consecutive network errors the
    controller is not disabled, and a call of startWakeWordListening()
    starts the recognizer. *)
Lemma C2_three_errors_do_not_disable :
  let s := fst (run localhost threeNetworkErrors listening) in
  networkErrors threeNetworkErrors = 3 /\
  isWaitingForWakeWord s = true /\
  retryCount s = 3 /\
  isDisabled s = false /\
  snd (step localhost healthy StartWakeWordListening s) = [RecognitionStart].
Proof. vm_compute. repeat split. Qed.

(** C2, amended.  On a secure origin, from a fresh retry budget, a run of
    network errors separated only by recognizer life-cycle events and timer
    firings disables the controller exactly when it holds four errors (the
    error that arrives with retryCount at maxRetries = 3); from then on,
    whatever is called -- startWakeWordListening(), resetRetryCount() or
    anything else -- the controller stays disabled and never starts the
    recognizer. *)
Theorem C2_disabled_after_fourth_network_error :
  forall loc es s,
    secureOrigin loc = true ->
    Forall (fun oe => networkOrLifeCycle (snd oe) = true) es ->
    retryCount s = 0 ->
    permanentlyDisabled s = false ->
    (isDisabled (fst (run loc es s)) = true <-> 4 <= networkErrors es) /\
    (4 <= networkErrors es ->
     forall later,
       isDisabled (fst (run loc later (fst (run loc es s)))) = true /\
       ~ In RecognitionStart (snd (run loc later (fst (run loc es s))))).
Proof.
  intros loc es s Hsec Hes Hrc Hd.
  destruct (network_run loc es Hsec Hes s) as [_ H2]; [rewrite Hrc; unfold maxRetries; lia|].
  unfold isDisabled. rewrite Hrc, Hd in H2. cbn [orb plus] in H2. unfold maxRetries in H2.
  assert (Hiff : permanentlyDisabled (fst (run loc es s)) = true <-> 4 <= networkErrors es).
  { rewrite H2. rewrite Nat.ltb_lt. lia. }
  split; [exact Hiff|].
  intros H4 later. apply disabled_run. apply Hiff, H4.
Qed.

Lemma C2_witness :
  isDisabled (fst (run localhost fourNetworkErrors listening)) = true /\
  isDisabled
    (fst (run localhost
            (events [StartWakeWordListening; ResetRetryCount; StartWakeWordListening])
            (fst (run localhost fourNetworkErrors listening)))) = true /\
  ~ In RecognitionStart
      (snd (run localhost
              (events [StartWakeWordListening; ResetRetryCount; StartWakeWordListening])
              (fst (run localhost fourNetworkErrors listening)))).
Proof.
  destruct (C2_disabled_after_fourth_network_error localhost fourNetworkErrors listening)
    as [Hiff Hlater].
  - reflexivity.
  - repeat constructor.
  - reflexivity.
  - reflexivity.
  - split.
    + apply Hiff. vm_compute. lia.
    + apply Hlater. vm_compute. lia.
Defined.

(** ** Permission denied *)

(** C6, as stated, fails: after a permission-denied error the controller is
    not disabled, and the next startWakeWordListening() starts the
    recognizer again. *)
Lemma C6_not_allowed_does_not_disable :
  let s := fst (run localhost deniedRun listening) in
  isDisabled s = false /\
  snd (step localhost healthy StartWakeWordListening s) = [RecognitionStart].
Proof. vm_compute. split; reflexivity. Qed.

(** C6, amended.  A permission-denied error shows the alert, leaves the
    waiting-for-wake-word state and reports listening = false; it leaves
    retryCount and the permanently-disabled flag as they were.  Of the
    pending timers it removes the one whose handle is held in
    retryTimeoutId, when there is one, and that one only; it sets no timer
    of its own. *)
Theorem C6_not_allowed_stops_waiting :
  forall loc o s,
    let r := step loc o (OnError NotAllowed) s in
    isDisabled (fst r) = isDisabled s /\
    isWaitingForWakeWord (fst r) = false /\
    retryTimeoutId (fst r) = None /\
    retryCount (fst r) = retryCount s /\
    snd r = Alert AlertMicrophoneDenied ::
            (if onListeningStateChange s then [ListeningCallback false] else []) /\
    timers (fst r) = match retryTimeoutId s with
                     | Some h => removeTimer h (timers s)
                     | None => timers s
                     end /\
    nextTimer (fst r) = nextTimer s.
Proof.
  intros loc o s. destruct s. cbv zeta. crush_handler.
Qed.

(** ** Resets of retryCount *)

(** C8, as stated, fails: resetRetryCount() clears an accumulated count; it
    is neither a recognized utterance nor a start. *)
Lemma C8_explicit_reset_clears :
  let s := fst (run localhost twoNetworkErrors listening) in
  retryCount s = 2 /\
  retryCount (fst (step localhost healthy ResetRetryCount s)) = 0 /\
  snd (step localhost healthy ResetRetryCount s) = [].
Proof. vm_compute. repeat split. Qed.

Lemma retryCount_drop_cause loc o e s :
  retryCount (fst (step loc o e s)) < retryCount s ->
  resetsRetryCount e s = true /\ retryCount (fst (step loc o e s)) = 0.
Proof.
  destruct s.
  destruct e as [| |final raw|code|h| | | | | | | | |]; cbn [resetsRetryCount].
  - crush_handler.
  - crush_handler.
  - destruct final; crush_handler.
  - destruct loc as [[] []], code; crush_handler.
  - crush_handler.
  - crush_handler.
  - crush_handler.
  - crush_handler.
  - crush_handler.
  - crush_handler.
  - crush_handler.
  - crush_handler.
  - crush_handler.
  - crush_handler.
Qed.

(** C8, amended.  retryCount is set to 0 by every final recognition result,
    by startWakeWordListening() issued while no session is running, and by
    an explicit resetRetryCount() or cleanup(); nothing else lowers it: not
    the start of a session, not its end, not an error, not a restart
    attempt made by a retry timer. *)
Theorem C8_retryCount_reset_causes :
  forall loc o s,
    (forall raw, retryCount (fst (step loc o (OnResult true raw) s)) = 0) /\
    (isRecognizing s = false ->
     retryCount (fst (step loc o StartWakeWordListening s)) = 0) /\
    retryCount (fst (step loc o ResetRetryCount s)) = 0 /\
    retryCount (fst (step loc o Cleanup s)) = 0 /\
    (forall e, retryCount (fst (step loc o e s)) < retryCount s ->
               resetsRetryCount e s = true /\ retryCount (fst (step loc o e s)) = 0) /\
    (forall h, retryCount (fst (step loc o (TimerFired h) s)) = retryCount s) /\
    retryCount (fst (step loc o OnStart s)) = retryCount s /\
    retryCount (fst (step loc o OnEnd s)) = retryCount s.
Proof.
  intros loc o s. split; [|split; [|split; [|split; [|split; [|split; [|split]]]]]].
  - intro raw. destruct s. crush_handler.
  - intro H. destruct s. cbn in H. subst. crush_handler.
  - destruct s. crush_handler.
  - destruct s. crush_handler.
  - intros e H. apply retryCount_drop_cause; assumption.
  - intro h. apply (lifeCycle_preserves loc o (TimerFired h) s). reflexivity.
  - apply (lifeCycle_preserves loc o OnStart s). reflexivity.
  - apply (lifeCycle_preserves loc o OnEnd s). reflexivity.
Qed.

Lemma C8_witness :
  let s := fst (run localhost twoNetworkErrors listening) in
  retryCount (fst (step localhost healthy (OnResult true "show tasks") s)) = 0 /\
  resetsRetryCount ResetRetryCount s = true.
Proof.
  cbv zeta.
  destruct (C8_retryCount_reset_causes localhost healthy
              (fst (run localhost twoNetworkErrors listening)))
    as (H1 & _ & _ & _ & H5 & _).
  split.
  - apply H1.
  - apply (H5 ResetRetryCount). vm_compute. lia.
Defined.

End VoiceProps.

(* ================================================================== *)
(** * Properties of the Dialogue Engine *)
(* ================================================================== *)

Module DialogueProps.

Import JsDate Dialogue.

Section StringFacts.

Lemma truthy_append (a b : string) (c : ascii) :
  truthy (a ++ String c b)%string = true.
Proof. destruct a; reflexivity. Qed.

Lemma truthy_isoDate (t : Z) : truthy (isoDate t) = true.
Proof.
  unfold isoDate. destruct (civilFromDays (dayNumber t)) as [[y m] d].
  apply truthy_append.
Qed.

End StringFacts.

(** The embedding computes: a few readings checked against the platform. *)

Example trim_lower_example : trim (toLowerCase "  Hi Voice ") = "hi voice".
Proof. reflexivity. Qed.

Example includes_inside_word : includes "tomorrow afternoon" "no" = true.
Proof. reflexivity. Qed.

Example isoDate_epoch : isoDate 0 = "1970-01-01".
Proof. reflexivity. Qed.

Example isoDate_leap_day : isoDate 1709251199999 = "2024-02-29".
Proof. reflexivity. Qed.

Example friday_is_day_five : getDay fridayMorning (now fridayMorning) = 5%Z.
Proof. reflexivity. Qed.

Example next_monday_resolves :
  parseDateFromSpeech fridayMorning "next Monday" = "2024-03-18".
Proof. reflexivity. Qed.

Example reminder_in_thirty_minutes :
  parseReminderFromSpeech fridayMorning "remind me in 30 minutes"
    = Some (ValidDate (now fridayMorning + 30 * msPerMinute)%Z).
Proof. reflexivity. Qed.

Example reminder_tomorrow_at_nine :
  parseReminderFromSpeech fridayMorning "tomorrow at 9"
    = Some (ValidDate 1710579600000%Z).
Proof. reflexivity. Qed.

Example reminder_beyond_the_range_of_Date :
  parseReminderFromSpeech fridayMorning "in 200000000000 minutes" = Some InvalidDate.
Proof. reflexivity. Qed.

#[local] Arguments isoDate : simpl never.

(** ** The slot questions *)

Lemma title_slot_index (r : Creator) :
  option_map field (nth_error taskQuestions (currentQuestionIndex r)) = Some Title ->
  currentQuestionIndex r = 0.
Proof.
  destruct (currentQuestionIndex r) as [|[|[|[|[|n]]]]]; cbn; try discriminate; auto.
  destruct n; discriminate.
Qed.

Lemma processAnswer_title_skip r p answer c :
  awaitingReminderAnswer r = false ->
  option_map field (nth_error taskQuestions (currentQuestionIndex r)) = Some Title ->
  isSkip (trim (toLowerCase answer)) = true ->
  processAnswer r p answer c =
    (set_isProcessing false c, [Speak titleRequiredPrompt ThenStartActiveListening]).
Proof.
  intros Hr Hq Hs. apply title_slot_index in Hq.
  unfold processAnswer. cbv zeta. rewrite Hr, Hq. cbn [nth_error taskQuestions].
  rewrite Hs. reflexivity.
Qed.

(** C3.  When the handler belongs to a render [r] that has the title question
    open, an answer whose lower-cased, trimmed form signals skip ("skip" or
    "no" inside it, or nothing at all) makes the engine speak the corrective
    prompt and listen again; whatever the current state [c] is, its slot
    index does not move and its collected data, the title with it, is left
    as it was. *)
Theorem C3_title_cannot_be_skipped :
  forall p answer r c,
    awaitingReminderAnswer r = false ->
    option_map field (nth_error taskQuestions (currentQuestionIndex r)) = Some Title ->
    isSkip (trim (toLowerCase answer)) = true ->
    snd (processAnswer r p answer c) = [Speak titleRequiredPrompt ThenStartActiveListening] /\
    currentQuestionIndex (fst (processAnswer r p answer c)) = currentQuestionIndex c /\
    taskData (fst (processAnswer r p answer c)) = taskData c /\
    (title (taskData c) = "" -> title (taskData (fst (processAnswer r p answer c))) = "") /\
    currentQuestionIndex (fst (answerTurn r p answer c)) = currentQuestionIndex c /\
    taskData (fst (answerTurn r p answer c)) = taskData c /\
    snd (answerTurn r p answer c) =
      [SetTimeout 1000 (ThenProcessAnswer answer);
       Speak titleRequiredPrompt ThenStartActiveListening;
       StartActiveListening].
Proof.
  intros p answer r c Hr Hq Hs.
  rewrite (processAnswer_title_skip r p answer c Hr Hq Hs). cbn [fst snd].
  assert (Hturn : answerTurn r p answer c =
                  (set_isProcessing false (set_isProcessing true (set_currentTranscript answer c)),
                   [SetTimeout 1000 (ThenProcessAnswer answer);
                    Speak titleRequiredPrompt ThenStartActiveListening;
                    StartActiveListening])).
  { unfold answerTurn, handleSpeechResult.
    cbn [settle resume app].
    rewrite (processAnswer_title_skip r p answer); [reflexivity|exact Hr|exact Hq|exact Hs]. }
  rewrite Hturn. cbn [fst snd]. destruct c; cbn. repeat split; auto.
Qed.

Lemma C3_witness :
  snd (processAnswer initialCreator fridayMorning "  Skip " initialCreator)
    = [Speak titleRequiredPrompt ThenStartActiveListening] /\
  currentQuestionIndex (fst (processAnswer initialCreator fridayMorning "  Skip " initialCreator))
    = currentQuestionIndex initialCreator /\
  taskData (fst (processAnswer initialCreator fridayMorning "  Skip " initialCreator))
    = taskData initialCreator /\
  (title (taskData initialCreator) = "" ->
   title (taskData (fst (processAnswer initialCreator fridayMorning "  Skip " initialCreator)))
     = "") /\
  currentQuestionIndex (fst (answerTurn initialCreator fridayMorning "  Skip " initialCreator))
    = currentQuestionIndex initialCreator /\
  taskData (fst (answerTurn initialCreator fridayMorning "  Skip " initialCreator))
    = taskData initialCreator /\
  snd (answerTurn initialCreator fridayMorning "  Skip " initialCreator) =
    [SetTimeout 1000 (ThenProcessAnswer "  Skip ");
     Speak titleRequiredPrompt ThenStartActiveListening;
     StartActiveListening].
Proof.
  apply (C3_title_cannot_be_skipped fridayMorning "  Skip " initialCreator initialCreator);
    reflexivity.
Defined.



(** ** The end-to-end scenario *)

Lemma resolvePriority_first_match (a : string) :
  resolvePriority a =
    if includes a "high" then "high"
    else if includes a "medium" then "medium"
    else if includes a "low" then "low"
    else "medium".
Proof.
  unfold resolvePriority. cbn [find].
  destruct (includes a "high"), (includes a "medium"), (includes a "low"); reflexivity.
Qed.

Lemma processAnswer_priority r p answer c :
  awaitingReminderAnswer r = false ->
  option_map field (nth_error taskQuestions (currentQuestionIndex r)) = Some Priority ->
  isSkip (trim (toLowerCase answer)) = false ->
  priority (taskData (fst (processAnswer r p answer c)))
    = resolvePriority (trim (toLowerCase answer)).
Proof.
  intros Hr Hq Hs.
  assert (Hi : currentQuestionIndex r = 2).
  { destruct (currentQuestionIndex r) as [|[|[|[|[|n]]]]]; cbn in Hq; try discriminate; auto.
    destruct n; discriminate. }
  unfold processAnswer. cbv zeta. rewrite Hr, Hi. cbn [nth_error taskQuestions].
  rewrite Hs. reflexivity.
Qed.

Lemma onresult_hands_over_transcriptOf loc o s utterance :
  Voice.isWaitingForWakeWord s = false ->
  Voice.onSpeechResult s = true ->
  snd (Voice.step loc o (Voice.OnResult true utterance) s)
    = [Voice.SpeechCallback (transcriptOf utterance)].
Proof.
  intros Hw Hcb. destruct s.
  cbn [Voice.isWaitingForWakeWord Voice.onSpeechResult] in *. subst. reflexivity.
Qed.

(** C4 at its input.  The component becomes active in its initial state: it
    asks for the title, and the render of that moment registers the speech
    handler for good.  Said to it, "Buy milk", "skip", "I'd say high priority", "skip", "tomorrow"
    arrive lower-cased and are all taken as answers to the title question:
    the draft ends with the title "tomorrow", priority "medium" and no due
    date, the question asked after every answer is the title question
    again, and no draft is handed to onTaskCreated.  The draft of the claim
    is not reached; already the first answer is stored as "buy milk".  The
    priority rule of the claim holds of the handler of a render that has the
    priority question open: the first of "high", "medium", "low" found in
    the answer, and "medium" when none is. *)
Theorem C4_every_answer_is_taken_for_the_title :
  forall p1 p2 p3 p4 p5,
    let run := converse initialCreator (milkAnswers p1 p2 p3 p4 p5) initialCreator in
    (forall loc o s utterance,
        Voice.isWaitingForWakeWord s = false ->
        Voice.onSpeechResult s = true ->
        snd (Voice.step loc o (Voice.OnResult true utterance) s)
          = [Voice.SpeechCallback (transcriptOf utterance)]) /\
    map snd (milkAnswers p1 p2 p3 p4 p5)
      = ["buy milk"; "skip"; "i'd say high priority"; "skip"; "tomorrow"] /\
    activate p1 initialCreator
      = (initialCreator, [Speak titleQuestion ThenStartActiveListening;
                          StartActiveListening]) /\
    taskData (fst run) =
      {| title := "tomorrow"; description := ""; priority := "medium"; category := "";
         dueDate := "" |} /\
    taskData (fst run) <> milkDraft (now p5) /\
    currentQuestionIndex (fst run) = 3 /\
    needsReminder (fst run) = false /\
    draftsCreated (snd run) = [] /\
    spokenTexts (snd run) =
      ["Got it!buy milk."; titleQuestion;
       titleRequiredPrompt;
       "Got it!i'd say high priority."; titleQuestion;
       titleRequiredPrompt;
       "Got it!tomorrow."; titleQuestion] /\
    title (taskData (fst (answerTurn initialCreator p1 (transcriptOf "Buy milk")
                            initialCreator))) = "buy milk" /\
    (forall a,
        resolvePriority a =
          if includes a "high" then "high"
          else if includes a "medium" then "medium"
          else if includes a "low" then "low"
          else "medium") /\
    (forall r p a c,
        awaitingReminderAnswer r = false ->
        option_map field (nth_error taskQuestions (currentQuestionIndex r)) = Some Priority ->
        isSkip (trim (toLowerCase a)) = false ->
        priority (taskData (fst (processAnswer r p a c)))
          = resolvePriority (trim (toLowerCase a))).
Proof.
  intros p1 p2 p3 p4 p5. cbv zeta.
  split; [exact onresult_hands_over_transcriptOf|].
  split; [reflexivity|].
  split; [reflexivity|].
  split; [reflexivity|].
  split; [discriminate|].
  split; [reflexivity|].
  split; [reflexivity|].
  split; [reflexivity|].
  split; [reflexivity|].
  split; [reflexivity|].
  split; [apply resolvePriority_first_match|].
  apply processAnswer_priority.
Qed.

Lemma C4_witness :
  taskData (fst (converse initialCreator
                   (milkAnswers fridayMorning fridayMorning fridayMorning fridayMorning
                      fridayMorning) initialCreator))
    = {| title := "tomorrow"; description := ""; priority := "medium"; category := "";
         dueDate := "" |} /\
  priority (taskData (fst (processAnswer
                             (set_currentQuestionIndex 2 initialCreator) fridayMorning
                             "It can wait" initialCreator)))
    = "medium".
Proof.
  destruct (C4_every_answer_is_taken_for_the_title fridayMorning fridayMorning fridayMorning
              fridayMorning fridayMorning)
    as (_ & _ & _ & H1 & _ & _ & _ & _ & _ & _ & _ & H6).
  split.
  - exact H1.
  - rewrite H6; reflexivity.
Defined.

(** ** Weekday names *)

(** C7 at its failing inputs: of the weekday names only "monday" resolves;
    "next Friday", the phrase the due-date question itself offers, resolves to
    nothing, so the handler of a render that has the due-date question open
    leaves the due date empty while the slot index moves on. *)
Theorem C7_weekday_names_unresolved :
  forall p,
    parseDateFromSpeech p "next friday" = "" /\
    Forall (fun day => parseDateFromSpeech p day = "") weekdaysButMonday /\
    truthy (parseDateFromSpeech p "monday") = true /\
    dueDate (taskData (fst (answerTurn (atDueDate p) p "next Friday" (atDueDate p)))) = "" /\
    currentQuestionIndex (fst (answerTurn (atDueDate p) p "next Friday" (atDueDate p))) = 5.
Proof.
  intro p. split; [reflexivity|]. split; [repeat constructor|].
  split; [|split; reflexivity].
  unfold parseDateFromSpeech. cbv zeta.
  change (includes (toLowerCase "monday") "today") with false.
  change (includes (toLowerCase "monday") "tomorrow") with false.
  change (includes (toLowerCase "monday") "next week") with false.
  change (includes (toLowerCase "monday") "monday") with true.
  cbv iota. apply truthy_isoDate.
Qed.

End DialogueProps.

(* ================================================================== *)
(** * Properties of the Reminder Scheduler *)
(* ================================================================== *)

Module RemindersProps.

Import TaskTypes Reminders.

(** ** The insertion-ordered map *)

Section MapFacts.
Context {V : Type}.
Implicit Types (m : list (string * V)) (k : string) (v : V).

Lemma mapGet_mapSet_same k v m : mapGet k (mapSet k v m) = Some v.
Proof.
  induction m as [|[k' v'] m IH]; cbn.
  - now rewrite String.eqb_refl.
  - destruct (String.eqb k' k) eqn:E; cbn; rewrite E; auto.
Qed.

Lemma mapGet_mapSet_other k k' v m :
  k' <> k -> mapGet k (mapSet k' v m) = mapGet k m.
Proof.
  intro Hne. induction m as [|[k0 v0] m IH]; cbn.
  - destruct (String.eqb_spec k' k); [contradiction|reflexivity].
  - destruct (String.eqb_spec k0 k') as [->|Hk0]; cbn.
    + destruct (String.eqb_spec k' k); [contradiction|reflexivity].
    + destruct (String.eqb k0 k); auto.
Qed.

Lemma mapGet_mapDelete_same k m : mapGet k (mapDelete k m) = None.
Proof.
  induction m as [|[k' v'] m IH]; cbn; [reflexivity|].
  destruct (String.eqb k' k) eqn:E; cbn; [assumption|]. now rewrite E.
Qed.

Lemma mapGet_mapDelete_other k k' m :
  k' <> k -> mapGet k (mapDelete k' m) = mapGet k m.
Proof.
  intro Hne. induction m as [|[k0 v0] m IH]; cbn; [reflexivity|].
  destruct (String.eqb_spec k0 k') as [->|Hk0]; cbn.
  - destruct (String.eqb_spec k' k); [contradiction|assumption].
  - destruct (String.eqb k0 k); auto.
Qed.

Lemma mapGet_In_values k v m : mapGet k m = Some v -> In v (mapValues m).
Proof.
  induction m as [|[k' v'] m IH]; cbn; [discriminate|].
  destruct (String.eqb k' k); intro H; [left; congruence | right; auto].
Qed.
End MapFacts.

(** ** Triggering *)

Lemma triggerReminder_spec r w :
  let w' := fst (triggerReminder r w) in
  reminders w' = mapSet (id r) (deactivate r) (reminders w) /\
  timeouts w' = mapDelete (id r) (timeouts w) /\
  storage w' = {| tasksItem := tasksItem (storage w);
                  remindersItem := Parsed (mapValues (reminders w')) |} /\
  pendingTimers w' = pendingTimers w /\
  nextHandle w' = nextHandle w /\
  onReminderTriggered w' = onReminderTriggered w /\
  snd (triggerReminder r w) =
    (if onReminderTriggered w then
       match getTaskById (taskId r) (storage w) with
       | Some task => [ReminderTriggered (deactivate r) task]
       | None => []
       end
     else []).
Proof. destruct w. cbn. repeat split. Qed.

(** C10.  When a reminder triggers and the stored task list holds no task
    with its taskId, the reminder is all the same marked inactive and the
    reminder set is written to the store with it, while the registered
    callback is not called and nothing else reports the loss; this holds for
    the trigger itself and for the timer that fires it. *)
Theorem C10_trigger_without_task_is_dropped :
  forall r w,
    getTaskById (taskId r) (storage w) = None ->
    snd (triggerReminder r w) = [] /\
    mapGet (id r) (reminders (fst (triggerReminder r w))) = Some (deactivate r) /\
    isActive (deactivate r) = false /\
    remindersItem (storage (fst (triggerReminder r w)))
      = Parsed (mapValues (reminders (fst (triggerReminder r w)))) /\
    In (deactivate r) (mapValues (reminders (fst (triggerReminder r w)))) /\
    (forall h delay,
        find (fun t => fst t =? h) (pendingTimers w) = Some (h, (delay, r)) ->
        snd (fireTimer h w) = [] /\
        mapGet (id r) (reminders (fst (fireTimer h w))) = Some (deactivate r)).
Proof.
  intros r w Hnone.
  destruct (triggerReminder_spec r w) as (Hr & _ & Hs & _ & _ & _ & Ho).
  assert (Hget : mapGet (id r) (reminders (fst (triggerReminder r w))) = Some (deactivate r)).
  { rewrite Hr. apply mapGet_mapSet_same. }
  split; [rewrite Ho, Hnone; now destruct (onReminderTriggered w)|].
  split; [exact Hget|]. split; [reflexivity|].
  split; [rewrite Hs; reflexivity|].
  split; [eapply mapGet_In_values; exact Hget|].
  intros h delay Hfind. unfold fireTimer. rewrite Hfind.
  set (w0 := set_pendingTimers _ _ w).
  destruct (triggerReminder_spec r w0) as (Hr0 & _ & _ & _ & _ & _ & Ho0).
  split.
  - rewrite Ho0. replace (storage w0) with (storage w) by (destruct w; reflexivity).
    rewrite Hnone. now destruct (onReminderTriggered w0).
  - rewrite Hr0. apply mapGet_mapSet_same.
Qed.

Lemma C10_witness :
  snd (triggerReminder milkReminder listeningWithoutTasks) = [] /\
  mapGet "r1" (reminders (fst (triggerReminder milkReminder listeningWithoutTasks)))
    = Some (deactivate milkReminder).
Proof.
  destruct (C10_trigger_without_task_is_dropped milkReminder listeningWithoutTasks)
    as (H1 & H2 & _).
  - reflexivity.
  - split; [exact H1 | exact H2].
Defined.

(** ** Scheduling a reminder that is already due *)

Lemma scheduleReminder_due now r w :
  (reminderTime r <= now)%Z ->
  scheduleReminder now r w = triggerReminder r w.
Proof.
  intro H. unfold scheduleReminder. cbv zeta.
  replace (reminderTime r - now <=? 0)%Z with true; [reflexivity|].
  symmetry. apply Z.leb_le. lia.
Qed.

Lemma scheduleReminder_later now r w :
  (reminderTime r - now <=? 0)%Z = false ->
  let w' := fst (scheduleReminder now r w) in
  reminders w' = reminders w /\
  timeouts w' = mapSet (id r) (nextHandle w) (timeouts w) /\
  storage w' = storage w /\
  pendingTimers w' = pendingTimers w ++ [(nextHandle w, ((reminderTime r - now)%Z, r))] /\
  snd (scheduleReminder now r w) = [].
Proof.
  intro H. unfold scheduleReminder. cbv zeta. rewrite H. destruct w. cbn.
  repeat split.
Qed.

Lemma loadOne_keeps_noTimerFor now x k w :
  id x <> k -> noTimerFor k w -> noTimerFor k (fst (loadOne now x w)).
Proof.
  intros Hne Hno. unfold loadOne, andThen, modify. cbn [fst snd].
  set (w0 := set_reminders _ w).
  assert (Hp0 : pendingTimers w0 = pendingTimers w) by (destruct w; reflexivity).
  destruct (isActive x).
  - destruct (reminderTime x - now <=? 0)%Z eqn:Hdue.
    + apply Z.leb_le in Hdue. rewrite scheduleReminder_due by lia.
      destruct (triggerReminder_spec x w0) as (_ & _ & _ & Hp & _).
      destruct (triggerReminder x w0) as [w1 o1]. cbn [fst snd] in *.
      intros h d y Hin. rewrite Hp, Hp0 in Hin. eapply Hno. exact Hin.
    + destruct (scheduleReminder_later now x w0 Hdue) as (_ & _ & _ & Hp & _).
      destruct (scheduleReminder now x w0) as [w1 o1]. cbn [fst snd] in *.
      intros h d y Hin. rewrite Hp, Hp0 in Hin.
      apply in_app_or in Hin. destruct Hin as [Hin|[Heq|[]]].
      * eapply Hno. exact Hin.
      * inversion Heq; subst. exact Hne.
  - cbn [fst]. intros h d y Hin. rewrite Hp0 in Hin. eapply Hno. exact Hin.
Qed.

Lemma loadOne_keeps_settled now x fired w :
  id x <> id fired -> settled fired w -> settled fired (fst (loadOne now x w)).
Proof.
  intros Hne (Hget & Htime & (saved & Hsaved & Hin) & Hpend).
  unfold loadOne, andThen, modify. cbn [fst snd].
  set (w0 := set_reminders _ w).
  assert (Hget0 : mapGet (id fired) (reminders w0) = Some fired).
  { subst w0. destruct w; cbn [reminders set_reminders] in *.
    rewrite mapGet_mapSet_other; assumption. }
  assert (Ht0 : timeouts w0 = timeouts w) by (destruct w; reflexivity).
  assert (Hs0 : storage w0 = storage w) by (destruct w; reflexivity).
  assert (Hp0 : pendingTimers w0 = pendingTimers w) by (destruct w; reflexivity).
  destruct (isActive x).
  - destruct (reminderTime x - now <=? 0)%Z eqn:Hdue.
    + apply Z.leb_le in Hdue. rewrite scheduleReminder_due by lia.
      destruct (triggerReminder_spec x w0) as (Hr & Ht & Hs & Hp & _).
      destruct (triggerReminder x w0) as [w1 o1]. cbn [fst snd] in *.
      assert (Hget1 : mapGet (id fired) (reminders w1) = Some fired).
      { rewrite Hr. cbn [id deactivate]. rewrite mapGet_mapSet_other; assumption. }
      split; [exact Hget1|]. split; [|split].
      * rewrite Ht, Ht0. cbn [id deactivate].
        rewrite mapGet_mapDelete_other; assumption.
      * exists (mapValues (reminders w1)). split; [rewrite Hs; reflexivity|].
        eapply mapGet_In_values; exact Hget1.
      * intros h d y Hy. rewrite Hp, Hp0 in Hy. eapply Hpend; exact Hy.
    + destruct (scheduleReminder_later now x w0 Hdue) as (Hr & Ht & Hs & Hp & _).
      destruct (scheduleReminder now x w0) as [w1 o1]. cbn [fst snd] in *.
      split; [rewrite Hr; exact Hget0|]. split; [|split].
      * rewrite Ht, Ht0, mapGet_mapSet_other; assumption.
      * exists saved. rewrite Hs, Hs0. auto.
      * intros h d y Hy. rewrite Hp, Hp0 in Hy.
        apply in_app_or in Hy. destruct Hy as [Hy|[Heq|[]]].
        -- eapply Hpend; exact Hy.
        -- inversion Heq; subst. exact Hne.
  - cbn [fst]. split; [exact Hget0|]. split; [|split].
    + rewrite Ht0. exact Htime.
    + exists saved. rewrite Hs0. auto.
    + intros h d y Hy. rewrite Hp0 in Hy. eapply Hpend; exact Hy.
Qed.

Lemma loadOne_settles now r w :
  isActive r = true -> (reminderTime r <= now)%Z ->
  noTimerFor (id r) w ->
  settled (deactivate r) (fst (loadOne now r w)).
Proof.
  intros Ha Hdue Hno. unfold loadOne, andThen, modify. cbn [fst snd].
  rewrite Ha, scheduleReminder_due by assumption.
  set (w0 := set_reminders _ w).
  assert (Hp0 : pendingTimers w0 = pendingTimers w) by (destruct w; reflexivity).
  destruct (triggerReminder_spec r w0) as (Hr & Ht & Hs & Hp & _).
  destruct (triggerReminder r w0) as [w1 o1]. cbn [fst snd] in *.
  assert (Hget1 : mapGet (id r) (reminders w1) = Some (deactivate r)).
  { rewrite Hr. apply mapGet_mapSet_same. }
  split; [exact Hget1|]. split; [|split].
  - cbn [id deactivate]. rewrite Ht. apply mapGet_mapDelete_same.
  - exists (mapValues (reminders w1)). split; [rewrite Hs; reflexivity|].
    eapply mapGet_In_values; exact Hget1.
  - intros h d y Hy. rewrite Hp, Hp0 in Hy. eapply Hno; exact Hy.
Qed.

Lemma loadAll_app now rs1 rs2 w :
  fst (loadAll now (rs1 ++ rs2) w) = fst (loadAll now rs2 (fst (loadAll now rs1 w))).
Proof.
  revert w. induction rs1 as [|x rs1 IH]; intro w; [reflexivity|].
  cbn [loadAll app]. unfold andThen.
  destruct (loadOne now x w) as [w1 o1]. cbn [fst].
  specialize (IH w1).
  destruct (loadAll now (rs1 ++ rs2) w1) as [w2 o2].
  destruct (loadAll now rs1 w1) as [w3 o3]. cbn [fst] in *. exact IH.
Qed.

Lemma loadAll_cons now x rs w :
  fst (loadAll now (x :: rs) w) = fst (loadAll now rs (fst (loadOne now x w))).
Proof.
  cbn [loadAll]. unfold andThen.
  destruct (loadOne now x w) as [w1 o1]. cbn [fst].
  destruct (loadAll now rs w1); reflexivity.
Qed.

Lemma loadAll_keeps_noTimerFor now k rs :
  forall w, ~ In k (map id rs) -> noTimerFor k w -> noTimerFor k (fst (loadAll now rs w)).
Proof.
  induction rs as [|x rs IH]; intros w Hk Hno; [exact Hno|].
  rewrite loadAll_cons. apply IH.
  - intro H. apply Hk. right. exact H.
  - apply loadOne_keeps_noTimerFor; [|exact Hno]. intro H. apply Hk. left. exact H.
Qed.

Lemma loadAll_keeps_settled now fired rs :
  forall w, ~ In (id fired) (map id rs) -> settled fired w ->
            settled fired (fst (loadAll now rs w)).
Proof.
  induction rs as [|x rs IH]; intros w Hk Hs; [exact Hs|].
  rewrite loadAll_cons. apply IH.
  - intro H. apply Hk. right. exact H.
  - apply loadOne_keeps_settled; [|exact Hs]. intro H. apply Hk. left. exact H.
Qed.

Lemma loadAll_settles now rs r w :
  NoDup (map id rs) -> In r rs ->
  isActive r = true -> (reminderTime r <= now)%Z ->
  noTimerFor (id r) w ->
  settled (deactivate r) (fst (loadAll now rs w)).
Proof.
  intros Hnd Hin Ha Hdue Hno.
  destruct (in_split _ _ Hin) as (pre & post & ->).
  rewrite map_app in Hnd. cbn [map] in Hnd.
  assert (Hpost : ~ In (id r) (map id post)).
  { apply NoDup_remove_2 in Hnd. intro H. apply Hnd, in_or_app. right. exact H. }
  assert (Hpre : ~ In (id r) (map id pre)).
  { apply NoDup_remove_2 in Hnd. intro H. apply Hnd, in_or_app. left. exact H. }
  rewrite loadAll_app, loadAll_cons.
  apply loadAll_keeps_settled; [exact Hpost|].
  apply loadOne_settles; try assumption.
  apply loadAll_keeps_noTimerFor; assumption.
Qed.

(** No callback is registered while the constructor loads: nothing is
    delivered, and the stored task list is not touched. *)
Lemma loadOne_silent now x w :
  onReminderTriggered w = false ->
  snd (loadOne now x w) = [] /\
  onReminderTriggered (fst (loadOne now x w)) = false /\
  tasksItem (storage (fst (loadOne now x w))) = tasksItem (storage w).
Proof.
  intro H. destruct w. cbn in H. subst.
  unfold loadOne, andThen, modify, scheduleReminder. cbn.
  destruct (isActive x); [|repeat split].
  destruct (reminderTime x - now <=? 0)%Z; cbn; repeat split.
Qed.

Lemma loadAll_silent now rs :
  forall w,
    onReminderTriggered w = false ->
    snd (loadAll now rs w) = [] /\
    onReminderTriggered (fst (loadAll now rs w)) = false /\
    tasksItem (storage (fst (loadAll now rs w))) = tasksItem (storage w).
Proof.
  induction rs as [|x rs IH]; intros w H; [repeat split; exact H|].
  destruct (loadOne_silent now x w H) as (Ho & Hf & Ht).
  destruct (IH (fst (loadOne now x w)) Hf) as (Ho' & Hf' & Ht').
  cbn [loadAll]. unfold andThen.
  destruct (loadOne now x w) as [w1 o1]. cbn [fst snd] in *.
  destruct (loadAll now rs w1) as [w2 o2]. cbn [fst snd] in *.
  subst. split; [reflexivity|]. split; [exact Hf'|congruence].
Qed.

Lemma fireTimer_of_another k h w :
  noTimerFor k w -> timesTriggered k (snd (fireTimer h w)) = 0.
Proof.
  intro Hno. unfold fireTimer.
  destruct (find (fun t => fst t =? h) (pendingTimers w)) as [[h' [delay x]]|] eqn:F;
    [|reflexivity].
  apply find_some in F as [Hin _]. specialize (Hno h' delay x Hin).
  set (w0 := set_pendingTimers _ _ w).
  destruct (triggerReminder_spec x w0) as (_ & _ & _ & _ & _ & _ & ->).
  destruct (onReminderTriggered w0); [|reflexivity].
  destruct (getTaskById (taskId x) (storage w0)); [|reflexivity].
  unfold timesTriggered. cbn [filter deactivate id].
  destruct (String.eqb_spec (id x) k) as [E|_]; [contradiction|reflexivity].
Qed.

(** C5 at its failing input.  An active reminder that is already due when
    the manager is constructed over the store that holds it, and whose task
    is in the store, is triggered inside the constructor, where no callback
    can yet be registered: the callback is not called for it, it is stored
    inactive in the manager and in the store, and no timer is left that
    could deliver it once the page has registered its callback.  Scheduled
    in a manager whose callback is registered, the same reminder is
    delivered at once, exactly once. *)
Theorem C5_reloaded_past_due_is_never_delivered :
  forall now st persistedReminders r task,
    remindersItem st = Parsed persistedReminders ->
    NoDup (map id persistedReminders) ->
    In r persistedReminders ->
    isActive r = true ->
    (reminderTime r <= now)%Z ->
    getTaskById (taskId r) st = Some task ->
    let started := construct now st in
    let w := fst (onReminder (fst started)) in
    snd started = [] /\
    onReminderTriggered w = true /\
    getTaskById (taskId r) (storage w) = Some task /\
    mapGet (id r) (reminders w) = Some (deactivate r) /\
    isActive (deactivate r) = false /\
    mapGet (id r) (timeouts w) = None /\
    (exists saved, remindersItem (storage w) = Parsed saved /\ In (deactivate r) saved) /\
    (forall h, timesTriggered (id r) (snd (fireTimer h w)) = 0) /\
    (forall w0,
        onReminderTriggered w0 = true ->
        getTaskById (taskId r) (storage w0) = Some task ->
        snd (scheduleReminder now r w0) = [ReminderTriggered (deactivate r) task] /\
        timesTriggered (id r) (snd (scheduleReminder now r w0)) = 1).
Proof.
  intros now st rs r task Hst Hnd Hin Ha Hdue Htask. cbv zeta.
  set (w0 := {| reminders := []; timeouts := []; onReminderTriggered := false;
                storage := st; pendingTimers := []; nextHandle := 1 |}).
  assert (Hc : construct now st = loadAll now rs w0).
  { unfold construct, loadReminders. cbn [storage]. rewrite Hst. reflexivity. }
  destruct (loadAll_silent now rs w0 eq_refl) as (Hout & _ & Htasks).
  assert (Hs : settled (deactivate r) (fst (loadAll now rs w0))).
  { apply (loadAll_settles now rs r); try assumption. intros h d x []. }
  destruct Hs as (Hget & Htime & Hsaved & Hnone).
  rewrite Hc.
  assert (Hw : forall w1, fst (onReminder w1) = set_onReminderTriggered true w1)
    by reflexivity.
  rewrite Hw.
  split; [exact Hout|]. split; [reflexivity|].
  split.
  { unfold getTaskById, getStoredTasks in *.
    cbn [storage set_onReminderTriggered]. rewrite Htasks. exact Htask. }
  split; [exact Hget|]. split; [reflexivity|]. split; [exact Htime|].
  split; [exact Hsaved|].
  split.
  { intro h. apply fireTimer_of_another. exact Hnone. }
  intros w1 Hcb Ht1. rewrite scheduleReminder_due by assumption.
  destruct (triggerReminder_spec r w1) as (_ & _ & _ & _ & _ & _ & ->).
  rewrite Hcb, Ht1. split; [reflexivity|].
  unfold timesTriggered. cbn [filter deactivate id]. rewrite String.eqb_refl. reflexivity.
Qed.

Lemma C5_witness :
  snd (construct fiveMinutesLate persisted) = [] /\
  mapGet "r1" (reminders (fst (onReminder (fst (construct fiveMinutesLate persisted)))))
    = Some (deactivate milkReminder) /\
  (forall h,
      timesTriggered "r1"
        (snd (fireTimer h (fst (onReminder (fst (construct fiveMinutesLate persisted))))))
        = 0) /\
  timesTriggered "r1"
    (snd (scheduleReminder fiveMinutesLate milkReminder
            (fst (onReminder (fst (construct 0 {| tasksItem := Parsed [milkTask];
                                                  remindersItem := Missing |}))))))
    = 1.
Proof.
  destruct (C5_reloaded_past_due_is_never_delivered fiveMinutesLate persisted
              [milkReminder; laterReminder] milkReminder milkTask)
    as (H1 & _ & _ & H2 & _ & _ & _ & H3 & H4).
  - reflexivity.
  - repeat constructor; cbn; intuition discriminate.
  - left. reflexivity.
  - reflexivity.
  - vm_compute. discriminate.
  - reflexivity.
  - split; [exact H1|]. split; [exact H2|]. split; [exact H3|].
    apply H4; reflexivity.
Defined.

End RemindersProps.

(* ================================================================== *)
(** * Further properties of the Speech Input Controller *)
(* ================================================================== *)

Module VoiceMore.

Import Voice VoiceProps VoiceObservations.

Ltac arith_hyps :=
  repeat match goal with
         | H : _ && _ = true |- _ => apply andb_true_iff in H; destruct H
         | H : _ && _ = false |- _ => apply andb_false_iff in H; destruct H
         | H : _ || _ = false |- _ => apply orb_false_iff in H; destruct H
         | H : _ || _ = true |- _ => apply orb_true_iff in H; destruct H
         | H : negb _ = true |- _ => apply negb_true_iff in H
         | H : negb _ = false |- _ => apply negb_false_iff in H
         | H : (_ <? _) = true |- _ => apply Nat.ltb_lt in H
         | H : (_ <? _) = false |- _ => apply Nat.ltb_ge in H
         | H : (_ <=? _) = true |- _ => apply Nat.leb_le in H
         | H : (_ <=? _) = false |- _ => apply Nat.leb_gt in H
         end.

Ltac crush_arith :=
  unfold_handlers; split_branches; cbn [fst snd app In]; arith_hyps;
  try solve [intuition (try discriminate; try congruence; try lia)].

Ltac each_event e :=
  destruct e as [| |[] ?|[]| | | | | | | | | |].

(** ** The retry budget *)

Lemma retryCount_bounded_step loc o e s :
  retryCount s <= maxRetries -> retryCount (fst (step loc o e s)) <= maxRetries.
Proof.
  intro H. destruct s. cbn [retryCount] in H. unfold maxRetries in H.
  destruct loc as [[] []]; each_event e; crush_arith.
Qed.

(** X1.  From a count within the budget, no run of events whatever takes
    retryCount above maxRetries. *)
Theorem retryCount_never_exceeds_budget :
  forall loc es s,
    retryCount s <= maxRetries ->
    retryCount (fst (run loc es s)) <= maxRetries.
Proof.
  intros loc es. induction es as [|[o e] es IH]; intros s H.
  - exact H.
  - rewrite run_cons. cbn [fst]. apply IH, retryCount_bounded_step, H.
Qed.

Lemma retryCount_never_exceeds_budget_witness :
  retryCount (fst (run localhost fourNetworkErrors listening)) <= maxRetries.
Proof.
  apply (retryCount_never_exceeds_budget localhost fourNetworkErrors listening).
  vm_compute. lia.
Defined.

(** ** Alerts *)

Lemma securityAlerts_app a b :
  securityAlerts (a ++ b) = securityAlerts a + securityAlerts b.
Proof. unfold securityAlerts. now rewrite filter_app, length_app. Qed.

Lemma securityAlerts_step loc o e s :
  securityAlerts (snd (step loc o e s)) + alertBudget (fst (step loc o e s))
    <= alertBudget s.
Proof.
  destruct s. unfold alertBudget, securityAlerts.
  destruct loc as [[] []]; each_event e; unfold_handlers; split_branches;
    cbn [fst snd app List.length filter isSecurityAlert]; lia.
Qed.

(** X2.  The insecure-origin alert and the service-unreachable alert share
    one guard flag: over any run of events the two together are shown at
    most once, and never again once the flag is set. *)
Theorem security_alert_shown_at_most_once :
  forall loc es s,
    securityAlerts (snd (run loc es s)) <= 1 /\
    (hasShownSecurityAlert s = true -> securityAlerts (snd (run loc es s)) = 0).
Proof.
  intros loc es.
  assert (H : forall s, securityAlerts (snd (run loc es s))
                        + alertBudget (fst (run loc es s)) <= alertBudget s).
  { induction es as [|[o e] es IH]; intro s.
    - cbn. lia.
    - rewrite run_cons. cbn [fst snd]. rewrite securityAlerts_app.
      pose proof (securityAlerts_step loc o e s).
      pose proof (IH (fst (step loc o e s))). lia. }
  intro s. specialize (H s). unfold alertBudget in H at 2.
  split.
  - destruct (hasShownSecurityAlert s); lia.
  - intro E. rewrite E in H. lia.
Qed.

Lemma security_alert_shown_at_most_once_witness :
  securityAlerts
    (snd (run localhost (events [OnError Network; OnError Network])
            (fst (run localhost fourNetworkErrors listening)))) = 0.
Proof.
  apply (security_alert_shown_at_most_once localhost
           (events [OnError Network; OnError Network])
           (fst (run localhost fourNetworkErrors listening))).
  reflexivity.
Defined.

(** ** What disables the controller *)

(** X3.  The permanently-disabled flag is raised by a network error and by
    nothing else: on an insecure origin by the first such error, on a secure
    origin by the one that finds the retry budget used up. *)
Theorem only_network_errors_disable :
  forall loc o e s,
    permanentlyDisabled s = false ->
    (permanentlyDisabled (fst (step loc o e s)) = true <->
     e = OnError Network /\
     (secureOrigin loc = false \/ maxRetries <= retryCount s)).
Proof.
  intros loc o e s H. destruct s. cbn [permanentlyDisabled] in H. subst.
  unfold secureOrigin, maxRetries.
  destruct loc as [[] []]; cbn [isHttps isLocalhost orb];
    each_event e; crush_arith.
Qed.

Lemma only_network_errors_disable_witness :
  permanentlyDisabled
    (fst (step {| isHttps := false; isLocalhost := false |} healthy
            (OnError Network) listening)) = true.
Proof.
  apply (only_network_errors_disable {| isHttps := false; isLocalhost := false |}
           healthy (OnError Network) listening).
  - reflexivity.
  - split; [reflexivity | left; reflexivity].
Defined.

(** X4.  On an insecure origin a network error disables at once: the
    controller leaves the wake-word state, keeps retryCount as it was,
    holds no retry timer and creates none. *)
Theorem insecure_origin_disables_without_retry :
  forall loc o s,
    secureOrigin loc = false ->
    let s' := fst (step loc o (OnError Network) s) in
    permanentlyDisabled s' = true /\
    isWaitingForWakeWord s' = false /\
    retryCount s' = retryCount s /\
    retryTimeoutId s' = None /\
    nextTimer s' = nextTimer s /\
    snd (step loc o (OnError Network) s) =
      (if hasShownSecurityAlert s then [] else [Alert AlertInsecureOrigin]).
Proof.
  intros loc o s H. destruct s. unfold secureOrigin in H.
  destruct loc as [[] []]; cbn [isHttps isLocalhost orb] in H; try discriminate H.
  cbv zeta. crush_arith.
Qed.

Lemma insecure_origin_disables_without_retry_witness :
  permanentlyDisabled
    (fst (step {| isHttps := false; isLocalhost := false |} healthy
            (OnError Network) listening)) = true /\
  retryCount
    (fst (step {| isHttps := false; isLocalhost := false |} healthy
            (OnError Network) listening)) = 0.
Proof.
  destruct (insecure_origin_disables_without_retry
              {| isHttps := false; isLocalhost := false |} healthy listening)
    as (H1 & _ & H3 & _).
  - reflexivity.
  - split; [exact H1 | exact H3].
Defined.

(** ** Starting and stopping the recognizer *)

(** X5.  recognition.start() is called only when a recognizer exists, the
    controller is not disabled and no session is marked as running;
    recognition.stop() only on a session marked as running. *)
Theorem start_and_stop_are_guarded :
  forall loc o e s,
    (In RecognitionStart (snd (step loc o e s)) ->
     recognition s = true /\ permanentlyDisabled s = false /\ isRecognizing s = false) /\
    (In RecognitionStop (snd (step loc o e s)) ->
     recognition s = true /\ isRecognizing s = true).
Proof.
  intros loc o e s. destruct s.
  destruct loc as [[] []]; each_event e; crush_arith.
Qed.

Lemma start_and_stop_are_guarded_witness :
  recognition (create true) = true /\
  permanentlyDisabled (create true) = false /\
  isRecognizing (create true) = false.
Proof.
  apply (start_and_stop_are_guarded localhost healthy StartWakeWordListening (create true)).
  vm_compute. left. reflexivity.
Defined.

(** X6.  stopWakeWordListening() is idempotent: once a call went through
    (stop() did not throw), a second call asks nothing of the recognizer and
    changes nothing. *)
Theorem stopWakeWordListening_twice :
  forall loc o1 o2 s,
    stopThrows o1 = false ->
    step loc o2 StopWakeWordListening (fst (step loc o1 StopWakeWordListening s))
      = (fst (step loc o1 StopWakeWordListening s), []).
Proof.
  intros loc o1 o2 s H. destruct s, o1. cbn [stopThrows] in H. subst.
  crush_arith.
Qed.

Lemma stopWakeWordListening_twice_witness :
  step localhost healthy StopWakeWordListening
    (fst (step localhost healthy StopWakeWordListening listening))
    = (fst (step localhost healthy StopWakeWordListening listening), []).
Proof.
  apply (stopWakeWordListening_twice localhost healthy healthy listening).
  reflexivity.
Defined.

(** ** Results outside the wake-word state *)

(** X7.  While the controller is not waiting for the wake word, a final
    result is handed to the speech callback lower-cased and trimmed, resets
    retryCount and never fires the wake-word callback, whatever was said;
    a result that is not final changes nothing and reaches nobody. *)
Theorem results_in_active_listening :
  forall loc o raw s,
    isWaitingForWakeWord s = false ->
    snd (step loc o (OnResult true raw) s) =
      (if onSpeechResult s then [SpeechCallback (trim (toLowerCase raw))] else []) /\
    fst (step loc o (OnResult true raw) s) = set_retryCount 0 s /\
    step loc o (OnResult false raw) s = (s, []).
Proof.
  intros loc o raw s H. destruct s. cbn [isWaitingForWakeWord] in H. subst.
  crush_arith.
Qed.

Lemma results_in_active_listening_witness :
  snd (step localhost healthy (OnResult true "  Hi Voice, create TASK ")
         (fst (step localhost healthy StartActiveListening listening)))
    = [SpeechCallback "hi voice, create task"].
Proof.
  destruct (results_in_active_listening localhost healthy "  Hi Voice, create TASK "
              (fst (step localhost healthy StartActiveListening listening)))
    as (H1 & _).
  - reflexivity.
  - exact H1.
Defined.

(** ** Timers *)

Lemma fresh_filter n p (ts : list (nat * TimerBody)) :
  Forall (fun t => fst t < n) ts -> Forall (fun t => fst t < n) (filter p ts).
Proof.
  intro H. apply Forall_forall. intros t Hin. apply filter_In in Hin.
  rewrite Forall_forall in H. apply H, Hin.
Qed.

Lemma fresh_push n b (ts : list (nat * TimerBody)) :
  Forall (fun t => fst t < n) ts -> Forall (fun t => fst t < S n) (ts ++ [(n, b)]).
Proof.
  intro H. apply Forall_app. split.
  - eapply Forall_impl; [|exact H]. cbn. intros; lia.
  - repeat constructor.
Qed.

Lemma timersFresh_step loc o e s :
  timersFresh s -> timersFresh (fst (step loc o e s)).
Proof.
  unfold timersFresh. destruct s. cbn [timers nextTimer]. intro H.
  destruct loc as [[] []]; each_event e; unfold_handlers; split_branches;
    cbn [fst snd]; unfold removeTimer;
    repeat first [ exact H
                 | apply fresh_push
                 | apply fresh_filter ].
Qed.

Lemma timersFresh_reachable loc s : reachable loc s -> timersFresh s.
Proof.
  intros (supported & es & ->).
  assert (H : forall s0, timersFresh s0 -> timersFresh (fst (run loc es s0))).
  { induction es as [|[o e] es IH]; intros s0 H0; [exact H0|].
    rewrite run_cons. cbn [fst]. apply IH, timersFresh_step, H0. }
  apply H. constructor.
Qed.

Lemma lookupTimer_fresh h (ts : list (nat * TimerBody)) :
  Forall (fun t => fst t < h) ts -> lookupTimer h ts = None.
Proof.
  induction 1 as [|[h' b] ts Hh _ IH]; [reflexivity|].
  cbn in *. destruct (Nat.eqb_spec h' h); [lia|exact IH].
Qed.

Lemma lookupTimer_push h b (ts : list (nat * TimerBody)) :
  Forall (fun t => fst t < h) ts -> lookupTimer h (ts ++ [(h, b)]) = Some b.
Proof.
  induction 1 as [|[h' b'] ts Hh _ IH]; cbn.
  - now rewrite Nat.eqb_refl.
  - cbn in Hh. destruct (Nat.eqb_spec h' h); [lia|exact IH].
Qed.

(** X8.  Wake-word listening keeps itself alive: in any reachable state in
    which the controller waits for the wake word, is not disabled, has a
    recognizer and retry budget left, the end of the session schedules a
    restart timer, and when that timer fires the recognizer is started
    again. *)
Theorem session_end_restarts_listening :
  forall loc o s,
    reachable loc s ->
    recognition s = true ->
    isWaitingForWakeWord s = true ->
    permanentlyDisabled s = false ->
    retryCount s < maxRetries ->
    let ended := fst (step loc o OnEnd s) in
    retryTimeoutId ended = Some (nextTimer s) /\
    lookupTimer (nextTimer s) (timers ended) = Some RestartAfterEnd /\
    snd (step loc o (TimerFired (nextTimer s)) ended) = [RecognitionStart].
Proof.
  intros loc o s Hreach Hrec Hw Hd Hrc.
  apply timersFresh_reachable in Hreach. unfold timersFresh in Hreach.
  destruct s. cbn [recognition isWaitingForWakeWord permanentlyDisabled retryCount
                   timers nextTimer] in *.
  subst. unfold maxRetries in Hrc. apply Nat.ltb_lt in Hrc. cbv zeta.
  pose proof (lookupTimer_push nextTimer0 RestartAfterEnd timers0 Hreach) as Hl.
  assert (Hl' := Hl). cbv beta iota zeta delta [app] in Hl'.
  destruct onListeningStateChange0, o as [[] ?];
    unfold_handlers; rewrite Hrc; cbn [andb negb orb]; unfold_handlers;
    rewrite !Hl'; cbn [andb negb orb]; unfold_handlers; cbn [andb negb orb];
    unfold_handlers; auto.
Qed.

Lemma session_end_restarts_listening_witness :
  snd (step localhost healthy (TimerFired (nextTimer listening))
         (fst (step localhost healthy OnEnd listening))) = [RecognitionStart].
Proof.
  destruct (session_end_restarts_listening localhost healthy listening) as (_ & _ & H).
  - exists true.
    exists (events [RegisterOnWakeWord; RegisterOnListeningChange; RegisterOnSpeech;
                    StartWakeWordListening; OnStart]).
    reflexivity.
  - reflexivity.
  - reflexivity.
  - reflexivity.
  - vm_compute. lia.
  - exact H.
Defined.

End VoiceMore.

(* ================================================================== *)
(** * Further properties of the Dialogue Engine *)
(* ================================================================== *)

Module DialogueMore.

Import JsDate Dialogue DialogueProps DialogueObservations.

(** ** Normalising a transcript *)

Lemma isWhiteSpace_lowerChar c : isWhiteSpace (lowerChar c) = isWhiteSpace c.
Proof. destruct c as [[] [] [] [] [] [] [] []]; reflexivity. Qed.

Lemma lowerChar_idempotent c : lowerChar (lowerChar c) = lowerChar c.
Proof. destruct c as [[] [] [] [] [] [] [] []]; reflexivity. Qed.

Lemma toLowerCase_idempotent s : toLowerCase (toLowerCase s) = toLowerCase s.
Proof. induction s as [|c s IH]; cbn; [reflexivity|]. now rewrite lowerChar_idempotent, IH. Qed.

Lemma trimStart_toLowerCase s : trimStart (toLowerCase s) = toLowerCase (trimStart s).
Proof.
  induction s as [|c s IH]; cbn; [reflexivity|].
  rewrite isWhiteSpace_lowerChar. destruct (isWhiteSpace c); [exact IH|reflexivity].
Qed.

Lemma trimEnd_toLowerCase s : trimEnd (toLowerCase s) = toLowerCase (trimEnd s).
Proof.
  induction s as [|c s IH]; cbn; [reflexivity|].
  rewrite IH, isWhiteSpace_lowerChar.
  destruct (trimEnd s); cbn; [destruct (isWhiteSpace c)|]; reflexivity.
Qed.

Lemma trim_toLowerCase s : trim (toLowerCase s) = toLowerCase (trim s).
Proof. unfold trim. now rewrite trimStart_toLowerCase, trimEnd_toLowerCase. Qed.

Lemma truthy_toLowerCase s : truthy (toLowerCase s) = truthy s.
Proof. destruct s; reflexivity. Qed.

Lemma trimEnd_cons c s :
  trimEnd (String c s) =
    match trimEnd s with
    | EmptyString => if isWhiteSpace c then EmptyString else String c EmptyString
    | r => String c r
    end.
Proof. reflexivity. Qed.

Lemma trimEnd_idempotent s : trimEnd (trimEnd s) = trimEnd s.
Proof.
  induction s as [|c s IH]; [reflexivity|].
  rewrite trimEnd_cons.
  destruct (trimEnd s) as [|c' r] eqn:E.
  - destruct (isWhiteSpace c) eqn:W; [reflexivity|].
    rewrite trimEnd_cons. cbn [trimEnd]. now rewrite W.
  - rewrite trimEnd_cons, IH. reflexivity.
Qed.

Lemma trimStart_clean s : startsClean (trimStart s).
Proof.
  induction s as [|c s IH]; cbn; [exact I|].
  destruct (isWhiteSpace c) eqn:W; [exact IH | exact W].
Qed.

Lemma trimStart_of_clean s : startsClean s -> trimStart s = s.
Proof. destruct s as [|c s]; cbn; [reflexivity|]. now intros ->. Qed.

Lemma trimEnd_clean s : startsClean s -> startsClean (trimEnd s).
Proof.
  destruct s as [|c s]; cbn; [auto|]. intro W.
  destruct (trimEnd s); [rewrite W|]; exact W.
Qed.

Lemma trim_idempotent s : trim (trim s) = trim s.
Proof.
  unfold trim.
  rewrite (trimStart_of_clean (trimEnd (trimStart s))).
  - apply trimEnd_idempotent.
  - apply trimEnd_clean, trimStart_clean.
Qed.

Lemma normalise_idempotent s :
  trim (toLowerCase (trim (toLowerCase s))) = trim (toLowerCase s).
Proof.
  rewrite (trim_toLowerCase s), toLowerCase_idempotent.
  rewrite trim_toLowerCase, trim_idempotent. reflexivity.
Qed.

Lemma not_skip_has_text answer :
  isSkip (trim (toLowerCase answer)) = false -> truthy (trim answer) = true.
Proof.
  unfold isSkip. intro H. apply orb_false_iff in H. destruct H as [_ H].
  rewrite trim_toLowerCase in H.
  rewrite <- truthy_toLowerCase. destruct (toLowerCase (trim answer)); [discriminate H|reflexivity].
Qed.

(** ** The phrase-to-date resolver *)

(** X9.  parseDateFromSpeech answers with the empty string exactly when the
    lower-cased phrase contains none of "today", "tomorrow", "next week"
    and "monday"; every other phrase gets a date. *)
Theorem parseDateFromSpeech_empty_iff :
  forall p speech,
    parseDateFromSpeech p speech = "" <->
    includes (toLowerCase speech) "today" = false /\
    includes (toLowerCase speech) "tomorrow" = false /\
    includes (toLowerCase speech) "next week" = false /\
    includes (toLowerCase speech) "monday" = false.
Proof.
  intros p speech. unfold parseDateFromSpeech. cbv zeta.
  assert (Hd : forall t, isoDate t <> "").
  { intros t E. pose proof (truthy_isoDate t) as T. rewrite E in T. discriminate T. }
  destruct (includes (toLowerCase speech) "today");
    [split; [intro E; destruct (Hd _ E) | intros (E & _); discriminate E]|].
  destruct (includes (toLowerCase speech) "tomorrow");
    [split; [intro E; destruct (Hd _ E) | intros (_ & E & _); discriminate E]|].
  destruct (includes (toLowerCase speech) "next week");
    [split; [intro E; destruct (Hd _ E) | intros (_ & _ & E & _); discriminate E]|].
  destruct (includes (toLowerCase speech) "monday");
    [split; [intro E; destruct (Hd _ E) | intros (_ & _ & _ & E); discriminate E]|].
  split; auto.
Qed.

Lemma parseDateFromSpeech_empty_iff_witness :
  parseDateFromSpeech fridayMorning "Next Friday" = "".
Proof.
  apply (parseDateFromSpeech_empty_iff fridayMorning "Next Friday").
  repeat split.
Defined.

Lemma getDay_range p t : (0 <= getDay p t < 7)%Z.
Proof. unfold getDay. apply Z.mod_pos_bound. lia. Qed.

Lemma getDay_addDays p t k :
  getDay p (addDays t k) = ((getDay p t + k) mod 7)%Z.
Proof.
  unfold getDay, addDays, dayNumber.
  replace (t + k * msPerDay + tzOffset p)%Z with (t + tzOffset p + k * msPerDay)%Z by lia.
  rewrite Z.div_add by discriminate.
  rewrite Zplus_mod_idemp_l. f_equal. lia.
Qed.

(** X10.  A phrase that names "monday" (and none of the earlier keywords)
    resolves to the date one to seven days ahead on which the local day of
    the week is Monday; said on a Monday it means the Monday after. *)
Theorem parseDateFromSpeech_monday :
  forall p speech,
    includes (toLowerCase speech) "today" = false ->
    includes (toLowerCase speech) "tomorrow" = false ->
    includes (toLowerCase speech) "next week" = false ->
    includes (toLowerCase speech) "monday" = true ->
    exists ahead,
      (1 <= ahead <= 7)%Z /\
      parseDateFromSpeech p speech = isoDate (addDays (now p) ahead) /\
      getDay p (addDays (now p) ahead) = 1%Z /\
      (getDay p (now p) = 1%Z -> ahead = 7%Z).
Proof.
  intros p speech H1 H2 H3 H4. unfold parseDateFromSpeech. cbv zeta.
  rewrite H1, H2, H3, H4.
  pose proof (getDay_range p (now p)) as Hg.
  set (g := getDay p (now p)) in *.
  exists (if ((1 + 7 - g) mod 7 =? 0)%Z then 7%Z else ((1 + 7 - g) mod 7)%Z).
  rewrite getDay_addDays. fold g.
  assert (Hc : (g = 0 \/ g = 1 \/ g = 2 \/ g = 3 \/ g = 4 \/ g = 5 \/ g = 6)%Z) by lia.
  clearbody g.
  destruct Hc as [-> | [-> | [-> | [-> | [-> | [-> | ->]]]]]];
    cbn; repeat split; try lia; try reflexivity; intro; discriminate.
Qed.

Lemma parseDateFromSpeech_monday_witness :
  exists ahead,
    (1 <= ahead <= 7)%Z /\
    parseDateFromSpeech fridayMorning "Next Monday" = isoDate (addDays (now fridayMorning) ahead) /\
    getDay fridayMorning (addDays (now fridayMorning) ahead) = 1%Z /\
    (getDay fridayMorning (now fridayMorning) = 1%Z -> ahead = 7%Z).
Proof.
  apply (parseDateFromSpeech_monday fridayMorning "Next Monday"); reflexivity.
Defined.

(** ** The reminder-time grammar *)

Lemma parseDigits_ge acc s : (0 <= acc -> acc <= parseDigits acc s)%Z.
Proof.
  revert acc. induction s as [|c s IH]; intros acc H; cbn [parseDigits]; [lia|].
  specialize (IH (10 * acc + Z.of_nat (nat_of_ascii c - 48))%Z). lia.
Qed.

Lemma parseInt_nonneg s : (0 <= parseInt s)%Z.
Proof. unfold parseInt. apply parseDigits_ge. lia. Qed.

Lemma setHours_after p t h : (0 <= h -> t - msPerDay < setHours p t h)%Z.
Proof.
  intro H. unfold setHours, dayNumber, msPerHour.
  pose proof (Z.mul_succ_div_gt (t + tzOffset p) msPerDay) as G.
  unfold msPerDay in *. lia.
Qed.

Lemma timeClip_valid x t : timeClip x = ValidDate t -> t = x /\ (Z.abs x <= maxTime)%Z.
Proof.
  unfold timeClip. destruct (Z.leb_spec (Z.abs x) maxTime) as [H|H]; [|discriminate].
  intro E. injection E as <-. split; [reflexivity|exact H].
Qed.

Lemma updateDate_valid f d t :
  updateDate f d = ValidDate t ->
  exists t0, d = ValidDate t0 /\ t = f t0 /\ (Z.abs t <= maxTime)%Z.
Proof.
  destruct d as [t0|]; cbn [updateDate]; [|discriminate].
  intro E. apply timeClip_valid in E as [-> H]. exists t0. auto.
Qed.

(** X11.  On an ordinary platform a reminder time parsed from speech, when it
    is a valid date, is never in the past and lies within the range of
    [Date]: minutes and hours are added to the clock reading, "tomorrow" and
    "next week" land on a later local day. *)
Theorem parseReminderFromSpeech_not_in_the_past :
  forall p speech t,
    ordinary p ->
    parseReminderFromSpeech p speech = Some (ValidDate t) ->
    (now p <= t <= maxTime)%Z.
Proof.
  intros p speech t [Hnow Hzone]. unfold parseReminderFromSpeech. cbv zeta.
  assert (Hin : forall x, (Z.abs x <= maxTime -> x <= maxTime)%Z) by (intros x; lia).
  destruct (matchNumber "in " " minute" (toLowerCase speech)) as [ds|].
  { intro E. injection E as E. apply updateDate_valid in E as (t0 & E0 & -> & Hr).
    apply timeClip_valid in E0 as [-> _]. split; [|apply Hin, Hr].
    pose proof (parseInt_nonneg ds). unfold msPerMinute. lia. }
  destruct (matchNumber "in " " hour" (toLowerCase speech)) as [ds|].
  { intro E. injection E as E. apply updateDate_valid in E as (t0 & E0 & -> & Hr).
    apply timeClip_valid in E0 as [-> _]. split; [|apply Hin, Hr].
    pose proof (parseInt_nonneg ds). unfold msPerHour. lia. }
  destruct (includes (toLowerCase speech) "tomorrow").
  { destruct (matchNumber "at " "" (toLowerCase speech)) as [ds|]; intro E;
      injection E as E; apply updateDate_valid in E as (t1 & E1 & -> & Hr);
      apply updateDate_valid in E1 as (t0 & E0 & -> & _);
      apply timeClip_valid in E0 as [-> _]; (split; [|apply Hin, Hr]).
    - pose proof (setHours_after p (addDays (now p) 1) (parseInt ds) (parseInt_nonneg ds)).
      unfold addDays in *. lia.
    - pose proof (setHours_after p (addDays (now p) 1) 9).
      unfold addDays in *. lia. }
  destruct (includes (toLowerCase speech) "next week"); [|discriminate].
  intro E. injection E as E. apply updateDate_valid in E as (t1 & E1 & -> & Hr).
  apply updateDate_valid in E1 as (t0 & E0 & -> & _).
  apply timeClip_valid in E0 as [-> _]. split; [|apply Hin, Hr].
  pose proof (setHours_after p (addDays (now p) 7) 9).
  unfold addDays, msPerDay in *. lia.
Qed.

Lemma parseReminderFromSpeech_not_in_the_past_witness :
  (now fridayMorning <= 1710579600000 <= maxTime)%Z.
Proof.
  apply (parseReminderFromSpeech_not_in_the_past fridayMorning "tomorrow at 9").
  - unfold ordinary. cbn. unfold maxTime, msPerDay. lia.
  - reflexivity.
Defined.

(** ** What the registered handler does *)

Lemma title_render_not_awaiting r : onTitleQuestion r -> awaitingReminderAnswer r = false.
Proof. intros [_ H]. unfold awaitingReminderAnswer. now rewrite H. Qed.

(** One turn of the handler of a render on the title question, in full. *)
Lemma answerTurn_on_title r p a c :
  onTitleQuestion r ->
  answerTurn r p a c =
    if isSkip (trim (toLowerCase a)) then
      (set_isProcessing false (set_isProcessing true (set_currentTranscript a c)),
       [SetTimeout 1000 (ThenProcessAnswer a);
        Speak titleRequiredPrompt ThenStartActiveListening;
        StartActiveListening])
    else
      ({| currentQuestionIndex := S (currentQuestionIndex c);
          taskData := with_title (trim a) (taskData c);
          currentTranscript := "";
          isProcessing := false;
          needsReminder := needsReminder c;
          reminderTime := reminderTime c |},
       [SetTimeout 1000 (ThenProcessAnswer a);
        Speak ("Got it!" ++ trim (toLowerCase a) ++ ".")%string ThenNextQuestion;
        SetTimeout 500 ThenAskCurrentQuestion;
        Speak titleQuestion ThenStartActiveListening;
        StartActiveListening]).
Proof.
  intro Hr. pose proof (title_render_not_awaiting r Hr) as Ha. destruct Hr as [Hi Hn].
  unfold answerTurn, handleSpeechResult. cbn [settle resume app].
  unfold processAnswer. cbv zeta. rewrite Ha, Hi. cbn [nth_error taskQuestions].
  destruct (isSkip (trim (toLowerCase a))).
  - reflexivity.
  - cbn [field followUp settle resume app nextQuestion].
    unfold askCurrentQuestion. rewrite Hi. reflexivity.
Qed.

Lemma converse_cons r p a rest c :
  converse r ((p, a) :: rest) c =
    (fst (converse r rest (fst (answerTurn r p a c))),
     snd (answerTurn r p a c) ++ snd (converse r rest (fst (answerTurn r p a c)))).
Proof.
  cbn [converse]. destruct (answerTurn r p a c) as [c1 o1]. cbn [fst snd].
  destruct (converse r rest c1); reflexivity.
Qed.

Lemma last_after {A} (x d : A) (l : list A) : last (x :: l) d = last l x.
Proof.
  revert x d. induction l as [|y l IH]; intros x d; [reflexivity|].
  change (last (x :: y :: l) d) with (last (y :: l) d).
  now rewrite (IH y d), (IH y x).
Qed.

(** X12.  The handler registered by a render on the title question takes
    every transcript for an answer to the title question: whatever is said,
    the description, priority, category and due date of the draft, the
    reminder flag and the reminder time stay as they were; the title is the
    last transcript that was not a skip, trimmed, and the slot index has
    grown by the number of such transcripts. *)
Theorem registered_handler_only_fills_the_title :
  forall r turns c,
    onTitleQuestion r ->
    let c' := fst (converse r turns c) in
    sameButTitle (taskData c) (taskData c') /\
    needsReminder c' = needsReminder c /\
    reminderTime c' = reminderTime c /\
    title (taskData c') = last (map trim (storedAnswers turns)) (title (taskData c)) /\
    currentQuestionIndex c' = currentQuestionIndex c + List.length (storedAnswers turns).
Proof.
  intros r turns c Hr. cbv zeta. revert c.
  induction turns as [|[p a] rest IH]; intro c.
  - cbn. unfold sameButTitle. repeat split; auto.
  - rewrite converse_cons. cbn [fst].
    specialize (IH (fst (answerTurn r p a c))).
    rewrite (answerTurn_on_title r p a c Hr) in *.
    unfold storedAnswers, sameButTitle in *. cbn [map snd filter].
    destruct (isSkip (trim (toLowerCase a))); cbn [negb fst] in *;
      cbn [set_isProcessing set_currentTranscript taskData needsReminder reminderTime
           currentQuestionIndex with_title description priority category dueDate title]
        in IH.
    + exact IH.
    + destruct IH as (Hd & Hn & Ht & Hl & Hi).
      split; [exact Hd|]. split; [exact Hn|]. split; [exact Ht|].
      split.
      * rewrite Hl. cbn [map]. symmetry. apply last_after.
      * rewrite Hi. cbn [List.length]. lia.
Qed.

Lemma registered_handler_only_fills_the_title_witness :
  title (taskData (fst (converse initialCreator
                          [(fridayMorning, "buy milk"); (fridayMorning, "no sugar");
                           (fridayMorning, " high ")] initialCreator)))
    = "high".
Proof.
  destruct (registered_handler_only_fills_the_title initialCreator
              [(fridayMorning, "buy milk"); (fridayMorning, "no sugar");
               (fridayMorning, " high ")] initialCreator) as (_ & _ & _ & H & _).
  - split; reflexivity.
  - exact H.
Defined.

(** X13.  The handler registered by a render on the title question never
    finishes: whatever is said, no draft is handed to onTaskCreated and
    nothing is cancelled; every answer is followed by the title question or
    by the prompt that a title is required, never by another question. *)
Theorem registered_handler_never_finishes :
  forall r turns c,
    onTitleQuestion r ->
    draftsCreated (snd (converse r turns c)) = [] /\
    Forall keepsToTitle (snd (converse r turns c)).
Proof.
  intros r turns c Hr. revert c.
  induction turns as [|[p a] rest IH]; intro c.
  - split; [reflexivity|constructor].
  - rewrite converse_cons. cbn [snd].
    specialize (IH (fst (answerTurn r p a c))). destruct IH as [Hd Hk].
    rewrite (answerTurn_on_title r p a c Hr) in *.
    destruct (isSkip (trim (toLowerCase a))); cbn [fst snd] in *.
    + split; [exact Hd|].
      repeat (constructor; [cbn; eauto|]). exact Hk.
    + split; [exact Hd|].
      repeat (constructor; [cbn; eauto|]). exact Hk.
Qed.

Lemma registered_handler_never_finishes_witness :
  draftsCreated
    (snd (converse initialCreator
            (milkAnswers fridayMorning fridayMorning fridayMorning fridayMorning
               fridayMorning) initialCreator)) = [] /\
  Forall keepsToTitle
    (snd (converse initialCreator
            (milkAnswers fridayMorning fridayMorning fridayMorning fridayMorning
               fridayMorning) initialCreator)).
Proof.
  apply (registered_handler_never_finishes initialCreator
           (milkAnswers fridayMorning fridayMorning fridayMorning fridayMorning fridayMorning)
           initialCreator).
  split; reflexivity.
Defined.

(** ** From the recognizer to the draft *)

(** X14.  What is said reaches the draft lower-cased: the transcript the
    controller hands to the speech callback is already normalised, the
    dialogue normalises it once more without effect, and the title the
    handler of a render on the title question stores from it is the
    lower-cased, trimmed utterance. *)
Theorem spoken_title_is_stored_lower_cased :
  forall loc o raw s p r c,
    Voice.isWaitingForWakeWord s = false ->
    Voice.onSpeechResult s = true ->
    awaitingReminderAnswer r = false ->
    currentQuestionIndex r = 0 ->
    isSkip (trim (toLowerCase raw)) = false ->
    exists transcript,
      snd (Voice.step loc o (Voice.OnResult true raw) s) = [Voice.SpeechCallback transcript] /\
      trim (toLowerCase transcript) = transcript /\
      title (taskData (fst (processAnswer r p transcript c))) = trim (toLowerCase raw).
Proof.
  intros loc o raw s p r c Hw Hcb Hr Hi Hs.
  exists (trim (toLowerCase raw)). split; [|split].
  - destruct s. cbn [Voice.isWaitingForWakeWord Voice.onSpeechResult] in *. subst.
    reflexivity.
  - apply normalise_idempotent.
  - unfold processAnswer. cbv zeta. rewrite Hr, Hi. cbn [nth_error taskQuestions].
    rewrite normalise_idempotent, Hs.
    cbn [fst taskData set_taskData title with_title field].
    apply trim_idempotent.
Qed.

Lemma spoken_title_is_stored_lower_cased_witness :
  exists transcript,
    snd (Voice.step Voice.localhost Voice.healthy (Voice.OnResult true " Buy Milk ")
           (fst (Voice.step Voice.localhost Voice.healthy Voice.StartActiveListening
                   Voice.listening)))
      = [Voice.SpeechCallback transcript] /\
    trim (toLowerCase transcript) = transcript /\
    title (taskData (fst (processAnswer initialCreator fridayMorning transcript
                            initialCreator)))
      = "buy milk".
Proof.
  apply (spoken_title_is_stored_lower_cased Voice.localhost Voice.healthy " Buy Milk "
           (fst (Voice.step Voice.localhost Voice.healthy Voice.StartActiveListening
                   Voice.listening))
           fridayMorning initialCreator initialCreator); reflexivity.
Defined.

(** ** The reminder question *)

(** X15.  For the handler of a render [r] that has the reminder question
    open, "no" or "skip" anywhere in the answer hands the draft of [r] over
    at once; otherwise "yes" anywhere only asks for the time, even when the
    answer already names one; only an answer with none of the three words is
    parsed, its time is stored when it parses and the question is asked
    again when it does not.  The draft and the slot index are never
    touched. *)
Theorem reminder_question_outcomes :
  forall p answer r c,
    awaitingReminderAnswer r = true ->
    let lowerAnswer := trim (toLowerCase answer) in
    let res := processAnswer r p answer c in
    taskData (fst res) = taskData c /\
    currentQuestionIndex (fst res) = currentQuestionIndex c /\
    reminderTime (fst res) =
      (if namesATime lowerAnswer then
         match parseReminderFromSpeech p lowerAnswer with
         | Some parsedTime => Some parsedTime
         | None => reminderTime c
         end
       else reminderTime c) /\
    (In (TaskCreated (taskData r)) (snd res) <->
     includes lowerAnswer "no" || includes lowerAnswer "skip" = true) /\
    (reminderTime (fst res) = None ->
     includes lowerAnswer "no" || includes lowerAnswer "skip" = false ->
     exists prompt, snd res = [Speak prompt ThenStartActiveListening] /\ fst res = c).
Proof.
  intros p answer r c Ha.
  cbv zeta. unfold processAnswer, namesATime. cbv zeta. rewrite Ha.
  destruct (includes (trim (toLowerCase answer)) "no"
            || includes (trim (toLowerCase answer)) "skip").
  { unfold finishTaskCreation. cbn. repeat split; auto. discriminate. }
  destruct (includes (trim (toLowerCase answer)) "yes").
  { cbn. repeat split; auto.
    - intros [E|[]]; discriminate E.
    - discriminate.
    - eexists; split; reflexivity. }
  destruct (parseReminderFromSpeech p (trim (toLowerCase answer))) as [t|].
  - destruct c; cbn in *. repeat split; auto.
    + intros [E|[]]; discriminate E.
    + discriminate.
    + discriminate.
  - cbn. repeat split; auto.
    + intros [E|[]]; discriminate E.
    + discriminate.
    + eexists; split; reflexivity.
Qed.

Lemma reminder_question_outcomes_witness :
  reminderTime
    (fst (processAnswer atReminderQuestion fridayMorning "Yes, in 30 minutes"
            atReminderQuestion)) = None.
Proof.
  destruct (reminder_question_outcomes fridayMorning "Yes, in 30 minutes"
              atReminderQuestion atReminderQuestion) as (_ & _ & H & _).
  - reflexivity.
  - exact H.
Defined.

End DialogueMore.

(* ================================================================== *)
(** * Further properties of the Reminder Scheduler *)
(* ================================================================== *)

Module RemindersMore.

Import JsDate TaskTypes Reminders RemindersProps RemindersObservations.

(** ** Suggestions *)

(** X16.  suggestReminderTime always proposes one or two times, and every
    time it proposes lies strictly after the clock reading, whether or not
    the task has a due date and however long ago that date was. *)
Theorem suggestions_are_in_the_future :
  forall p task,
    1 <= List.length (suggestReminderTime p task) <= 2 /\
    Forall (fun t => (JsDate.now p < t)%Z) (suggestReminderTime p task).
Proof.
  intros p task. unfold suggestReminderTime. cbv zeta.
  assert (Hdefault :
    Forall (fun t => (JsDate.now p < t)%Z)
      [setHours p (addDays (JsDate.now p) 1) 9; addDays (JsDate.now p) 7]).
  { repeat constructor.
    - unfold setHours, addDays, dayNumber, msPerHour.
      pose proof (Z.mul_succ_div_gt (JsDate.now p + 1 * msPerDay + tzOffset p) msPerDay).
      unfold msPerDay in *. lia.
    - unfold addDays, msPerDay. lia. }
  destruct (dueDate task) as [due|]; [|split; [cbn; lia|exact Hdefault]].
  destruct (JsDate.now p <? setHours p (addDays due (-1)) 9)%Z eqn:E1;
    destruct (JsDate.now p <? due - msPerHour)%Z eqn:E2;
    cbn [app]; try apply Z.ltb_lt in E1; try apply Z.ltb_lt in E2;
    (split; [cbn; lia|]); try exact Hdefault; repeat constructor; assumption.
Qed.

(** ** Maps *)

Lemma mapSet_fresh {V} k (v : V) m :
  mapGet k m = None -> mapSet k v m = m ++ [(k, v)].
Proof.
  induction m as [|[k' v'] m IH]; cbn; [reflexivity|].
  destruct (String.eqb k' k); [discriminate|]. intro H. now rewrite IH.
Qed.

Lemma mapSet_mapSet {V} k (v1 v2 : V) m :
  mapSet k v2 (mapSet k v1 m) = mapSet k v2 m.
Proof.
  induction m as [|[k' v'] m IH]; cbn.
  - now rewrite String.eqb_refl.
  - destruct (String.eqb k' k) eqn:E; cbn; rewrite E; [reflexivity|]. now rewrite IH.
Qed.

Lemma mapGet_none_iff {V} k (m : list (string * V)) :
  mapGet k m = None <-> ~ In k (map fst m).
Proof.
  induction m as [|[k' v'] m IH]; cbn; [tauto|].
  destruct (String.eqb_spec k' k) as [->|Hne].
  - split; [discriminate|]. intro H. exfalso. apply H. left. reflexivity.
  - rewrite IH. split; [intros H [E|E]; [contradiction|auto] | tauto].
Qed.

(** ** Reloading what was stored *)

Lemma triggerReminder_storage r w :
  storage (fst (triggerReminder r w)) =
    {| tasksItem := tasksItem (storage w);
       remindersItem := Parsed (mapValues (mapSet (id r) (deactivate r) (reminders w))) |}.
Proof. destruct w. reflexivity. Qed.

(** One step of the load loop on a reminder that is not triggered. *)
Lemma loadOne_resting now r w :
  restsOnLoad now r ->
  let w' := fst (loadOne now r w) in
  reminders w' = mapSet (id r) r (reminders w) /\
  storage w' = storage w /\
  onReminderTriggered w' = onReminderTriggered w /\
  pendingTimers w' = pendingTimers w ++ timersFor now (nextHandle w) [r] /\
  nextHandle w' = (if isActive r then S (nextHandle w) else nextHandle w) /\
  snd (loadOne now r w) = [].
Proof.
  intros H. unfold loadOne, andThen, modify. cbn [fst snd timersFor].
  destruct (isActive r) eqn:A.
  - destruct H as [H|H]; [congruence|].
    unfold scheduleReminder. cbv zeta.
    replace (reminderTime r - now <=? 0)%Z with false
      by (symmetry; apply Z.leb_gt; lia).
    destruct w. cbn. repeat split.
  - destruct w. cbn. rewrite app_nil_r. repeat split.
Qed.

Lemma timersFor_app now h rs1 rs2 :
  timersFor now h (rs1 ++ rs2) =
  timersFor now h rs1 ++ timersFor now (h + List.length (filter isActive rs1)) rs2.
Proof.
  revert h. induction rs1 as [|r rs1 IH]; intro h; cbn.
  - now rewrite Nat.add_0_r.
  - destruct (isActive r); cbn; rewrite IH; [f_equal|]; f_equal; f_equal; lia.
Qed.

Lemma loadAll_resting now rs :
  forall w,
    Forall (restsOnLoad now) rs ->
    NoDup (map id rs) ->
    (forall r, In r rs -> mapGet (id r) (reminders w) = None) ->
    reminders (fst (loadAll now rs w)) = reminders w ++ map (fun r => (id r, r)) rs /\
    storage (fst (loadAll now rs w)) = storage w /\
    pendingTimers (fst (loadAll now rs w))
      = pendingTimers w ++ timersFor now (nextHandle w) rs /\
    snd (loadAll now rs w) = [].
Proof.
  induction rs as [|r rs IH]; intros w Hrest Hnd Hnew.
  - cbn. rewrite !app_nil_r. auto.
  - inversion Hrest as [|? ? Hr Hrs]; subst.
    inversion Hnd as [|? ? Hnotin Hnd']; subst.
    destruct (loadOne_resting now r w Hr) as (Hm & Hs & _ & Hp & Hh & Ho).
    cbn [loadAll]. unfold andThen.
    destruct (loadOne now r w) as [w1 o1]. cbn [fst snd] in *.
    assert (Hm1 : reminders w1 = reminders w ++ [(id r, r)]).
    { rewrite Hm. apply mapSet_fresh. apply Hnew. left. reflexivity. }
    destruct (IH w1 Hrs Hnd') as (IHm & IHs & IHp & IHo).
    { intros x Hx. rewrite Hm1. apply mapGet_none_iff.
      rewrite map_app, in_app_iff. cbn. intros [Hin|[E|[]]].
      - apply mapGet_none_iff in Hin; [exact Hin|]. apply Hnew. right. exact Hx.
      - apply Hnotin. rewrite E. apply in_map. exact Hx. }
    destruct (loadAll now rs w1) as [w2 o2]. cbn [fst snd] in *.
    rewrite IHm, IHs, IHp, IHo, Hm1, Hs, Hp, Ho, Hh.
    repeat split.
    + now rewrite <- app_assoc.
    + rewrite <- app_assoc. f_equal. cbn [timersFor].
      destruct (isActive r); reflexivity.
Qed.

(** X17.  Reloading a stored set in which nothing is due gives back exactly
    the stored reminders, in their order, schedules one timer per active
    reminder with the remaining time as delay, calls nobody and writes
    nothing. *)
Theorem reload_restores_the_stored_set :
  forall now st stored,
    remindersItem st = Parsed stored ->
    NoDup (map id stored) ->
    Forall (restsOnLoad now) stored ->
    mapValues (reminders (fst (construct now st))) = stored /\
    map fst (reminders (fst (construct now st))) = map id stored /\
    pendingTimers (fst (construct now st)) = timersFor now 1 stored /\
    storage (fst (construct now st)) = st /\
    snd (construct now st) = [].
Proof.
  intros now st stored Hst Hnd Hrest.
  unfold construct, loadReminders. cbn [storage]. rewrite Hst.
  destruct (loadAll_resting now stored
              {| reminders := []; timeouts := []; onReminderTriggered := false;
                 storage := st; pendingTimers := []; nextHandle := 1 |}
              Hrest Hnd) as (Hm & Hs & Hp & Ho).
  { reflexivity. }
  cbn [reminders storage pendingTimers nextHandle app] in *.
  rewrite Hm, Hs, Hp, Ho. unfold mapValues. rewrite !map_map. cbn [fst snd].
  rewrite map_id. repeat split.
Qed.

Lemma reload_restores_the_stored_set_witness :
  mapValues (reminders (fst (construct 0 persisted))) = [milkReminder; laterReminder].
Proof.
  apply (reload_restores_the_stored_set 0 persisted [milkReminder; laterReminder]).
  - reflexivity.
  - repeat constructor; cbn; intuition discriminate.
  - constructor; [right; reflexivity | constructor; [right; reflexivity | constructor]].
Defined.

(** ** What loading writes *)

Lemma nodup_app_apart {A} (l1 l2 : list A) a :
  NoDup (l1 ++ l2) -> In a l1 -> In a l2 -> False.
Proof.
  induction l1 as [|x l1 IH]; cbn; intros Hnd H1 H2; [exact H1|].
  inversion Hnd as [|? ? Hx Hnd']; subst. destruct H1 as [->|H1].
  - apply Hx, in_or_app. right. exact H2.
  - exact (IH Hnd' H1 H2).
Qed.

Lemma loadOne_reminders now r w :
  exists r', id r' = id r /\
             reminders (fst (loadOne now r w)) = mapSet (id r) r' (reminders w).
Proof.
  unfold loadOne, andThen, modify. cbn [fst snd].
  set (w0 := set_reminders _ w).
  assert (H0 : reminders w0 = mapSet (id r) r (reminders w)) by (destruct w; reflexivity).
  destruct (isActive r).
  - destruct (reminderTime r - now <=? 0)%Z eqn:Hdue.
    + apply Z.leb_le in Hdue. rewrite scheduleReminder_due by lia.
      destruct (triggerReminder_spec r w0) as (Hr & _).
      destruct (triggerReminder r w0) as [w1 o1]. cbn [fst] in *.
      exists (deactivate r). split; [reflexivity|].
      rewrite Hr, H0. apply mapSet_mapSet.
    + destruct (scheduleReminder_later now r w0 Hdue) as (Hr & _).
      destruct (scheduleReminder now r w0) as [w1 o1]. cbn [fst] in *.
      exists r. split; [reflexivity|]. now rewrite Hr.
  - exists r. split; [reflexivity|exact H0].
Qed.

Lemma loadAll_ids now rs :
  forall w,
    NoDup (map id rs) ->
    (forall r, In r rs -> mapGet (id r) (reminders w) = None) ->
    map fst (reminders (fst (loadAll now rs w))) = map fst (reminders w) ++ map id rs /\
    map id (mapValues (reminders (fst (loadAll now rs w))))
      = map id (mapValues (reminders w)) ++ map id rs.
Proof.
  induction rs as [|r rs IH]; intros w Hnd Hnew.
  - cbn. now rewrite !app_nil_r.
  - inversion Hnd as [|? ? Hnotin Hnd']; subst.
    rewrite loadAll_cons.
    destruct (loadOne_reminders now r w) as (r' & Hid & Hm).
    rewrite (mapSet_fresh (id r) r') in Hm by (apply Hnew; left; reflexivity).
    destruct (IH (fst (loadOne now r w)) Hnd') as (IH1 & IH2).
    { intros x Hx. rewrite Hm. apply mapGet_none_iff.
      rewrite map_app, in_app_iff. cbn. intros [Hin|[E|[]]].
      - apply mapGet_none_iff in Hin; [exact Hin|]. apply Hnew. right. exact Hx.
      - apply Hnotin. rewrite E. apply in_map. exact Hx. }
    rewrite IH1, IH2, Hm. unfold mapValues. rewrite !map_app. cbn [map fst snd].
    rewrite Hid, <- !app_assoc. split; reflexivity.
Qed.

(** X18.  Loading writes the store from inside the loop: when a stored
    reminder is already due, the set saved at that moment holds only the
    reminders loaded so far.  If no later reminder is due, the store ends up
    without the reminders that followed it, although the manager holds them
    all. *)
Theorem loading_saves_only_what_was_loaded :
  forall now st before due after,
    remindersItem st = Parsed (before ++ due :: after) ->
    NoDup (map id (before ++ due :: after)) ->
    isActive due = true ->
    (reminderTime due <= now)%Z ->
    Forall (restsOnLoad now) after ->
    exists saved,
      remindersItem (storage (fst (construct now st))) = Parsed saved /\
      mapValues (reminders (fst (construct now st))) = saved ++ after /\
      map id saved = map id before ++ [id due].
Proof.
  intros now st before due after Hst Hnd Ha Hdue Hrest.
  unfold construct, loadReminders. cbn [storage]. rewrite Hst.
  set (w0 := {| reminders := []; timeouts := []; onReminderTriggered := false;
                storage := st; pendingTimers := []; nextHandle := 1 |}).
  replace (before ++ due :: after) with ((before ++ [due]) ++ after) in *
    by (rewrite <- app_assoc; reflexivity).
  rewrite loadAll_app.
  set (w2 := fst (loadAll now (before ++ [due]) w0)).
  rewrite map_app in Hnd.
  assert (Hnd12 : NoDup (map id (before ++ [due]))) by (eapply NoDup_app_remove_r; exact Hnd).
  assert (Hnd3 : NoDup (map id after)) by (eapply NoDup_app_remove_l; exact Hnd).
  destruct (loadAll_ids now (before ++ [due]) w0 Hnd12) as (Hk & Hv); [reflexivity|].
  fold w2 in Hk, Hv. cbn [reminders w0 map app mapValues] in Hk, Hv.
  (* the store as the trigger of [due] left it *)
  assert (Hs2 : remindersItem (storage w2) = Parsed (mapValues (reminders w2))).
  { subst w2. rewrite loadAll_app.
    rewrite loadAll_cons. cbn [loadAll fst].
    set (w1 := fst (loadAll now before w0)).
    unfold loadOne, andThen, modify. cbn [fst snd].
    rewrite Ha, scheduleReminder_due by assumption.
    set (w1' := set_reminders _ w1).
    destruct (triggerReminder_spec due w1') as (_ & _ & Hs & _).
    destruct (triggerReminder due w1') as [w3 o3]. cbn [fst] in *.
    rewrite Hs. reflexivity. }
  destruct (loadAll_resting now after w2 Hrest Hnd3) as (Hm & Hs & _ & _).
  { intros x Hx. apply mapGet_none_iff. rewrite Hk.
    intro Hin. eapply (nodup_app_apart _ _ (id x) Hnd).
    - exact Hin.
    - apply in_map; exact Hx. }
  exists (mapValues (reminders w2)). split; [|split].
  - rewrite Hs. exact Hs2.
  - rewrite Hm. unfold mapValues. rewrite map_app, map_map. cbn [snd].
    now rewrite map_id.
  - rewrite Hv, map_app. reflexivity.
Qed.

Lemma loading_saves_only_what_was_loaded_witness :
  exists saved,
    remindersItem (storage (fst (construct fiveMinutesLate persisted))) = Parsed saved /\
    mapValues (reminders (fst (construct fiveMinutesLate persisted)))
      = saved ++ [laterReminder] /\
    map id saved = ["r1"].
Proof.
  apply (loading_saves_only_what_was_loaded fiveMinutesLate persisted []
           milkReminder [laterReminder]).
  - reflexivity.
  - repeat constructor; cbn; intuition discriminate.
  - reflexivity.
  - vm_compute. discriminate.
  - constructor; [right; reflexivity | constructor].
Defined.

(** ** Timers of added reminders *)

Lemma find_fresh_timer h (ts : list (nat * (Z * Reminder))) :
  Forall (fun t => fst t < h) ts -> find (fun t => fst t =? h) ts = None.
Proof.
  induction 1 as [|[h' x] ts Hh _ IH]; [reflexivity|].
  cbn in *. destruct (Nat.eqb_spec h' h); [lia|exact IH].
Qed.

Lemma find_pushed_timer h x (ts : list (nat * (Z * Reminder))) :
  Forall (fun t => fst t < h) ts ->
  find (fun t => fst t =? h) (ts ++ [(h, x)]) = Some (h, x).
Proof.
  induction 1 as [|[h' y] ts Hh _ IH]; cbn.
  - now rewrite Nat.eqb_refl.
  - cbn in Hh. destruct (Nat.eqb_spec h' h); [lia|exact IH].
Qed.

Lemma clearTimer_pushed h x (ts : list (nat * (Z * Reminder))) :
  Forall (fun t => fst t < h) ts -> clearTimer h (ts ++ [(h, x)]) = ts.
Proof.
  intro H. unfold clearTimer. rewrite filter_app. cbn. rewrite Nat.eqb_refl. cbn.
  rewrite app_nil_r. induction H as [|[h' y] ts Hh _ IH]; [reflexivity|].
  cbn in *. destruct (Nat.eqb_spec h' h); [lia|]. cbn. now rewrite IH.
Qed.

(** What [addReminder] does with a reminder that is due later. *)
Lemma addReminder_later now rid tid time ty w :
  (now < time)%Z ->
  let r := {| id := rid; taskId := tid; reminderTime := time;
              message := "Reminder for your task"; isActive := true; type := ty |} in
  let w' := fst (addReminder now rid tid time ty w) in
  reminders w' = mapSet rid r (reminders w) /\
  timeouts w' = mapSet rid (nextHandle w) (timeouts w) /\
  pendingTimers w' = pendingTimers w ++ [(nextHandle w, ((time - now)%Z, r))] /\
  nextHandle w' = S (nextHandle w) /\
  onReminderTriggered w' = onReminderTriggered w /\
  storage w' = {| tasksItem := tasksItem (storage w);
                  remindersItem := Parsed (mapValues (mapSet rid r (reminders w))) |} /\
  snd (addReminder now rid tid time ty w) = [].
Proof.
  intro H. cbv zeta. unfold addReminder, andThen, modify, scheduleReminder, saveReminders.
  cbn [fst snd reminderTime id].
  replace (time - now <=? 0)%Z with false by (symmetry; apply Z.leb_gt; lia).
  destruct w. cbn. repeat split.
Qed.

Lemma removeReminder_scheduled rid h w :
  mapGet rid (timeouts w) = Some h ->
  let w' := fst (removeReminder rid w) in
  reminders w' = mapDelete rid (reminders w) /\
  timeouts w' = mapDelete rid (timeouts w) /\
  pendingTimers w' = clearTimer h (pendingTimers w) /\
  storage w' = {| tasksItem := tasksItem (storage w);
                  remindersItem := Parsed (mapValues (mapDelete rid (reminders w))) |} /\
  onReminderTriggered w' = onReminderTriggered w /\
  snd (removeReminder rid w) = [].
Proof.
  intro H. cbv zeta. unfold removeReminder, andThen, modify, saveReminders.
  cbn [fst snd]. rewrite H. destruct w. cbn. repeat split.
Qed.

Lemma trigger_of_another rid x w :
  id x <> rid -> timesTriggered rid (snd (triggerReminder x w)) = 0.
Proof.
  intro H. destruct (triggerReminder_spec x w) as (_ & _ & _ & _ & _ & _ & Ho).
  rewrite Ho. destruct (onReminderTriggered w); [|reflexivity].
  destruct (getTaskById (taskId x) (storage w)); [|reflexivity].
  unfold timesTriggered. cbn.
  destruct (String.eqb_spec (id x) rid); [contradiction|reflexivity].
Qed.

Lemma entry_of_mapSet rid (r : Reminder) m k v :
  Forall (fun e => fst e = id (snd e)) m -> rid = id r ->
  In (k, v) (mapSet rid r m) -> k = id v.
Proof.
  intros Hkeys Hr. induction m as [|[k' v'] m IH]; cbn.
  - intros [E|[]]. injection E as <- <-. exact Hr.
  - inversion Hkeys as [|? ? Hk' Hrest]; subst. cbn in Hk'.
    destruct (String.eqb_spec k' (id r)) as [E|E]; intros [Ein|Hin].
    + injection Ein as <- <-. exact E.
    + rewrite Forall_forall in Hrest. exact (Hrest _ Hin).
    + injection Ein as <- <-. exact Hk'.
    + exact (IH Hrest Hin).
Qed.

(** X19.  A reminder added for a later time and removed before it fires is
    gone for good: the manager and the store no longer hold it, its timer
    is cancelled so that the pending timers are those from before, and
    whichever timer fires afterwards, the callback is never called for it. *)
Theorem removed_reminder_never_fires :
  forall now rid tid time ty w,
    (now < time)%Z ->
    handlesFresh w ->
    noTimerFor rid w ->
    keysAreIds w ->
    let w' := fst (removeReminder rid (fst (addReminder now rid tid time ty w))) in
    mapGet rid (reminders w') = None /\
    (exists saved, remindersItem (storage w') = Parsed saved /\
                   Forall (fun r => id r <> rid) saved) /\
    pendingTimers w' = pendingTimers w /\
    snd (removeReminder rid (fst (addReminder now rid tid time ty w))) = [] /\
    (forall h, timesTriggered rid (snd (fireTimer h w')) = 0).
Proof.
  intros now rid tid time ty w Hlt Hfresh Hno Hkeys. cbv zeta.
  destruct (addReminder_later now rid tid time ty w Hlt) as (Hm & Ht & Hp & _).
  set (r := {| id := rid; taskId := tid; reminderTime := time;
               message := "Reminder for your task"; isActive := true; type := ty |}) in *.
  set (w1 := fst (addReminder now rid tid time ty w)) in *.
  assert (Hget : mapGet rid (timeouts w1) = Some (nextHandle w))
    by (rewrite Ht; apply mapGet_mapSet_same).
  destruct (removeReminder_scheduled rid (nextHandle w) w1 Hget)
    as (Hm2 & _ & Hp2 & Hs2 & _ & Ho2).
  set (w2 := fst (removeReminder rid w1)) in *.
  assert (Hclear : pendingTimers w2 = pendingTimers w).
  { rewrite Hp2, Hp. apply clearTimer_pushed. exact Hfresh. }
  split; [rewrite Hm2; apply mapGet_mapDelete_same|].
  split.
  { exists (mapValues (mapDelete rid (reminders w1))). split; [rewrite Hs2; reflexivity|].
    unfold mapValues, mapDelete. apply Forall_forall. intros x Hx.
    apply in_map_iff in Hx. destruct Hx as ([k v] & <- & Hin).
    apply filter_In in Hin. destruct Hin as [Hin Hk]. cbn [fst snd] in *.
    rewrite Hm in Hin.
    assert (Hkv : k = id v)
      by exact (entry_of_mapSet rid r (reminders w) k v Hkeys eq_refl Hin).
    subst k. intro E. rewrite E, String.eqb_refl in Hk. discriminate Hk. }
  split; [exact Hclear|]. split; [exact Ho2|].
  intro h. unfold fireTimer. rewrite Hclear.
  destruct (find (fun t => fst t =? h) (pendingTimers w)) as [[h' [d x]]|] eqn:Hf;
    [|reflexivity].
  apply find_some in Hf. destruct Hf as [Hin _].
  apply trigger_of_another. exact (Hno _ _ _ Hin).
Qed.

Lemma removed_reminder_never_fires_witness :
  mapGet "r7"
    (reminders (fst (removeReminder "r7"
                       (fst (addReminder 0 "r7" "t1" 600000 both listeningWithoutTasks)))))
    = None.
Proof.
  destruct (removed_reminder_never_fires 0 "r7" "t1" 600000 both listeningWithoutTasks)
    as (H & _).
  - reflexivity.
  - constructor.
  - intros h d x [].
  - constructor.
  - exact H.
Defined.

(** X20.  A reminder added for a later time fires exactly once: the timer
    created for it, when it fires, calls the callback once with the
    deactivated reminder and its task, leaves the reminder stored inactive,
    and a second firing of the same handle does nothing. *)
Theorem added_reminder_fires_exactly_once :
  forall now rid tid time ty task w,
    (now < time)%Z ->
    handlesFresh w ->
    onReminderTriggered w = true ->
    getTaskById tid (storage w) = Some task ->
    let r := {| id := rid; taskId := tid; reminderTime := time;
                message := "Reminder for your task"; isActive := true; type := ty |} in
    let added := fst (addReminder now rid tid time ty w) in
    let fired := fst (fireTimer (nextHandle w) added) in
    snd (addReminder now rid tid time ty w) = [] /\
    snd (fireTimer (nextHandle w) added) = [ReminderTriggered (deactivate r) task] /\
    mapGet rid (reminders fired) = Some (deactivate r) /\
    mapGet rid (timeouts fired) = None /\
    pendingTimers fired = pendingTimers w /\
    fireTimer (nextHandle w) fired = (fired, []).
Proof.
  intros now rid tid time ty task w Hlt Hfresh Hcb Htask. cbv zeta.
  destruct (addReminder_later now rid tid time ty w Hlt) as (Hm & Ht & Hp & Hh & Hcb1 & Hs & Ho).
  set (r := {| id := rid; taskId := tid; reminderTime := time;
               message := "Reminder for your task"; isActive := true; type := ty |}) in *.
  set (w1 := fst (addReminder now rid tid time ty w)) in *.
  split; [exact Ho|].
  set (w2 := set_pendingTimers (pendingTimers w) (nextHandle w1) w1).
  assert (Hfire : fireTimer (nextHandle w) w1 = triggerReminder r w2).
  { unfold fireTimer.
    rewrite Hp, (find_pushed_timer _ _ _ Hfresh), (clearTimer_pushed _ _ _ Hfresh).
    reflexivity. }
  rewrite !Hfire.
  destruct (triggerReminder_spec r w2) as (Hr3 & Ht3 & Hs3 & Hp3 & Hh3 & Hcb3 & Ho3).
  assert (Hcb2 : onReminderTriggered w2 = true)
    by (subst w2; destruct w1; cbn in *; congruence).
  assert (Hst2 : getTaskById tid (storage w2) = Some task).
  { subst w2. destruct w1; cbn in *. rewrite Hs. exact Htask. }
  assert (Hp2 : pendingTimers w2 = pendingTimers w) by (subst w2; destruct w1; reflexivity).
  rewrite Hcb2 in Ho3. cbn [taskId r] in Ho3. rewrite Hst2 in Ho3.
  split; [exact Ho3|].
  split; [rewrite Hr3; apply mapGet_mapSet_same|].
  split; [rewrite Ht3; apply mapGet_mapDelete_same|].
  split; [rewrite Hp3; exact Hp2|].
  unfold fireTimer. rewrite Hp3, Hp2, (find_fresh_timer _ _ Hfresh). reflexivity.
Qed.

Lemma added_reminder_fires_exactly_once_witness :
  snd (fireTimer 1
         (fst (addReminder 0 "r7" "t1" 600000 both
                 (fst (onReminder (fst (construct 0 {| tasksItem := Parsed [milkTask];
                                                       remindersItem := Missing |})))))))
    = [ReminderTriggered
         (deactivate {| id := "r7"; taskId := "t1"; reminderTime := 600000;
                        message := "Reminder for your task"; isActive := true;
                        type := both |})
         milkTask].
Proof.
  destruct (added_reminder_fires_exactly_once 0 "r7" "t1" 600000 both milkTask
              (fst (onReminder (fst (construct 0 {| tasksItem := Parsed [milkTask];
                                                    remindersItem := Missing |})))))
    as (_ & H & _).
  - reflexivity.
  - constructor.
  - reflexivity.
  - reflexivity.
  - exact H.
Defined.

(** ** The store follows the manager *)

Lemma saved_after (f : Op) w :
  storage (fst (andThen f saveReminders w)) =
    {| tasksItem := tasksItem (storage (fst (f w)));
       remindersItem := Parsed (mapValues (reminders (fst (f w)))) |} /\
  reminders (fst (andThen f saveReminders w)) = reminders (fst (f w)).
Proof.
  unfold andThen, saveReminders, modify. destruct (f w) as [w1 o1]. cbn.
  destruct w1; split; reflexivity.
Qed.

Lemma scheduleReminder_tasksItem now r w :
  tasksItem (storage (fst (scheduleReminder now r w))) = tasksItem (storage w).
Proof.
  destruct (reminderTime r - now <=? 0)%Z eqn:Hdue.
  - apply Z.leb_le in Hdue. rewrite scheduleReminder_due by lia.
    destruct (triggerReminder_spec r w) as (_ & _ & Hs & _). rewrite Hs. reflexivity.
  - destruct (scheduleReminder_later now r w Hdue) as (_ & _ & Hs & _). now rewrite Hs.
Qed.

(** X21.  Every mutation writes the whole reminder set back: after
    addReminder, removeReminder, an updateReminder that finds its reminder
    and a timer that fires, the store holds exactly the reminders of the
    manager, in their order, and the stored task list is never written;
    updateReminder of an unknown id does nothing at all. *)
Theorem store_follows_every_mutation :
  forall now w,
    let inSync w' :=
      remindersItem (storage w') = Parsed (mapValues (reminders w')) /\
      tasksItem (storage w') = tasksItem (storage w) in
    (forall rid tid time ty, inSync (fst (addReminder now rid tid time ty w))) /\
    (forall rid, inSync (fst (removeReminder rid w))) /\
    (forall rid updates,
        mapGet rid (reminders w) <> None ->
        inSync (fst (updateReminder now rid updates w))) /\
    (forall rid updates,
        mapGet rid (reminders w) = None ->
        updateReminder now rid updates w = (w, [])) /\
    (forall h,
        find (fun t => fst t =? h) (pendingTimers w) <> None ->
        inSync (fst (fireTimer h w))).
Proof.
  intros now w. cbv zeta. split; [|split; [|split; [|split]]].
  - intros rid tid time ty. unfold addReminder.
    set (r := {| id := rid; taskId := tid; reminderTime := time;
                 message := "Reminder for your task"; isActive := true; type := ty |}).
    set (f := andThen (modify (fun w0 => set_reminders (mapSet rid r (reminders w0)) w0))
                (andThen (scheduleReminder now r) saveReminders)).
    assert (E : f w = andThen (scheduleReminder now r) saveReminders
                        (set_reminders (mapSet rid r (reminders w)) w)).
    { subst f. unfold andThen at 1. unfold modify.
      destruct (andThen (scheduleReminder now r) saveReminders _). reflexivity. }
    rewrite E. destruct (saved_after (scheduleReminder now r)
                           (set_reminders (mapSet rid r (reminders w)) w)) as [Hs Hm].
    rewrite Hs, Hm. cbn [remindersItem tasksItem]. split; [reflexivity|].
    rewrite scheduleReminder_tasksItem. destruct w; reflexivity.
  - intro rid. unfold removeReminder.
    match goal with |- context [andThen ?f saveReminders w] =>
      destruct (saved_after f w) as [Hs Hm] end.
    rewrite Hs, Hm. cbn [remindersItem tasksItem]. split; [reflexivity|].
    unfold modify. cbn [fst]. destruct (mapGet rid (timeouts w)); destruct w; reflexivity.
  - intros rid updates Hsome. unfold updateReminder.
    destruct (mapGet rid (reminders w)) as [r|]; [|contradiction].
    match goal with |- context [andThen ?f saveReminders ?w0] =>
      destruct (saved_after f w0) as [Hs Hm]; set (w2 := w0) in * end.
    rewrite Hs, Hm. cbn [remindersItem tasksItem]. split; [reflexivity|].
    assert (Ht2 : tasksItem (storage w2) = tasksItem (storage w)).
    { subst w2. destruct (mapGet rid (timeouts w)); destruct w; reflexivity. }
    destruct (isActive (applyUpdates r updates)).
    + rewrite scheduleReminder_tasksItem. exact Ht2.
    + exact Ht2.
  - intros rid updates Hnone. unfold updateReminder. now rewrite Hnone.
  - intros h Hsome. unfold fireTimer.
    destruct (find (fun t => fst t =? h) (pendingTimers w)) as [[h' [d r]]|];
      [|contradiction].
    match goal with |- context [triggerReminder r ?w0] =>
      destruct (triggerReminder_spec r w0) as (_ & _ & Hs & _); set (w2 := w0) in * end.
    rewrite Hs. cbn [remindersItem tasksItem]. split; [reflexivity|].
    subst w2. destruct w; reflexivity.
Qed.

Lemma store_follows_every_mutation_witness :
  remindersItem
    (storage (fst (updateReminder 0 "r1"
                     {| new_id := None; new_taskId := None; new_reminderTime := Some 5000%Z;
                        new_message := None; new_isActive := None; new_type := None |}
                     (fst (construct 0 persisted)))))
    = Parsed (mapValues
                (reminders (fst (updateReminder 0 "r1"
                     {| new_id := None; new_taskId := None; new_reminderTime := Some 5000%Z;
                        new_message := None; new_isActive := None; new_type := None |}
                     (fst (construct 0 persisted)))))).
Proof.
  destruct (store_follows_every_mutation 0 (fst (construct 0 persisted)))
    as (_ & _ & H & _).
  apply H. vm_compute. discriminate.
Defined.

(** ** Deleting a task *)

Lemma removeReminder_reminders rid w :
  reminders (fst (removeReminder rid w)) = mapDelete rid (reminders w) /\
  snd (removeReminder rid w) = [].
Proof.
  unfold removeReminder, andThen, modify, saveReminders. cbn [fst snd].
  destruct (mapGet rid (timeouts w)); destruct w; split; reflexivity.
Qed.

Lemma removeEach_reminders rs :
  forall w,
    reminders (fst (removeEach rs w))
      = fold_left (fun m r => mapDelete (id r) m) rs (reminders w) /\
    snd (removeEach rs w) = [].
Proof.
  induction rs as [|r rs IH]; intro w; [split; reflexivity|].
  cbn [removeEach fold_left]. unfold andThen.
  destruct (removeReminder_reminders (id r) w) as [Hm Ho].
  destruct (removeReminder (id r) w) as [w1 o1]. cbn [fst snd] in *.
  destruct (IH w1) as [IHm IHo].
  destruct (removeEach rs w1) as [w2 o2]. cbn [fst snd] in *.
  rewrite IHm, IHo, Hm, Ho. split; reflexivity.
Qed.

Lemma In_after_deletes (rs : list Reminder) :
  forall (m : list (string * Reminder)) e,
    In e (fold_left (fun m r => mapDelete (id r) m) rs m) <->
    In e m /\ ~ In (fst e) (map id rs).
Proof.
  induction rs as [|r rs IH]; intros m e; cbn [fold_left map].
  - cbn. tauto.
  - rewrite IH. unfold mapDelete. rewrite filter_In. cbn [In].
    destruct (String.eqb_spec (fst e) (id r)) as [E|E]; cbn.
    + split; [intros [[_ H] _]; discriminate H | intros [_ H]; exfalso; apply H; auto].
    + split; [intros [[H _] H']; split; [exact H|]; intros [E'|H'']; [congruence|auto]
             | intros [H H']; split; [split; [exact H|reflexivity]|]; intro; apply H'; auto].
Qed.

Lemma same_key_same_entry (m : list (string * Reminder)) e1 e2 :
  NoDup (map fst m) -> In e1 m -> In e2 m -> fst e1 = fst e2 -> e1 = e2.
Proof.
  induction m as [|e m IH]; cbn; [tauto|]. intros Hnd H1 H2 Hk.
  inversion Hnd as [|? ? Hnot Hnd']; subst.
  destruct H1 as [->|H1], H2 as [->|H2]; auto.
  - exfalso. apply Hnot. rewrite Hk. apply in_map. exact H2.
  - exfalso. apply Hnot. rewrite <- Hk. apply in_map. exact H1.
Qed.

Lemma deletes_keep_others (base : list (string * Reminder)) other :
  NoDup (map fst base) ->
  (forall e, In e base -> fst e = id (snd e)) ->
  forall gone,
    (forall g, In g gone -> In g (map snd base) /\ taskId g <> other) ->
    forall m,
      (forall e, In e m -> In e base) ->
      filter (fun r => String.eqb (taskId r) other)
        (map snd (fold_left (fun m r => mapDelete (id r) m) gone m))
      = filter (fun r => String.eqb (taskId r) other) (map snd m).
Proof.
  intros Hnd Hkey. induction gone as [|g gs IH]; intros Hgone m Hsub; [reflexivity|].
  cbn [fold_left]. rewrite IH.
  2:{ intros x Hx. apply Hgone. right. exact Hx. }
  2:{ intros e He. unfold mapDelete in He. apply filter_In in He. apply Hsub, He. }
  destruct (Hgone g (or_introl eq_refl)) as [Hgin Hgt].
  apply in_map_iff in Hgin. destruct Hgin as (eg & <- & Heg).
  clear IH Hgone. induction m as [|e m IHm]; [reflexivity|].
  unfold mapDelete in *. cbn [filter map].
  destruct (String.eqb_spec (fst e) (id (snd eg))) as [Ek|Ek]; cbn [negb].
  - assert (e = eg).
    { apply (same_key_same_entry base); auto.
      - apply Hsub. left. reflexivity.
      - rewrite Ek. symmetry. apply Hkey. exact Heg. }
    subst e.
    destruct (String.eqb_spec (taskId (snd eg)) other) as [Et|Et]; [contradiction|].
    apply IHm. intros x Hx. apply Hsub. right. exact Hx.
  - cbn [map filter]. destruct (String.eqb (taskId (snd e)) other);
      [f_equal|]; apply IHm; intros x Hx; apply Hsub; right; exact Hx.
Qed.

(** X22.  Deleting a task the way the page does -- removing each of the
    reminders getRemindersForTask returns for it -- leaves no reminder for
    that task, leaves the reminders of every other task as they were, and
    calls nobody. *)
Theorem deleting_a_task_removes_its_reminders :
  forall tid w,
    keysAreIds w ->
    NoDup (map fst (reminders w)) ->
    getRemindersForTask tid (fst (removeRemindersOfTask tid w)) = [] /\
    (forall other, other <> tid ->
       getRemindersForTask other (fst (removeRemindersOfTask tid w))
         = getRemindersForTask other w) /\
    snd (removeRemindersOfTask tid w) = [].
Proof.
  intros tid w Hkeys Hnd. unfold removeRemindersOfTask.
  destruct (removeEach_reminders (getRemindersForTask tid w) w) as [Hm Ho].
  set (gone := getRemindersForTask tid w) in *.
  set (w' := fst (removeEach gone w)) in *.
  assert (Hgone : forall r, In r gone <-> In r (mapValues (reminders w)) /\ taskId r = tid).
  { intro r. subst gone. unfold getRemindersForTask. rewrite filter_In.
    split; intros [H1 H2]; (split; [exact H1|]);
      [apply String.eqb_eq; exact H2 | apply String.eqb_eq; exact H2]. }
  assert (Hkey : forall e, In e (reminders w) -> fst e = id (snd e)).
  { unfold keysAreIds in Hkeys. rewrite Forall_forall in Hkeys. exact Hkeys. }
  assert (Hleft : forall e, In e (reminders w') <->
                            In e (reminders w) /\ taskId (snd e) <> tid).
  { intro e. rewrite Hm, In_after_deletes. split.
    - intros [Hin Hnot]. split; [exact Hin|]. intro Ht. apply Hnot.
      rewrite (Hkey e Hin). apply in_map. apply Hgone. split; [|exact Ht].
      unfold mapValues. apply in_map. exact Hin.
    - intros [Hin Ht]. split; [exact Hin|]. intro Hk.
      apply in_map_iff in Hk. destruct Hk as (r & Hid & Hr).
      apply Hgone in Hr. destruct Hr as [Hr Htr].
      unfold mapValues in Hr. apply in_map_iff in Hr. destruct Hr as (e' & <- & He').
      assert (e' = e).
      { apply (same_key_same_entry (reminders w)); auto.
        rewrite (Hkey e' He'). exact Hid. }
      subst e'. contradiction. }
  split; [|split; [|exact Ho]].
  - unfold getRemindersForTask.
    destruct (filter (fun r => String.eqb (taskId r) tid) (mapValues (reminders w')))
      as [|r l] eqn:E; [reflexivity|].
    assert (Hin : In r (r :: l)) by (left; reflexivity).
    rewrite <- E in Hin. apply filter_In in Hin. destruct Hin as [Hin Ht].
    unfold mapValues in Hin. apply in_map_iff in Hin. destruct Hin as (e & <- & He).
    apply Hleft in He. apply String.eqb_eq in Ht. tauto.
  - intros other Hother. unfold getRemindersForTask, mapValues.
    rewrite Hm.
    apply (deletes_keep_others (reminders w) other Hnd Hkey); [|auto].
    intros g Hg. apply Hgone in Hg. destruct Hg as [Hg Ht]. split; [exact Hg|].
    congruence.
Qed.

Lemma deleting_a_task_removes_its_reminders_witness :
  getRemindersForTask "t1" (fst (removeRemindersOfTask "t1" (fst (construct 0 persisted))))
    = [].
Proof.
  destruct (deleting_a_task_removes_its_reminders "t1" (fst (construct 0 persisted)))
    as (H & _).
  - repeat constructor.
  - repeat constructor; cbn; intuition discriminate.
  - exact H.
Defined.

End RemindersMore.

(* ================================================================== *)
(** * Properties of the command interpreter *)
(* ================================================================== *)

Module PageProps.

Import TaskTypes Page.

Lemma score_grows words xs :
  forall n, n <= fold_left (fun score word => score + (if hasWord words word then 1 else 0)) xs n.
Proof.
  induction xs as [|x xs IH]; intro n; cbn; [lia|].
  etransitivity; [|apply IH]. lia.
Qed.

Lemma score_positive_iff words xs :
  forall n,
    n < fold_left (fun score word => score + (if hasWord words word then 1 else 0)) xs n
    <-> exists word, In word xs /\ hasWord words word = true.
Proof.
  induction xs as [|x xs IH]; intro n; cbn [fold_left].
  - split; [lia|]. intros (w & [] & _).
  - destruct (hasWord words x) eqn:E.
    + split.
      * intros _. exists x. split; [left; reflexivity|exact E].
      * intros _. pose proof (score_grows words xs (n + 1)). lia.
    + rewrite Nat.add_0_r, IH. split.
      * intros (w & Hin & Hw). exists w. split; [right; exact Hin|exact Hw].
      * intros (w & [->|Hin] & Hw); [congruence|]. exists w. auto.
Qed.

Lemma hasWord_iff words word : hasWord words word = true <-> In word words.
Proof.
  unfold hasWord. rewrite existsb_exists. split.
  - intros (x & Hin & E). apply String.eqb_eq in E. now subst.
  - intro H. exists word. split; [exact H|apply String.eqb_refl].
Qed.

Lemma picks_iff_matches command task :
  (negb (completed task) && (0 <? matchScore (splitOnSpace command) task)) = true
  <-> matches command task.
Proof.
  unfold matches, matchScore. rewrite andb_true_iff, negb_true_iff, Nat.ltb_lt.
  rewrite score_positive_iff. split; intros [Hc (w & Hin & Hw)]; (split; [exact Hc|]);
    exists w; (split; [exact Hin|]); apply hasWord_iff; exact Hw.
Qed.

Lemma find_filter {A} (p q : A -> bool) l :
  find p (filter q l) = find (fun a => q a && p a) l.
Proof.
  induction l as [|a l IH]; cbn; [reflexivity|].
  destruct (q a); cbn; [destruct (p a)|]; auto.
Qed.

Lemma find_first {A} (p : A -> bool) l a :
  find p l = Some a <->
  exists before after, l = before ++ a :: after /\ p a = true /\
                       Forall (fun x => p x = false) before.
Proof.
  split.
  - induction l as [|x l IH]; cbn; [discriminate|].
    destruct (p x) eqn:E.
    + intro H. injection H as <-. exists [], l. repeat split; auto.
    + intro H. destruct (IH H) as (b & c & -> & Hp & Hb).
      exists (x :: b), c. repeat split; auto.
  - intros (b & c & -> & Hp & Hb). induction Hb as [|x b Hx _ IH]; cbn.
    + now rewrite Hp.
    + now rewrite Hx.
Qed.

(** X23.  findTaskByCommand picks the first task of the list that is not
    completed and whose lower-cased title shares a whole word with the
    command (words are what lies between single spaces), and picks nothing
    exactly when no task is like that. *)
Theorem findTaskByCommand_picks_first_match :
  forall tasks command,
    (forall task,
        findTaskByCommand tasks command = Some task <->
        exists before after,
          tasks = before ++ task :: after /\
          matches command task /\
          Forall (fun t => ~ matches command t) before) /\
    (findTaskByCommand tasks command = None <->
     Forall (fun t => ~ matches command t) tasks).
Proof.
  intros tasks command. unfold findTaskByCommand. cbv zeta. rewrite find_filter.
  split.
  - intro task. rewrite find_first. split.
    + intros (b & c & E & Hp & Hb). exists b, c. split; [exact E|].
      split; [apply picks_iff_matches; exact Hp|].
      eapply Forall_impl; [|exact Hb]. cbn beta. intros x Hx Hm.
      apply picks_iff_matches in Hm. rewrite Hm in Hx. discriminate Hx.
    + intros (b & c & E & Hp & Hb). exists b, c. split; [exact E|].
      split; [apply picks_iff_matches; exact Hp|].
      eapply Forall_impl; [|exact Hb]. cbn beta. intros x Hx.
      destruct (negb (completed x) && (0 <? matchScore (splitOnSpace command) x)) eqn:E';
        [|reflexivity].
      exfalso. apply Hx, picks_iff_matches, E'.
  - split.
    + intro H. apply Forall_forall. intros x Hin Hm.
      apply picks_iff_matches in Hm.
      pose proof (find_none _ _ H x Hin) as Hn. cbn beta in Hn.
      rewrite Hm in Hn. discriminate Hn.
    + intro H. rewrite Forall_forall in H.
      destruct (find _ tasks) as [x|] eqn:E; [|reflexivity].
      apply find_some in E. destruct E as [Hin Hp].
      exfalso. apply (H x Hin), picks_iff_matches, Hp.
Qed.

Lemma findTaskByCommand_picks_first_match_witness :
  exists before after,
    groceries = before ++ milkMan :: after /\
    matches "done with the milk" milkMan /\
    Forall (fun t => ~ matches "done with the milk" t) before.
Proof.
  destruct (findTaskByCommand_picks_first_match groceries "done with the milk") as [H _].
  apply (H milkMan). reflexivity.
Defined.

(** X24.  Every command gets exactly one spoken reply.  The reply opens the
    task creator exactly when the command names a create phrase -- whatever
    else it names -- and in every other case hands control back to
    wake-word listening two seconds after it was spoken. *)
Theorem every_command_is_answered :
  forall tasks transcript,
    exists text callback,
      filter isSpeak (handleVoiceCommand tasks transcript) = [Speak text callback] /\
      (saysOneOf createTaskPhrases (trim (toLowerCase transcript)) = true ->
       callback = ThenOpenTaskCreator /\
       Forall (fun c => forall i, c <> ToggleComplete i) (handleVoiceCommand tasks transcript)) /\
      (saysOneOf createTaskPhrases (trim (toLowerCase transcript)) = false ->
       callback = ThenRestartWakeWord 2000).
Proof.
  intros tasks transcript. unfold handleVoiceCommand. cbv zeta.
  destruct (saysOneOf createTaskPhrases _).
  { eexists _, _. split; [reflexivity|]. split; [|discriminate].
    intros _. split; [reflexivity|]. repeat constructor; intros i E; discriminate E. }
  destruct (saysOneOf completeTaskPhrases _).
  { destruct (findTaskByCommand tasks _);
      (eexists _, _; split; [reflexivity|]; split; [discriminate|reflexivity]). }
  destruct (saysOneOf showTasksPhrases _).
  { destruct (filter _ tasks);
      (eexists _, _; split; [reflexivity|]; split; [discriminate|reflexivity]). }
  destruct (saysOneOf helpPhrases _);
    (eexists _, _; split; [reflexivity|]; split; [discriminate|reflexivity]).
Qed.

Lemma every_command_is_answered_witness :
  exists text callback,
    filter isSpeak (handleVoiceCommand groceries "Create task, I am done")
      = [Speak text callback] /\
    callback = ThenOpenTaskCreator.
Proof.
  destruct (every_command_is_answered groceries "Create task, I am done")
    as (text & callback & H1 & H2 & _).
  exists text, callback. split; [exact H1|]. apply H2. reflexivity.
Defined.

Lemma findTaskByCommand_some tasks command task :
  findTaskByCommand tasks command = Some task ->
  In task tasks /\ matches command task.
Proof.
  unfold findTaskByCommand. cbv zeta. rewrite find_filter. intro H.
  apply find_some in H as [Hin Hp]. split; [exact Hin|].
  apply picks_iff_matches, Hp.
Qed.

(** X25.  A command marks a task complete exactly when it holds no create
    phrase, holds a complete phrase, and findTaskByCommand picks that task
    for it; the task picked is in the list, is not completed, and its title
    shares a whole word with the command. *)
Theorem only_matching_tasks_are_completed :
  forall tasks transcript taskId,
    let command := trim (toLowerCase transcript) in
    (In (ToggleComplete taskId) (handleVoiceCommand tasks transcript) <->
     saysOneOf createTaskPhrases command = false /\
     saysOneOf completeTaskPhrases command = true /\
     exists task, findTaskByCommand tasks command = Some task /\ id task = taskId) /\
    (forall task,
        findTaskByCommand tasks command = Some task ->
        In task tasks /\ matches command task).
Proof.
  intros tasks transcript taskId. cbv zeta.
  split; [|intro task; apply findTaskByCommand_some].
  unfold handleVoiceCommand. cbv zeta.
  destruct (saysOneOf createTaskPhrases _).
  { split.
    - intros [E|[E|[E|[]]]]; discriminate E.
    - intros [E _]; discriminate E. }
  destruct (saysOneOf completeTaskPhrases _).
  2:{ split.
      - destruct (saysOneOf showTasksPhrases _).
        + destruct (filter _ tasks); intros [E|[E|[]]]; discriminate E.
        + destruct (saysOneOf helpPhrases _); intros [E|[E|[]]]; discriminate E.
      - intros (_ & E & _); discriminate E. }
  destruct (findTaskByCommand tasks _) as [t|].
  - split.
    + intros [E|[E|[E|[]]]]; try discriminate E. injection E as <-.
      split; [reflexivity|]. split; [reflexivity|]. exists t. split; reflexivity.
    + intros (_ & _ & t' & E & <-). injection E as <-. right. left. reflexivity.
  - split.
    + intros [E|[E|[]]]; discriminate E.
    + intros (_ & _ & t' & E & _). discriminate E.
Qed.

Lemma only_matching_tasks_are_completed_witness :
  In (ToggleComplete "t2") (handleVoiceCommand groceries "Done with the milk") /\
  ~ In (ToggleComplete "t2")
      (handleVoiceCommand groceries "Create task done with the milk").
Proof.
  split.
  - apply (only_matching_tasks_are_completed groceries "Done with the milk" "t2").
    split; [reflexivity|]. split; [reflexivity|].
    exists milkMan. split; reflexivity.
  - intro H.
    apply (only_matching_tasks_are_completed groceries "Create task done with the milk" "t2")
      in H.
    destruct H as [E _]. discriminate E.
Defined.

End PageProps.
